(** * codeed backend: auth-attempt flow and soft-delete repositories

    A shallow embedding of the Go backend (packages [auth], [courses],
    [articles]) over a pure model of the MongoDB collections it talks to.

    - integers of Go type [int] are [Z]; where the code adds to an
      unguarded value the 64-bit wrap-around is written out ([int_wrap]);
    - [time.Time] and [time.Duration] are [Z] (nanoseconds);
    - a collection is the list of its documents in natural order, under
      the unique [_id] index that MongoDB maintains;
    - repository methods thread the collection explicitly; the auth
      repository additionally journals every driver call it issues. *)

From Stdlib Require Import ZArith NArith List String Ascii Bool Lia.
From Stdlib Require Import Strings.Byte.
From Stdlib Require Import Sorted Permutation.
Import ListNotations.

Local Open Scope string_scope.
Local Open Scope list_scope.
Local Open Scope Z_scope.

(** ** Go runtime values *)

Definition Time : Type := Z.
Definition Duration : Type := Z.

(** [t.Add(d)] *)
Definition Time_Add (t : Time) (d : Duration) : Time := t + d.

Definition Minute : Duration := 60 * 1000000000.

(** Two's complement wrap-around of a 64-bit Go [int]. *)
Definition int_wrap (z : Z) : Z := (z + 2 ^ 63) mod 2 ^ 64 - 2 ^ 63.

Definition int_add (a b : Z) : Z := int_wrap (a + b).
Definition int_sub (a b : Z) : Z := int_wrap (a - b).

Definition int_range (z : Z) : Prop := - 2 ^ 63 <= z < 2 ^ 63.

(** ** Errors and results *)

Inductive error : Type :=
| ErrDuplicateKey                 (* driver: E11000 on the _id index *)
| ErrAuthAttemptNotFound
| ErrInvalidAuthAttemptID
| ErrAuthAttemptAlreadyExists
| ErrWrongTelegramUsername
| ErrInvalidCode
| ErrCourseNotFound
| ErrArticleNotFound
| ErrUserNotFound
| ErrNew (msg : string).          (* errors.New(msg) *)

Inductive result (A : Type) : Type :=
| Ok (a : A)
| Err (e : error).

Arguments Ok {A} a.
Arguments Err {A} e.

Definition is_ok {A} (r : result A) : bool :=
  match r with Ok _ => true | Err _ => false end.

(** ** primitive.ObjectID: twelve bytes, printed as 24 hex digits *)

Fixpoint bytes (n : nat) : Type :=
  match n with
  | O => unit
  | S k => (byte * bytes k)%type
  end.

Definition ObjectID : Type := bytes 12.

Fixpoint bytes_eqb (n : nat) : bytes n -> bytes n -> bool :=
  match n with
  | O => fun _ _ => true
  | S k => fun x y => Byte.eqb (fst x) (fst y) && bytes_eqb k (snd x) (snd y)
  end.

Definition oid_eqb (a b : ObjectID) : bool := bytes_eqb 12 a b.

(** encoding/hex: [hextable[v]] *)
Definition hexdigit (v : N) : ascii :=
  ascii_of_N (if (v <? 10)%N then 48 + v else 87 + v)%N.

(** encoding/hex: [fromHexChar] *)
Definition fromHexChar (c : ascii) : option N :=
  let n := N_of_ascii c in
  if ((48 <=? n) && (n <=? 57))%N then Some (n - 48)%N
  else if ((97 <=? n) && (n <=? 102))%N then Some (n - 87)%N
  else if ((65 <=? n) && (n <=? 70))%N then Some (n - 55)%N
  else None.

Fixpoint hex_encode (n : nat) : bytes n -> string :=
  match n with
  | O => fun _ => EmptyString
  | S k => fun x =>
      let v := Byte.to_N (fst x) in
      String (hexdigit (v / 16)) (String (hexdigit (v mod 16)) (hex_encode k (snd x)))
  end.

Fixpoint hex_decode (n : nat) (s : string) : option (bytes n) :=
  match n with
  | O => match s with EmptyString => Some tt | _ => None end
  | S k =>
      match s with
      | String c1 (String c2 rest) =>
          match fromHexChar c1, fromHexChar c2 with
          | Some h, Some l =>
              match Byte.of_N (16 * h + l), hex_decode k rest with
              | Some b, Some tl => Some (b, tl)
              | _, _ => None
              end
          | _, _ => None
          end
      | _ => None
      end
  end.

(** [id.Hex()] *)
Definition Hex (id : ObjectID) : string := hex_encode 12 id.

(** [primitive.ObjectIDFromHex(s)] *)
Definition ObjectIDFromHex (s : string) : option ObjectID :=
  if Nat.eqb (String.length s) 24 then hex_decode 12 s else None.

Definition NilObjectID : ObjectID :=
  (x00, (x00, (x00, (x00, (x00, (x00, (x00, (x00, (x00, (x00, (x00, (x00, tt)))))))))))).

(** The id written as [s], or the nil id when [s] is not 24 hex digits. *)
Definition oid (s : string) : ObjectID :=
  match ObjectIDFromHex s with Some o => o | None => NilObjectID end.

(** ** A MongoDB collection *)

Module Mongo.

Record UpdateResult : Type := mkUpdateResult
  { MatchedCount : Z;
    ModifiedCount : Z }.

Section Collection.
Context {D : Type}.
Variable doc_id : D -> ObjectID.
Variable doc_eqb : D -> D -> bool.

Definition Filter : Type := D -> bool.

(** [FindOne(filter)]: first match in natural order, [None] standing
    for [mongo.ErrNoDocuments]. *)
Definition FindOne (q : Filter) (c : list D) : option D := find q c.

(** [FindOne(filter, SetSort({key: -1}))]: a match of greatest key. *)
Fixpoint FindOneSortDesc (key : D -> Z) (q : Filter) (c : list D) : option D :=
  match c with
  | [] => None
  | d :: rest =>
      if q d then
        match FindOneSortDesc key q rest with
        | Some d' => if key d <? key d' then Some d' else Some d
        | None => Some d
        end
      else FindOneSortDesc key q rest
  end.

(** [Find(filter)]: every match, cursor order. *)
Definition Find (q : Filter) (c : list D) : list D := filter q c.

Definition has_id (i : ObjectID) : Filter := fun d => oid_eqb (doc_id d) i.

(** [InsertOne(doc)]: refused when the [_id] is already taken. *)
Definition InsertOne (d : D) (c : list D) : result (list D) :=
  if existsb (has_id (doc_id d)) c then Err ErrDuplicateKey else Ok (c ++ [d]).

(** [UpdateOne(filter, {$set: ...})]: the first match is rewritten by
    [set]; it counts as modified when the rewrite changed it. *)
Fixpoint UpdateOne (q : Filter) (set : D -> D) (c : list D) : UpdateResult * list D :=
  match c with
  | [] => (mkUpdateResult 0 0, [])
  | d :: rest =>
      if q d then
        (mkUpdateResult 1 (if doc_eqb (set d) d then 0 else 1), set d :: rest)
      else
        let (r, rest') := UpdateOne q set rest in (r, d :: rest')
  end.

(** [UpdateByID(id, update)] *)
Definition UpdateByID (i : ObjectID) (set : D -> D) (c : list D) : UpdateResult * list D :=
  UpdateOne (has_id i) set c.

(** [DeleteOne(filter)]: the first match is removed; returns [DeletedCount]. *)
Fixpoint DeleteOne (q : Filter) (c : list D) : Z * list D :=
  match c with
  | [] => (0, [])
  | d :: rest =>
      if q d then (1, rest)
      else let (n, rest') := DeleteOne q rest in (n, d :: rest')
  end.

(** The unique index on [_id]. *)
Definition unique_ids (c : list D) : Prop := NoDup (map doc_id c).

(** [CountDocuments(filter)] *)
Definition CountDocuments (q : Filter) (c : list D) : Z := Z.of_nat (List.length (filter q c)).

(** Insertion of [d] before the first document whose key is not smaller. *)
Fixpoint insert_asc (key : D -> Z) (d : D) (l : list D) : list D :=
  match l with
  | [] => [d]
  | x :: rest => if key d <=? key x then d :: l else x :: insert_asc key d rest
  end.

(** [Find(filter, SetSort({key: 1}))]: the matches by ascending key,
    documents of equal key in cursor order. *)
Definition FindSortAsc (key : D -> Z) (q : Filter) (c : list D) : list D :=
  fold_right (insert_asc key) [] (filter q c).

End Collection.

End Mongo.

(** ** Package users: what the auth service consumes *)

Module Users.

Record ReadUserDTO : Type := mkReadUserDTO
  { ID : string;
    TelegramUsername : string;
    Username : string;
    FirstName : string;
    LastName : string;
    Role : string;
    CreatedAt : string;
    UpdatedAt : string }.

End Users.

(** ** Package utils *)

Module Utils.

(** *** random.go *)

Definition digits : string := "0123456789".

(** [digits[i]].  An index past the end panics in Go; the callers reduce
    the index modulo [len(digits)] first. *)
Definition digits_at (i : N) : ascii :=
  match String.get (N.to_nat i) digits with
  | Some c => c
  | None => Ascii.zero
  end.

(** [digits[int(v) % len(digits)]] *)
Definition digit_of_byte (v : byte) : ascii :=
  digits_at (Byte.to_N v mod N.of_nat (String.length digits)).

(** [RandomDigits(length)].  [rand_Read] is the outcome of [rand.Read(b)]
    on the buffer [b] of [length] bytes: the bytes the buffer holds
    afterwards, or [None] for an error. *)
Definition RandomDigits (length : Z) (rand_Read : option (list byte)) : string :=
  if length <=? 0 then EmptyString
  else
    match rand_Read with
    | None => EmptyString
    | Some b => string_of_list_ascii (map digit_of_byte b)
    end.

(** The 256 values of a byte, for counting how [digit_of_byte] spreads them. *)
Definition byte_values : list byte :=
  flat_map (fun n => match Byte.of_N (N.of_nat n) with Some v => [v] | None => [] end)
           (seq 0 256).

(** *** jwt.go *)

Definition ErrTokenInvalid : error := ErrNew "token is invalid".

(** [strings.HasPrefix(s, prefix)] *)
Definition HasPrefix (s prefix : string) : bool := String.prefix prefix s.

(** [strings.TrimPrefix(s, prefix)] *)
Definition TrimPrefix (s prefix : string) : string :=
  if HasPrefix s prefix
  then substring (String.length prefix) (String.length s - String.length prefix)%nat s
  else s.

(** [authHeader] is [req.Header.Get("Authorization")], the empty string
    when the request has no such header. *)
Definition GetRawAccessToken (authHeader : string) : result string :=
  if (Z.of_nat (String.length authHeader) =? 0) || negb (HasPrefix authHeader "Bearer ")
  then Err ErrTokenInvalid
  else Ok (TrimPrefix authHeader "Bearer ").

End Utils.

(** ** Package auth *)

Module Auth.

(** *** model.go *)

Inductive AuthType : Type :=
| TypeTelegram
| TypeEmail.

Definition AuthType_eqb (a b : AuthType) : bool :=
  match a, b with
  | TypeTelegram, TypeTelegram => true
  | TypeEmail, TypeEmail => true
  | _, _ => false
  end.

Definition AttemptTTL : Duration := 5 * Minute.
Definition MaxAttempts : Z := 3.
Definition CodeLength : Z := 6.

Record AuthAttempt : Type := mkAuthAttempt
  { ID : ObjectID;
    IdentifierUsed : string;
    Type_ : AuthType;
    Code : string;
    Success : bool;
    AttemptLeft : Z;
    TTL : Duration;
    CreatedAt : Time;
    UpdatedAt : Time }.

Record CreateTelegramCodeRequestDTO : Type := mkCreateTelegramCodeRequestDTO
  { create_TelegramUsername : string }.

Record ReadTelegramCodeRequestDTO : Type := mkReadTelegramCodeRequestDTO
  { read_TelegramUsername : string;
    read_ID : string;
    read_WaitUntil : Time }.

Record CreateCheckTelegramCodeRequestDTO : Type := mkCreateCheckTelegramCodeRequestDTO
  { check_ID : string;
    check_TelegramUsername : string;
    check_Code : string }.

Record TokenPairDTO : Type := mkTokenPairDTO
  { AccessToken : string;
    RefreshToken : string }.

(** [AttemptLeft *int]: [None] is the nil pointer. *)
Record UpdateAuthAttemptDTO : Type := mkUpdateAuthAttemptDTO
  { upd_Success : bool;
    upd_AttemptLeft : option Z }.

Definition ToReadTelegramCodeRequestDTO (u : AuthAttempt) : ReadTelegramCodeRequestDTO :=
  {| read_ID := Hex (ID u);
     read_TelegramUsername := IdentifierUsed u;
     read_WaitUntil := Time_Add (CreatedAt u) (TTL u) |}.

(** [newID], [digits], [now1] and [now2] are what [primitive.NewObjectID()],
    [utils.RandomDigits(CodeLength)] and the two [time.Now().UTC()] calls
    return. *)
Definition ToAuthAttemptFromCreateTelegramCodeRequestDTO
    (dto : CreateTelegramCodeRequestDTO)
    (newID : ObjectID) (digits : string) (now1 now2 : Time) : AuthAttempt :=
  {| ID := newID;
     IdentifierUsed := create_TelegramUsername dto;
     Type_ := TypeTelegram;
     Code := digits;
     Success := false;
     TTL := AttemptTTL;
     AttemptLeft := MaxAttempts;
     CreatedAt := now1;
     UpdatedAt := now2 |}.

Definition AuthAttempt_eqb (a b : AuthAttempt) : bool :=
  oid_eqb (ID a) (ID b)
  && String.eqb (IdentifierUsed a) (IdentifierUsed b)
  && AuthType_eqb (Type_ a) (Type_ b)
  && String.eqb (Code a) (Code b)
  && Bool.eqb (Success a) (Success b)
  && (AttemptLeft a =? AttemptLeft b)
  && (TTL a =? TTL b)
  && (CreatedAt a =? CreatedAt b)
  && (UpdatedAt a =? UpdatedAt b).

(** *** The auth_attempts collection and the calls made on it *)

Inductive DbCall : Type :=
| CallFindOne
| CallInsertOne (i : ObjectID)
| CallUpdateOne (i : ObjectID)
| CallDeleteOne (i : ObjectID).

Definition is_write (c : DbCall) : bool :=
  match c with
  | CallFindOne => false
  | _ => true
  end.

Record Store : Type := mkStore
  { attempts : list AuthAttempt;
    journal : list DbCall }.

(** Repository and service methods: a state monad over [Store] whose
    result is the Go [(value, error)] pair. *)
Definition M (A : Type) : Type := Store -> result A * Store.

Definition ret {A} (a : A) : M A := fun s => (Ok a, s).
Definition fail {A} (e : error) : M A := fun s => (Err e, s).

Definition bind {A B} (m : M A) (k : A -> M B) : M B :=
  fun s =>
    match m s with
    | (Ok a, s') => k a s'
    | (Err e, s') => (Err e, s')
    end.

(** [v, err := m]: hands the error to the caller instead of propagating it. *)
Definition try {A} (m : M A) : M (result A) :=
  fun s => let (r, s') := m s in (Ok r, s').

Notation "x <- m ;; k" := (bind m (fun x => k))
  (at level 61, m at next level, right associativity).
Notation "m ;;; k" := (bind m (fun _ => k))
  (at level 61, right associativity).

Definition record (c : DbCall) (s : Store) : list DbCall := journal s ++ [c].

Definition findOne (q : AuthAttempt -> bool) : M (option AuthAttempt) :=
  fun s => (Ok (Mongo.FindOne q (attempts s)),
            mkStore (attempts s) (record CallFindOne s)).

Definition findOneSortDesc (key : AuthAttempt -> Z) (q : AuthAttempt -> bool)
  : M (option AuthAttempt) :=
  fun s => (Ok (Mongo.FindOneSortDesc key q (attempts s)),
            mkStore (attempts s) (record CallFindOne s)).

Definition insertOne (a : AuthAttempt) : M unit :=
  fun s =>
    match Mongo.InsertOne ID a (attempts s) with
    | Ok c' => (Ok tt, mkStore c' (record (CallInsertOne (ID a)) s))
    | Err e => (Err e, mkStore (attempts s) (record (CallInsertOne (ID a)) s))
    end.

Definition updateOne (i : ObjectID) (set : AuthAttempt -> AuthAttempt)
  : M Mongo.UpdateResult :=
  fun s =>
    let (r, c') := Mongo.UpdateOne AuthAttempt_eqb (Mongo.has_id ID i) set (attempts s) in
    (Ok r, mkStore c' (record (CallUpdateOne i) s)).

Definition deleteOne (i : ObjectID) : M Z :=
  fun s =>
    let (n, c') := Mongo.DeleteOne (Mongo.has_id ID i) (attempts s) in
    (Ok n, mkStore c' (record (CallDeleteOne i) s)).

(** *** mongo_repository.go *)

Definition Create (attempt : AuthAttempt) : M AuthAttempt :=
  insertOne attempt ;;;
  ret attempt.

Definition GetByID (id : string) : M AuthAttempt :=
  match ObjectIDFromHex id with
  | None => fail ErrInvalidAuthAttemptID
  | Some objID =>
      r <- findOne (Mongo.has_id ID objID) ;;
      match r with
      | None => fail ErrAuthAttemptNotFound
      | Some attempt => ret attempt
      end
  end.

(** The [bson.M] built by [Update]: a key is present when its entry is [Some]. *)
Record UpdateSet : Type := mkUpdateSet
  { set_success : option bool;
    set_attempt_left : option Z;
    set_updated_at : option Time }.

Definition present {A} (o : option A) : Z :=
  match o with Some _ => 1 | None => 0 end.

Definition len (u : UpdateSet) : Z :=
  present (set_success u) + present (set_attempt_left u) + present (set_updated_at u).

Definition or_keep {A} (o : option A) (old : A) : A :=
  match o with Some v => v | None => old end.

(** [{"$set": update}] applied to one document. *)
Definition apply_set (u : UpdateSet) (a : AuthAttempt) : AuthAttempt :=
  {| ID := ID a;
     IdentifierUsed := IdentifierUsed a;
     Type_ := Type_ a;
     Code := Code a;
     Success := or_keep (set_success u) (Success a);
     AttemptLeft := or_keep (set_attempt_left u) (AttemptLeft a);
     TTL := TTL a;
     CreatedAt := CreatedAt a;
     UpdatedAt := or_keep (set_updated_at u) (UpdatedAt a) |}.

Definition update_fields (dto : UpdateAuthAttemptDTO) : UpdateSet :=
  {| set_success := if upd_Success dto then Some (upd_Success dto) else None;
     set_attempt_left := upd_AttemptLeft dto;
     set_updated_at := None |}.

Definition Update (id : string) (dto : UpdateAuthAttemptDTO) (now : Time) : M unit :=
  match ObjectIDFromHex id with
  | None => fail ErrInvalidAuthAttemptID
  | Some objID =>
      let update := update_fields dto in
      if len update =? 0 then ret tt
      else
        let update := mkUpdateSet (set_success update) (set_attempt_left update) (Some now) in
        res <- updateOne objID (apply_set update) ;;
        if Mongo.MatchedCount res =? 0 then fail ErrAuthAttemptNotFound
        else ret tt
  end.

Definition Delete (id : string) : M unit :=
  match ObjectIDFromHex id with
  | None => fail ErrInvalidAuthAttemptID
  | Some objID =>
      n <- deleteOne objID ;;
      if n =? 0 then fail ErrAuthAttemptNotFound
      else ret tt
  end.

(** The filter of [GetByTelegramUsername], evaluated at clock reading [now]. *)
Definition valid_attempt (now : Time) (telegramUsername : string) (a : AuthAttempt) : bool :=
  String.eqb (IdentifierUsed a) telegramUsername
  && AuthType_eqb (Type_ a) TypeTelegram
  && (0 <? AttemptLeft a)
  && (Time_Add now (- AttemptTTL) <=? CreatedAt a).

Definition GetByTelegramUsername (telegramUsername : string) (now : Time) : M AuthAttempt :=
  r <- findOneSortDesc CreatedAt (valid_attempt now telegramUsername) ;;
  match r with
  | None => fail ErrAuthAttemptNotFound
  | Some attempt => ret attempt
  end.

(** *** service.go *)

Record Config : Type := mkConfig
  { AccessTokenSecret : string;
    AccessTokenExpires : Duration;
    RefreshTokenSecret : string;
    RefreshTokenExpires : Duration }.

(** The service's collaborators other than the attempt repository, which
    is the [Store] threaded by [M]: the injected [users.UserService]
    lookup, the configuration, and [utils.CreateToken] (signing, clock
    and token id are left to the caller of the model). *)
Record AuthServiceImpl : Type := mkAuthServiceImpl
  { GetUserByTelegramUsername : string -> result Users.ReadUserDTO;
    cfg : Config;
    CreateToken : string -> string -> Duration -> result string }.

Definition lift {A} (r : result A) : M A := fun s => (r, s).

Definition RequestTelegramCode
    (dto : CreateTelegramCodeRequestDTO)
    (now : Time) (newID : ObjectID) (digits : string) (now1 now2 : Time)
  : M ReadTelegramCodeRequestDTO :=
  found <- try (GetByTelegramUsername (create_TelegramUsername dto) now) ;;
  match found with
  | Ok _ => fail ErrAuthAttemptAlreadyExists
  | Err _ =>
      attempt <- Create (ToAuthAttemptFromCreateTelegramCodeRequestDTO dto newID digits now1 now2) ;;
      ret (ToReadTelegramCodeRequestDTO attempt)
  end.

Definition performCodeCheck (attempt : AuthAttempt) (code : string) (now : Time) : M unit :=
  if AttemptLeft attempt <=? 0 then fail ErrInvalidCode
  else if String.eqb (Code attempt) code then
    Update (Hex (ID attempt)) (mkUpdateAuthAttemptDTO true None) now
  else
    let attemptsLeft := int_sub (AttemptLeft attempt) 1 in
    (if attemptsLeft =? 0 then
       Delete (Hex (ID attempt))
     else
       Update (Hex (ID attempt)) (mkUpdateAuthAttemptDTO false (Some attemptsLeft)) now) ;;;
    fail ErrInvalidCode.

Definition generateTokenPair (s : AuthServiceImpl) (user : Users.ReadUserDTO)
  : result TokenPairDTO :=
  match CreateToken s (AccessTokenSecret (cfg s)) (Users.ID user) (AccessTokenExpires (cfg s)) with
  | Err e => Err e
  | Ok accessToken =>
      match CreateToken s (RefreshTokenSecret (cfg s)) (Users.ID user) (RefreshTokenExpires (cfg s)) with
      | Err e => Err e
      | Ok refreshToken => Ok (mkTokenPairDTO accessToken refreshToken)
      end
  end.

Definition CheckTelegramCode
    (s : AuthServiceImpl) (dto : CreateCheckTelegramCodeRequestDTO) (now : Time)
  : M TokenPairDTO :=
  attempt <- GetByID (check_ID dto) ;;
  if negb (String.eqb (IdentifierUsed attempt) (check_TelegramUsername dto)) then
    fail ErrWrongTelegramUsername
  else
    performCodeCheck attempt (check_Code dto) now ;;;
    user <- lift (GetUserByTelegramUsername s (check_TelegramUsername dto)) ;;
    tokenPair <- lift (generateTokenPair s user) ;;
    ret tokenPair.

(** *** Observations used by the statements *)

(** The driver calls [m] issues when started on the collection of [s]. *)
Definition calls_of {A} (m : M A) (s : Store) : list DbCall :=
  journal (snd (m (mkStore (attempts s) []))).

(** How many of them are inserts, updates or deletes. *)
Definition writes_of {A} (m : M A) (s : Store) : nat :=
  List.length (filter is_write (calls_of m s)).

Definition unique_ids (s : Store) : Prop := Mongo.unique_ids ID (attempts s).

(** The [$set] documents [performCodeCheck] sends through [Update]. *)
Definition mark_success (now : Time) : UpdateSet :=
  mkUpdateSet (Some true) None (Some now).

Definition decrement_to (n : Z) (now : Time) : UpdateSet :=
  mkUpdateSet None (Some n) (Some now).

(** The collection after [UpdateOne] / [DeleteOne] on the document [i]. *)
Definition updated (i : ObjectID) (u : UpdateSet) (c : list AuthAttempt) : list AuthAttempt :=
  snd (Mongo.UpdateOne AuthAttempt_eqb (Mongo.has_id ID i) (apply_set u) c).

Definition deleted (i : ObjectID) (c : list AuthAttempt) : list AuthAttempt :=
  snd (Mongo.DeleteOne (Mongo.has_id ID i) c).

(** The store once [GetByID] has issued its [FindOne]. *)
Definition fetched (s : Store) : Store := mkStore (attempts s) (journal s ++ [CallFindOne]).

(** Two attempts that agree on every field but [Code]. *)
Definition same_but_code (u1 u2 : AuthAttempt) : Prop :=
  ID u1 = ID u2
  /\ IdentifierUsed u1 = IdentifierUsed u2
  /\ Type_ u1 = Type_ u2
  /\ Success u1 = Success u2
  /\ AttemptLeft u1 = AttemptLeft u2
  /\ TTL u1 = TTL u2
  /\ CreatedAt u1 = CreatedAt u2
  /\ UpdatedAt u1 = UpdatedAt u2.

(** A sequence of repository [Update] calls: id, DTO and clock reading. *)
Fixpoint run_updates (ops : list (string * UpdateAuthAttemptDTO * Time)) (s : Store) : Store :=
  match ops with
  | [] => s
  | (id, dto, now) :: rest => run_updates rest (snd (Update id dto now s))
  end.

(** Successive [CheckTelegramCode] calls against one attempt id, each with
    its submitted code and clock reading: the results, and the store left. *)
Fixpoint run_checks (svc : AuthServiceImpl) (id username : string)
    (tries : list (string * Time)) (s : Store) : list (result TokenPairDTO) * Store :=
  match tries with
  | [] => ([], s)
  | (code, now) :: rest =>
      let (r, s') :=
        CheckTelegramCode svc (mkCreateCheckTelegramCodeRequestDTO id username code) now s in
      let (rs, s'') := run_checks svc id username rest s' in
      (r :: rs, s'')
  end.

End Auth.

(** ** Helpers shared by the soft-delete repositories *)

Fixpoint strings_eqb (a b : list string) : bool :=
  match a, b with
  | [], [] => true
  | x :: a', y :: b' => String.eqb x y && strings_eqb a' b'
  | _, _ => false
  end.

Definition otime_eqb (a b : option Time) : bool :=
  match a, b with
  | None, None => true
  | Some x, Some y => x =? y
  | _, _ => false
  end.

(** [{"tags": {"$in": wanted}}] on an array field: some element of the
    document's array is one of [wanted]. *)
Definition tags_in (wanted : list string) (doc_tags : list string) : bool :=
  existsb (fun t => existsb (String.eqb t) wanted) doc_tags.

(** Adding a key to a [bson.M] filter: the criteria are conjoined. *)
Definition with_key {D} (q : D -> bool) (p : D -> bool) : D -> bool :=
  fun d => q d && p d.

(** The error [primitive.ObjectIDFromHex(s)] returns when it fails:
    [ErrInvalidHex] for a string that is not 24 characters long, and
    otherwise encoding/hex's [InvalidByteError], whose message (it quotes
    the offending byte) is not spelled out. *)
Definition hex_error (s : string) : error :=
  if Nat.eqb (String.length s) 24
  then ErrNew "encoding/hex: invalid byte"
  else ErrNew "the provided hex string is not a valid ObjectID".

(** ** Package courses *)

Module Courses.

Record Course : Type := mkCourse
  { ID : ObjectID;
    Title : string;
    Description : string;
    AuthorID : ObjectID;
    Tags : list string;
    IsPublished : bool;
    CreatedAt : Time;
    UpdatedAt : Time;
    DeletedAt : option Time }.

Record ReadCourseDTO : Type := mkReadCourseDTO
  { read_ID : string;
    read_Title : string;
    read_Description : string;
    read_AuthorID : string;
    read_Tags : list string;
    read_IsPublished : bool;
    read_CreatedAt : string;
    read_UpdatedAt : string }.

Record FilterCoursesDTO : Type := mkFilterCoursesDTO
  { filter_Title : option string;
    filter_Tags : list string;
    filter_IsPublished : option bool;
    filter_AuthorID : option string }.

Definition Course_eqb (a b : Course) : bool :=
  oid_eqb (ID a) (ID b)
  && String.eqb (Title a) (Title b)
  && String.eqb (Description a) (Description b)
  && oid_eqb (AuthorID a) (AuthorID b)
  && strings_eqb (Tags a) (Tags b)
  && Bool.eqb (IsPublished a) (IsPublished b)
  && (CreatedAt a =? CreatedAt b)
  && (UpdatedAt a =? UpdatedAt b)
  && otime_eqb (DeletedAt a) (DeletedAt b).

(** [{"deleted_at": {"$exists": false}}]: the field is written only when
    the pointer is non-nil ([omitempty]). *)
Definition deleted_at_absent (c : Course) : bool :=
  match DeletedAt c with None => true | Some _ => false end.

(** [{"$set": {"deleted_at": now}}] *)
Definition set_deleted_at (now : Time) (c : Course) : Course :=
  {| ID := ID c; Title := Title c; Description := Description c;
     AuthorID := AuthorID c; Tags := Tags c; IsPublished := IsPublished c;
     CreatedAt := CreatedAt c; UpdatedAt := UpdatedAt c;
     DeletedAt := Some now |}.

Record CreateCourseDTO : Type := mkCreateCourseDTO
  { create_Title : string;
    create_Description : string;
    create_AuthorID : string;
    create_Tags : list string }.

(** Pointer fields: [None] is the nil pointer. *)
Record UpdateCourseDTO : Type := mkUpdateCourseDTO
  { upd_Title : option string;
    upd_Description : option string;
    upd_Tags : option (list string);
    upd_IsPublished : option bool }.

(** [newID] and [now] are what [primitive.NewObjectID()] and
    [time.Now().UTC()] return. *)
Definition ToCourseFromCreateDTO (dto : CreateCourseDTO) (newID : ObjectID) (now : Time)
  : result Course :=
  match ObjectIDFromHex (create_AuthorID dto) with
  | None => Err (hex_error (create_AuthorID dto))
  | Some authorID =>
      Ok {| ID := newID;
            Title := create_Title dto;
            Description := create_Description dto;
            AuthorID := authorID;
            Tags := create_Tags dto;
            IsPublished := false;
            CreatedAt := now;
            UpdatedAt := now;
            DeletedAt := None |}
  end.

(** The [set] map of [ToBsonUpdateFromUpdateDTO]: a key is present when
    its entry is [Some]. *)
Record CourseSet : Type := mkCourseSet
  { set_title : option string;
    set_description : option string;
    set_tags : option (list string);
    set_is_published : option bool;
    set_updated_at : option Time }.

Definition set_len (u : CourseSet) : Z :=
  Auth.present (set_title u) + Auth.present (set_description u) + Auth.present (set_tags u)
  + Auth.present (set_is_published u) + Auth.present (set_updated_at u).

(** The returned [bson.M]: [None] is the empty map, [Some set] is
    [{"$set": set}]. *)
Definition ToBsonUpdateFromUpdateDTO (dto : UpdateCourseDTO) (now : Time) : option CourseSet :=
  let set := mkCourseSet (upd_Title dto) (upd_Description dto) (upd_Tags dto)
                         (upd_IsPublished dto) None in
  if set_len set =? 0 then None
  else Some (mkCourseSet (set_title set) (set_description set) (set_tags set)
                         (set_is_published set) (Some now)).

(** [{"$set": set}] applied to one document. *)
Definition apply_set (u : CourseSet) (c : Course) : Course :=
  {| ID := ID c;
     Title := Auth.or_keep (set_title u) (Title c);
     Description := Auth.or_keep (set_description u) (Description c);
     AuthorID := AuthorID c;
     Tags := Auth.or_keep (set_tags u) (Tags c);
     IsPublished := Auth.or_keep (set_is_published u) (IsPublished c);
     CreatedAt := CreatedAt c;
     UpdatedAt := Auth.or_keep (set_updated_at u) (UpdatedAt c);
     DeletedAt := DeletedAt c |}.

Section Repository.
(** [t.Format(time.RFC3339)] and the server's case-insensitive
    [$regex] match (pattern, subject). *)
Variable FormatRFC3339 : Time -> string.
Variable regex_i : string -> string -> bool.

Definition ToReadDTO (c : Course) : ReadCourseDTO :=
  {| read_ID := Hex (ID c);
     read_Title := Title c;
     read_Description := Description c;
     read_AuthorID := Hex (AuthorID c);
     read_Tags := Tags c;
     read_IsPublished := IsPublished c;
     read_CreatedAt := FormatRFC3339 (CreatedAt c);
     read_UpdatedAt := FormatRFC3339 (UpdatedAt c) |}.

Definition GetByID (id : string) (coll : list Course) : result ReadCourseDTO :=
  match ObjectIDFromHex id with
  | None => Err (ErrNew "invalid course id format")
  | Some objectID =>
      let filter := with_key (Mongo.has_id ID objectID) deleted_at_absent in
      match Mongo.FindOne filter coll with
      | None => Err ErrCourseNotFound
      | Some course => Ok (ToReadDTO course)
      end
  end.

Definition DeleteByID (id : string) (now : Time) (coll : list Course)
  : result unit * list Course :=
  match ObjectIDFromHex id with
  | None => (Err (ErrNew "invalid course id format"), coll)
  | Some objectID =>
      let (res, coll') := Mongo.UpdateByID ID Course_eqb objectID (set_deleted_at now) coll in
      if Mongo.ModifiedCount res =? 0 then (Err ErrCourseNotFound, coll')
      else (Ok tt, coll')
  end.

Definition Find (filterDTO : FilterCoursesDTO) (coll : list Course)
  : result (list ReadCourseDTO) :=
  let filter := deleted_at_absent in
  let filter :=
    match filter_Title filterDTO with
    | Some title =>
        if negb (String.eqb title "") then
          with_key filter (fun c => regex_i title (Title c))
        else filter
    | None => filter
    end in
  let filter :=
    if 0 <? Z.of_nat (List.length (filter_Tags filterDTO)) then
      with_key filter (fun c => tags_in (filter_Tags filterDTO) (Tags c))
    else filter in
  let filter :=
    match filter_IsPublished filterDTO with
    | Some p => with_key filter (fun c => Bool.eqb (IsPublished c) p)
    | None => filter
    end in
  match filter_AuthorID filterDTO with
  | Some a =>
      match ObjectIDFromHex a with
      | None => Err (ErrNew "invalid author id format")
      | Some authorID =>
          let filter := with_key filter (fun c => oid_eqb (AuthorID c) authorID) in
          Ok (map ToReadDTO (Mongo.Find filter coll))
      end
  | None => Ok (map ToReadDTO (Mongo.Find filter coll))
  end.

Definition Create (dto : CreateCourseDTO) (newID : ObjectID) (now : Time) (coll : list Course)
  : result ReadCourseDTO * list Course :=
  match ToCourseFromCreateDTO dto newID now with
  | Err e => (Err e, coll)
  | Ok course =>
      match Mongo.InsertOne ID course coll with
      | Err e => (Err e, coll)
      | Ok coll' => (Ok (ToReadDTO course), coll')
      end
  end.

Definition UpdateByID (id : string) (dto : UpdateCourseDTO) (now : Time) (coll : list Course)
  : result unit * list Course :=
  match ObjectIDFromHex id with
  | None => (Err (ErrNew "invalid course id format"), coll)
  | Some objectID =>
      match ToBsonUpdateFromUpdateDTO dto now with
      | None => (Ok tt, coll)
      | Some update =>
          let (res, coll') :=
            Mongo.UpdateByID ID Course_eqb objectID (apply_set update) coll in
          if Mongo.MatchedCount res =? 0 then (Err ErrCourseNotFound, coll')
          else (Ok tt, coll')
      end
  end.

End Repository.

End Courses.

(** ** Package articles *)

Module Articles.

Record Article : Type := mkArticle
  { ID : ObjectID;
    CourseID : ObjectID;
    Title : string;
    ContentMD : string;
    ContentTxt : string;
    Order : Z;
    Version : Z;
    Tags : list string;
    IsDraft : bool;
    CreatedAt : Time;
    UpdatedAt : Time;
    DeletedAt : option Time }.

Record ReadArticleDTO : Type := mkReadArticleDTO
  { read_ID : string;
    read_CourseID : string;
    read_Title : string;
    read_ContentMD : string;
    read_ContentTxt : string;
    read_Order : Z;
    read_Version : Z;
    read_Tags : list string;
    read_IsDraft : bool;
    read_CreatedAt : string;
    read_UpdatedAt : string }.

Record FilterArticlesDTO : Type := mkFilterArticlesDTO
  { filter_CourseID : option string;
    filter_Title : option string;
    filter_Tags : list string;
    filter_IsDraft : option bool;
    filter_Version : option Z }.

Definition Article_eqb (a b : Article) : bool :=
  oid_eqb (ID a) (ID b)
  && oid_eqb (CourseID a) (CourseID b)
  && String.eqb (Title a) (Title b)
  && String.eqb (ContentMD a) (ContentMD b)
  && String.eqb (ContentTxt a) (ContentTxt b)
  && (Order a =? Order b)
  && (Version a =? Version b)
  && strings_eqb (Tags a) (Tags b)
  && Bool.eqb (IsDraft a) (IsDraft b)
  && (CreatedAt a =? CreatedAt b)
  && (UpdatedAt a =? UpdatedAt b)
  && otime_eqb (DeletedAt a) (DeletedAt b).

Definition deleted_at_absent (a : Article) : bool :=
  match DeletedAt a with None => true | Some _ => false end.

Definition set_deleted_at (now : Time) (a : Article) : Article :=
  {| ID := ID a; CourseID := CourseID a; Title := Title a;
     ContentMD := ContentMD a; ContentTxt := ContentTxt a; Order := Order a;
     Version := Version a; Tags := Tags a; IsDraft := IsDraft a;
     CreatedAt := CreatedAt a; UpdatedAt := UpdatedAt a;
     DeletedAt := Some now |}.

Record CreateArticleDTO : Type := mkCreateArticleDTO
  { create_CourseID : string;
    create_Title : string;
    create_ContentMD : string;
    create_ContentTxt : string;
    create_Order : Z;
    create_Tags : list string }.

(** Pointer fields: [None] is the nil pointer. *)
Record UpdateArticleDTO : Type := mkUpdateArticleDTO
  { upd_Title : option string;
    upd_ContentMD : option string;
    upd_ContentTxt : option string;
    upd_Order : option Z;
    upd_Version : option Z;
    upd_Tags : option (list string);
    upd_IsDraft : option bool }.

(** [newID] and [now] are what [primitive.NewObjectID()] and
    [time.Now().UTC()] return. *)
Definition ToArticleFromCreateDTO (dto : CreateArticleDTO) (newID : ObjectID) (now : Time)
  : result Article :=
  match ObjectIDFromHex (create_CourseID dto) with
  | None => Err (hex_error (create_CourseID dto))
  | Some courseID =>
      Ok {| ID := newID;
            CourseID := courseID;
            Title := create_Title dto;
            ContentMD := create_ContentMD dto;
            ContentTxt := create_ContentTxt dto;
            Order := create_Order dto;
            Version := 1;
            IsDraft := true;
            Tags := create_Tags dto;
            CreatedAt := now;
            UpdatedAt := now;
            DeletedAt := None |}
  end.

(** The [set] map of [ToBsonUpdateFromUpdateDTO]. *)
Record ArticleSet : Type := mkArticleSet
  { set_title : option string;
    set_content_md : option string;
    set_content_txt : option string;
    set_order : option Z;
    set_version : option Z;
    set_tags : option (list string);
    set_is_draft : option bool;
    set_updated_at : option Time }.

Definition set_len (u : ArticleSet) : Z :=
  Auth.present (set_title u) + Auth.present (set_content_md u)
  + Auth.present (set_content_txt u) + Auth.present (set_order u)
  + Auth.present (set_version u) + Auth.present (set_tags u)
  + Auth.present (set_is_draft u) + Auth.present (set_updated_at u).

(** The returned [bson.M]: [None] is the empty map, [Some set] is
    [{"$set": set}]. *)
Definition ToBsonUpdateFromUpdateDTO (dto : UpdateArticleDTO) (now : Time) : option ArticleSet :=
  let set := mkArticleSet (upd_Title dto) (upd_ContentMD dto) (upd_ContentTxt dto)
                          (upd_Order dto) (upd_Version dto) (upd_Tags dto)
                          (upd_IsDraft dto) None in
  if set_len set =? 0 then None
  else Some (mkArticleSet (set_title set) (set_content_md set) (set_content_txt set)
                          (set_order set) (set_version set) (set_tags set)
                          (set_is_draft set) (Some now)).

(** [{"$set": set}] applied to one document. *)
Definition apply_set (u : ArticleSet) (a : Article) : Article :=
  {| ID := ID a;
     CourseID := CourseID a;
     Title := Auth.or_keep (set_title u) (Title a);
     ContentMD := Auth.or_keep (set_content_md u) (ContentMD a);
     ContentTxt := Auth.or_keep (set_content_txt u) (ContentTxt a);
     Order := Auth.or_keep (set_order u) (Order a);
     Version := Auth.or_keep (set_version u) (Version a);
     Tags := Auth.or_keep (set_tags u) (Tags a);
     IsDraft := Auth.or_keep (set_is_draft u) (IsDraft a);
     CreatedAt := CreatedAt a;
     UpdatedAt := Auth.or_keep (set_updated_at u) (UpdatedAt a);
     DeletedAt := DeletedAt a |}.

Section Repository.
Variable FormatRFC3339 : Time -> string.

Definition ToReadDTO (a : Article) : ReadArticleDTO :=
  {| read_ID := Hex (ID a);
     read_CourseID := Hex (CourseID a);
     read_Title := Title a;
     read_ContentMD := ContentMD a;
     read_ContentTxt := ContentTxt a;
     read_Order := Order a;
     read_Version := Version a;
     read_Tags := Tags a;
     read_IsDraft := IsDraft a;
     read_CreatedAt := FormatRFC3339 (CreatedAt a);
     read_UpdatedAt := FormatRFC3339 (UpdatedAt a) |}.

Definition GetByID (id : string) (coll : list Article) : result ReadArticleDTO :=
  match ObjectIDFromHex id with
  | None => Err (ErrNew "invalid article id format")
  | Some objectID =>
      let filter := with_key (Mongo.has_id ID objectID) deleted_at_absent in
      match Mongo.FindOne filter coll with
      | None => Err ErrArticleNotFound
      | Some a => Ok (ToReadDTO a)
      end
  end.

Definition DeleteByID (id : string) (now : Time) (coll : list Article)
  : result unit * list Article :=
  match ObjectIDFromHex id with
  | None => (Err (ErrNew "invalid article id format"), coll)
  | Some objectID =>
      let (res, coll') := Mongo.UpdateByID ID Article_eqb objectID (set_deleted_at now) coll in
      if Mongo.ModifiedCount res =? 0 then (Err ErrArticleNotFound, coll')
      else (Ok tt, coll')
  end.

Definition Find (filterDTO : FilterArticlesDTO) (coll : list Article)
  : result (list ReadArticleDTO) :=
  let filter := deleted_at_absent in
  match
    match filter_CourseID filterDTO with
    | Some courseID =>
        match ObjectIDFromHex courseID with
        | None => Err (ErrNew "invalid course id format")
        | Some cid => Ok (with_key filter (fun a => oid_eqb (CourseID a) cid))
        end
    | None => Ok filter
    end
  with
  | Err e => Err e
  | Ok filter =>
      let filter :=
        match filter_IsDraft filterDTO with
        | Some d => with_key filter (fun a => Bool.eqb (IsDraft a) d)
        | None => filter
        end in
      let filter :=
        if 0 <? Z.of_nat (List.length (filter_Tags filterDTO)) then
          with_key filter (fun a => tags_in (filter_Tags filterDTO) (Tags a))
        else filter in
      Ok (map ToReadDTO (Mongo.Find filter coll))
  end.

(** [newID] and [now] are what [primitive.NewObjectID()] and
    [time.Now().UTC()] return.  When the sibling lookup finds nothing,
    [latest] keeps its zero value, whose version is 0. *)
Definition CloneWithIncrementedVersion
    (id : string) (newID : ObjectID) (now : Time) (coll : list Article)
  : result ReadArticleDTO * list Article :=
  match ObjectIDFromHex id with
  | None => (Err (ErrNew "invalid article id format"), coll)
  | Some objectID =>
      match Mongo.FindOne (with_key (Mongo.has_id ID objectID) deleted_at_absent) coll with
      | None => (Err ErrArticleNotFound, coll)
      | Some original =>
          let filter :=
            with_key (with_key (fun a => oid_eqb (CourseID a) (CourseID original))
                               (fun a => String.eqb (Title a) (Title original)))
                     deleted_at_absent in
          let latest_Version :=
            match Mongo.FindOneSortDesc Version filter coll with
            | Some latest => Version latest
            | None => 0
            end in
          let clone :=
            {| ID := newID;
               CourseID := CourseID original;
               Title := Title original;
               ContentMD := ContentMD original;
               ContentTxt := ContentTxt original;
               Order := Order original;
               Version := int_add (Z.max (Version original) latest_Version) 1;
               Tags := Tags original;
               IsDraft := IsDraft original;
               CreatedAt := now;
               UpdatedAt := now;
               DeletedAt := None |} in
          match Mongo.InsertOne ID clone coll with
          | Err e => (Err e, coll)
          | Ok coll' => (Ok (ToReadDTO clone), coll')
          end
      end
  end.

Definition Create (dto : CreateArticleDTO) (newID : ObjectID) (now : Time) (coll : list Article)
  : result ReadArticleDTO * list Article :=
  match ToArticleFromCreateDTO dto newID now with
  | Err e => (Err e, coll)
  | Ok article =>
      match Mongo.InsertOne ID article coll with
      | Err e => (Err e, coll)
      | Ok coll' => (Ok (ToReadDTO article), coll')
      end
  end.

Definition UpdateByID (id : string) (dto : UpdateArticleDTO) (now : Time) (coll : list Article)
  : result unit * list Article :=
  match ObjectIDFromHex id with
  | None => (Err (ErrNew "invalid article id format"), coll)
  | Some objectID =>
      match ToBsonUpdateFromUpdateDTO dto now with
      | None => (Ok tt, coll)
      | Some update =>
          let (res, coll') :=
            Mongo.UpdateByID ID Article_eqb objectID (apply_set update) coll in
          if Mongo.MatchedCount res =? 0 then (Err ErrArticleNotFound, coll')
          else (Ok tt, coll')
      end
  end.

Definition FindAllVersions (courseID title : string) (coll : list Article)
  : result (list ReadArticleDTO) :=
  match ObjectIDFromHex courseID with
  | None => Err (ErrNew "invalid course id format")
  | Some cid =>
      let filter :=
        with_key (with_key (fun a => oid_eqb (CourseID a) cid)
                           (fun a => String.eqb (Title a) title))
                 deleted_at_absent in
      Ok (map ToReadDTO (Mongo.FindSortAsc Version filter coll))
  end.

(** *** The article service: [UpdateWithVersioning]

    [newID] and [now1] are drawn by the clone, [now2] by the update. *)
Definition UpdateWithVersioning
    (id : string) (dto : UpdateArticleDTO) (newID : ObjectID) (now1 now2 : Time)
    (coll : list Article) : result ReadArticleDTO * list Article :=
  match CloneWithIncrementedVersion id newID now1 coll with
  | (Err e, coll1) => (Err e, coll1)
  | (Ok cloned, coll1) =>
      match UpdateByID (read_ID cloned) dto now2 coll1 with
      | (Err e, coll2) => (Err e, coll2)
      | (Ok _, coll2) => (GetByID (read_ID cloned) coll2, coll2)
      end
  end.

End Repository.

End Articles.

(** ** Package users: model and repository *)

Module UserRepo.

Definition ErrUserExists : error := ErrNew "user already exists".
Definition ErrInvalidIDFormat : error := ErrNew "invalid user id format".

Record User : Type := mkUser
  { ID : ObjectID;
    TelegramUsername : string;
    Username : string;
    FirstName : string;
    LastName : string;
    Role : string;
    CreatedAt : Time;
    UpdatedAt : Time;
    DeletedAt : option Time }.

Record CreateUserDTO : Type := mkCreateUserDTO
  { create_TelegramUsername : string;
    create_Username : string;
    create_FirstName : string;
    create_LastName : string;
    create_Role : string }.

(** Pointer fields: [None] is the nil pointer. *)
Record UpdateUserDTO : Type := mkUpdateUserDTO
  { upd_Username : option string;
    upd_FirstName : option string;
    upd_LastName : option string }.

Definition User_eqb (a b : User) : bool :=
  oid_eqb (ID a) (ID b)
  && String.eqb (TelegramUsername a) (TelegramUsername b)
  && String.eqb (Username a) (Username b)
  && String.eqb (FirstName a) (FirstName b)
  && String.eqb (LastName a) (LastName b)
  && String.eqb (Role a) (Role b)
  && (CreatedAt a =? CreatedAt b)
  && (UpdatedAt a =? UpdatedAt b)
  && otime_eqb (DeletedAt a) (DeletedAt b).

(** [newID], [now1] and [now2] are what [primitive.NewObjectID()] and the
    two [time.Now().UTC()] calls return. *)
Definition ToUserFromCreateDTO (dto : CreateUserDTO) (newID : ObjectID) (now1 now2 : Time)
  : User :=
  {| ID := newID;
     TelegramUsername := create_TelegramUsername dto;
     Username := create_Username dto;
     FirstName := create_FirstName dto;
     LastName := create_LastName dto;
     Role := create_Role dto;
     CreatedAt := now1;
     UpdatedAt := now2;
     DeletedAt := None |}.

(** The [update] map of [ToBsonUpdateFromUpdateDTO]. *)
Record UserSet : Type := mkUserSet
  { set_username : option string;
    set_first_name : option string;
    set_last_name : option string;
    set_updated_at : option Time }.

Definition set_len (u : UserSet) : Z :=
  Auth.present (set_username u) + Auth.present (set_first_name u)
  + Auth.present (set_last_name u) + Auth.present (set_updated_at u).

(** The returned [bson.M]: [None] is the empty map, [Some update] is
    [{"$set": update}]. *)
Definition ToBsonUpdateFromUpdateDTO (dto : UpdateUserDTO) (now : Time) : option UserSet :=
  let update := mkUserSet (upd_Username dto) (upd_FirstName dto) (upd_LastName dto) None in
  if set_len update =? 0 then None
  else Some (mkUserSet (set_username update) (set_first_name update) (set_last_name update)
                       (Some now)).

Definition apply_set (u : UserSet) (a : User) : User :=
  {| ID := ID a;
     TelegramUsername := TelegramUsername a;
     Username := Auth.or_keep (set_username u) (Username a);
     FirstName := Auth.or_keep (set_first_name u) (FirstName a);
     LastName := Auth.or_keep (set_last_name u) (LastName a);
     Role := Role a;
     CreatedAt := CreatedAt a;
     UpdatedAt := Auth.or_keep (set_updated_at u) (UpdatedAt a);
     DeletedAt := DeletedAt a |}.

(** [{"$set": {"deleted_at": now}}] *)
Definition set_deleted_at (now : Time) (a : User) : User :=
  {| ID := ID a; TelegramUsername := TelegramUsername a; Username := Username a;
     FirstName := FirstName a; LastName := LastName a; Role := Role a;
     CreatedAt := CreatedAt a; UpdatedAt := UpdatedAt a;
     DeletedAt := Some now |}.

(** [{"telegram_username": telegramUsername}] *)
Definition has_telegram_username (telegramUsername : string) (u : User) : bool :=
  String.eqb (TelegramUsername u) telegramUsername.

Section Repository.
Variable FormatRFC3339 : Time -> string.

Definition ToReadUserDTO (u : User) : Users.ReadUserDTO :=
  {| Users.ID := Hex (ID u);
     Users.TelegramUsername := TelegramUsername u;
     Users.Username := Username u;
     Users.FirstName := FirstName u;
     Users.LastName := LastName u;
     Users.Role := Role u;
     Users.CreatedAt := FormatRFC3339 (CreatedAt u);
     Users.UpdatedAt := FormatRFC3339 (UpdatedAt u) |}.

Definition Create (dto : CreateUserDTO) (newID : ObjectID) (now1 now2 : Time)
    (coll : list User) : result Users.ReadUserDTO * list User :=
  let count :=
    Mongo.CountDocuments (has_telegram_username (create_TelegramUsername dto)) coll in
  if 0 <? count then (Err ErrUserExists, coll)
  else
    let user := ToUserFromCreateDTO dto newID now1 now2 in
    match Mongo.InsertOne ID user coll with
    | Err e => (Err e, coll)
    | Ok coll' => (Ok (ToReadUserDTO user), coll')
    end.

Definition GetByID (id : string) (coll : list User) : result Users.ReadUserDTO :=
  match ObjectIDFromHex id with
  | None => Err ErrInvalidIDFormat
  | Some objectID =>
      match Mongo.FindOne (Mongo.has_id ID objectID) coll with
      | None => Err ErrUserNotFound
      | Some u => Ok (ToReadUserDTO u)
      end
  end.

Definition GetByTelegramUsername (telegramUsername : string) (coll : list User)
  : result Users.ReadUserDTO :=
  match Mongo.FindOne (has_telegram_username telegramUsername) coll with
  | None => Err ErrUserNotFound
  | Some u => Ok (ToReadUserDTO u)
  end.

Definition UpdateByID (id : string) (dto : UpdateUserDTO) (now : Time) (coll : list User)
  : result unit * list User :=
  match ObjectIDFromHex id with
  | None => (Err ErrInvalidIDFormat, coll)
  | Some objectID =>
      match ToBsonUpdateFromUpdateDTO dto now with
      | None => (Ok tt, coll)
      | Some update =>
          let (res, coll') :=
            Mongo.UpdateByID ID User_eqb objectID (apply_set update) coll in
          if Mongo.MatchedCount res =? 0 then (Err ErrUserNotFound, coll')
          else (Ok tt, coll')
      end
  end.

Definition DeleteByID (id : string) (now : Time) (coll : list User)
  : result unit * list User :=
  match ObjectIDFromHex id with
  | None => (Err ErrInvalidIDFormat, coll)
  | Some objectID =>
      let (res, coll') := Mongo.UpdateByID ID User_eqb objectID (set_deleted_at now) coll in
      if Mongo.ModifiedCount res =? 0 then (Err ErrUserNotFound, coll')
      else (Ok tt, coll')
  end.

End Repository.

End UserRepo.

(** ** Sample data *)

Module Samples.

Definition id1 : ObjectID := oid "64e21f6a2f1c8e1c0a3d4f5b".
Definition id2 : ObjectID := oid "64e21f6a2f1c8e1c0a3d4f5c".
Definition id3 : ObjectID := oid "64e21f6a2f1c8e1c0a3d4f5d".
Definition course1 : ObjectID := oid "64e21f6a2f1c8e1c0a3d4f00".
Definition author1 : ObjectID := oid "64e21f6a2f1c8e1c0a3d4f01".

(** An attempt of "bob" issued at time 1000 with code 123456. *)
Definition bob (left : Z) (success : bool) : Auth.AuthAttempt :=
  Auth.mkAuthAttempt id1 "bob" Auth.TypeTelegram "123456" success left Auth.AttemptTTL 1000 1000.

Definition store_of (a : Auth.AuthAttempt) : Auth.Store := Auth.mkStore [a] [].

Definition check (username code : string) : Auth.CreateCheckTelegramCodeRequestDTO :=
  Auth.mkCreateCheckTelegramCodeRequestDTO "64e21f6a2f1c8e1c0a3d4f5b" username code.

Definition user_bob : Users.ReadUserDTO :=
  Users.mkReadUserDTO "64e21f6a2f1c8e1c0a3d4f01" "bob" "bob" "Bob" "B" "student" "" "".

Definition svc : Auth.AuthServiceImpl :=
  Auth.mkAuthServiceImpl
    (fun u => if String.eqb u "bob" then Ok user_bob else Err ErrUserNotFound)
    (Auth.mkConfig "access" (15 * Minute) "refresh" (600 * Minute))
    (fun secret user _ => Ok (secret ++ ":" ++ user)%string).

(** Two published versions of one article, and a soft-deleted one. *)
Definition article (i : ObjectID) (version : Z) (draft : bool) (gone : option Time)
  : Articles.Article :=
  Articles.mkArticle i course1 "Intro to Markdown" "# Markdown" "Markdown" 1 version
    ["markdown"] draft 1000 1000 gone.

Definition versions_1_2 : list Articles.Article :=
  [article id1 1 false None; article id2 2 false None].

Definition course (i : ObjectID) (gone : option Time) : Courses.Course :=
  Courses.mkCourse i "Golang Basics" "Intro to Go" author1 ["go"] true 1000 1000 gone.

Definition rfc3339 (t : Time) : string := "".
Definition regex_any (pattern subject : string) : bool := true.

End Samples.

(** * Properties *)

(** * Properties *)

(** ** ObjectID *)

Lemma bytes_eqb_eq (n : nat) (x y : bytes n) : bytes_eqb n x y = true <-> x = y.
Proof.
  induction n as [|n IH]; simpl.
  - destruct x, y; tauto.
  - destruct x as [a x], y as [b y]; simpl.
    rewrite andb_true_iff, IH. split.
    + intros [Hab Hxy]. apply Byte.byte_dec_bl in Hab. congruence.
    + intros E. inversion E; subst. split; [apply Byte.byte_dec_lb|]; reflexivity.
Qed.

Lemma oid_eqb_eq (a b : ObjectID) : oid_eqb a b = true <-> a = b.
Proof. apply bytes_eqb_eq. Qed.

Lemma oid_eqb_refl (a : ObjectID) : oid_eqb a a = true.
Proof. apply oid_eqb_eq. reflexivity. Qed.

Lemma oid_eqb_neq (a b : ObjectID) : oid_eqb a b = false <-> a <> b.
Proof.
  rewrite <- oid_eqb_eq. destruct (oid_eqb a b); split; congruence.
Qed.

Lemma hex_byte_roundtrip (b : byte) :
  fromHexChar (hexdigit (Byte.to_N b / 16)) = Some (Byte.to_N b / 16)%N
  /\ fromHexChar (hexdigit (Byte.to_N b mod 16)) = Some (Byte.to_N b mod 16)%N
  /\ Byte.of_N (16 * (Byte.to_N b / 16) + Byte.to_N b mod 16) = Some b.
Proof. destruct b; vm_compute; auto. Qed.

Lemma hex_decode_encode (n : nat) (x : bytes n) : hex_decode n (hex_encode n x) = Some x.
Proof.
  induction n as [|n IH].
  - destruct x. reflexivity.
  - destruct x as [b x].
    destruct (hex_byte_roundtrip b) as (Hh & Hl & Hb).
    cbn [hex_encode hex_decode fst snd].
    rewrite Hh, Hl, Hb, IH. reflexivity.
Qed.

Lemma hex_encode_length (n : nat) (x : bytes n) :
  String.length (hex_encode n x) = (2 * n)%nat.
Proof.
  induction n as [|n IH]; [reflexivity|].
  destruct x as [b x]. cbn [hex_encode String.length fst snd].
  rewrite IH. lia.
Qed.

(** [ObjectIDFromHex] undoes [Hex]. *)
Lemma ObjectIDFromHex_Hex (o : ObjectID) : ObjectIDFromHex (Hex o) = Some o.
Proof.
  unfold ObjectIDFromHex, Hex. rewrite hex_encode_length. simpl Nat.eqb.
  apply hex_decode_encode.
Qed.

Lemma Hex_inj (a b : ObjectID) : Hex a = Hex b -> a = b.
Proof.
  intros E. pose proof (ObjectIDFromHex_Hex a) as Ha.
  rewrite E, ObjectIDFromHex_Hex in Ha. congruence.
Qed.

(** ** Collections *)

Section CollectionFacts.
Context {D : Type}.
Variable doc_id : D -> ObjectID.
Variable doc_eqb : D -> D -> bool.

Local Abbreviation has_id := (Mongo.has_id doc_id).

Lemma has_id_true (i : ObjectID) (d : D) : has_id i d = true <-> doc_id d = i.
Proof. apply oid_eqb_eq. Qed.

Lemma FindOne_Some (q : D -> bool) (c : list D) (d : D) :
  Mongo.FindOne q c = Some d -> In d c /\ q d = true.
Proof. apply find_some. Qed.

Lemma FindOne_None (q : D -> bool) (c : list D) :
  Mongo.FindOne q c = None <-> forall d, In d c -> q d = false.
Proof.
  split; [intros H d; apply (find_none _ _ H)|].
  induction c as [|x c IH]; intros H; [reflexivity|].
  simpl. rewrite (H x (or_introl eq_refl)). apply IH.
  intros d Hd. apply H. right. exact Hd.
Qed.

(** Under the unique index, no document carries an id that a document
    deleted before it carried. *)
Lemma unique_ids_tail (d : D) (c : list D) :
  Mongo.unique_ids doc_id (d :: c) ->
  Mongo.unique_ids doc_id c /\ forall x, In x c -> has_id (doc_id d) x = false.
Proof.
  unfold Mongo.unique_ids. simpl. intros H. inversion H as [|? ? Hn Hc]; subst.
  split; [exact Hc|]. intros x Hx.
  destruct (has_id (doc_id d) x) eqn:E; [|reflexivity].
  apply has_id_true in E. exfalso. apply Hn. rewrite <- E. apply in_map. exact Hx.
Qed.

Lemma DeleteOne_count (q : D -> bool) (c : list D) (a : D) :
  Mongo.FindOne q c = Some a -> fst (Mongo.DeleteOne q c) = 1.
Proof.
  induction c as [|d c IH]; simpl; [discriminate|].
  destruct (q d); [reflexivity|]. intros F. specialize (IH F).
  destruct (Mongo.DeleteOne q c). exact IH.
Qed.

Lemma DeleteOne_found (i : ObjectID) (c : list D) (a : D) :
  Mongo.unique_ids doc_id c ->
  Mongo.FindOne (has_id i) c = Some a ->
  fst (Mongo.DeleteOne (has_id i) c) = 1
  /\ forall x, In x (snd (Mongo.DeleteOne (has_id i) c)) -> doc_id x <> i.
Proof.
  induction c as [|d c IH]; simpl; [discriminate|].
  intros U F. destruct (unique_ids_tail _ _ U) as [Uc Hd].
  destruct (has_id i d) eqn:E.
  - simpl. split; [reflexivity|]. intros x Hx Ex.
    apply has_id_true in E. subst i.
    specialize (Hd x Hx). apply has_id_true in Ex. congruence.
  - destruct (IH Uc F) as [H1 H2].
    destruct (Mongo.DeleteOne (has_id i) c) as [n c']. simpl in *.
    split; [exact H1|]. intros x [->|Hx]; [|apply H2; exact Hx].
    intros Ex. apply has_id_true in Ex. congruence.
Qed.

Lemma UpdateOne_found (i : ObjectID) (set : D -> D) (c : list D) (a : D) :
  (forall d, doc_id (set d) = doc_id d) ->
  Mongo.FindOne (has_id i) c = Some a ->
  Mongo.MatchedCount (fst (Mongo.UpdateOne doc_eqb (has_id i) set c)) = 1
  /\ Mongo.FindOne (has_id i) (snd (Mongo.UpdateOne doc_eqb (has_id i) set c)) = Some (set a).
Proof.
  intros Hid. induction c as [|d c IH]; simpl; [discriminate|].
  destruct (has_id i d) eqn:E; intros F.
  - injection F as <-. simpl. split; [reflexivity|].
    replace (has_id i (set d)) with true; [reflexivity|].
    symmetry. apply has_id_true. rewrite Hid. apply has_id_true. exact E.
  - destruct (IH F) as [H1 H2].
    destruct (Mongo.UpdateOne doc_eqb (has_id i) set c) as [r c']. simpl in *.
    rewrite E. split; assumption.
Qed.

(** [UpdateOne] keeps every document in place, rewriting at most one. *)
Lemma UpdateOne_pointwise (q : D -> bool) (set : D -> D) (c : list D) :
  Forall2 (fun d d' => d' = d \/ d' = set d) c (snd (Mongo.UpdateOne doc_eqb q set c)).
Proof.
  induction c as [|d c IH]; simpl; [constructor|].
  destruct (q d); simpl.
  - constructor; [right; reflexivity|].
    clear IH. induction c; constructor; auto.
  - destruct (Mongo.UpdateOne doc_eqb q set c) as [r c']. simpl in *.
    constructor; [left; reflexivity|exact IH].
Qed.

Lemma UpdateOne_unmatched (q : D -> bool) (set : D -> D) (c : list D) :
  (forall d, In d c -> q d = false) ->
  Mongo.UpdateOne doc_eqb q set c = (Mongo.mkUpdateResult 0 0, c).
Proof.
  induction c as [|d c IH]; intros H; simpl; [reflexivity|].
  rewrite (H d (or_introl eq_refl)), IH; [reflexivity|].
  intros x Hx. apply H. right. exact Hx.
Qed.

Lemma FindOneSortDesc_None (key : D -> Z) (q : D -> bool) (c : list D) :
  Mongo.FindOneSortDesc key q c = None <-> forall d, In d c -> q d = false.
Proof.
  induction c as [|x c IH]; simpl.
  - split; [intros _ d []|reflexivity].
  - destruct (q x) eqn:E.
    + split.
      * destruct (Mongo.FindOneSortDesc key q c) as [d'|]; [destruct (key x <? key d')|]; discriminate.
      * intros H. specialize (H x (or_introl eq_refl)). congruence.
    + rewrite IH. split.
      * intros H d [<-|Hd]; [exact E|apply H; exact Hd].
      * intros H d Hd. apply H. right. exact Hd.
Qed.

(** The sorted lookup returns a match whose key bounds every match's. *)
Lemma FindOneSortDesc_Some (key : D -> Z) (q : D -> bool) (c : list D) (m : D) :
  Mongo.FindOneSortDesc key q c = Some m ->
  In m c /\ q m = true /\ forall d, In d c -> q d = true -> key d <= key m.
Proof.
  revert m. induction c as [|x c IH]; simpl; [discriminate|]. intros m.
  destruct (q x) eqn:E.
  - destruct (Mongo.FindOneSortDesc key q c) as [d'|] eqn:F.
    + destruct (IH d' eq_refl) as (I & Q & B).
      destruct (key x <? key d') eqn:L; intros [= <-].
      * apply Z.ltb_lt in L. split; [right; exact I|]. split; [exact Q|].
        intros d [<-|Hd] Hq; [lia|apply B; assumption].
      * apply Z.ltb_ge in L. split; [left; reflexivity|]. split; [exact E|].
        intros d [<-|Hd] Hq; [lia|]. specialize (B d Hd Hq). lia.
    + intros [= <-]. split; [left; reflexivity|]. split; [exact E|].
      intros d [<-|Hd] Hq; [lia|].
      apply FindOneSortDesc_None with (d := d) in F; [congruence|exact Hd].
  - intros F. destruct (IH m F) as (I & Q & B).
    split; [right; exact I|]. split; [exact Q|].
    intros d [<-|Hd] Hq; [congruence|apply B; assumption].
Qed.

Lemma InsertOne_fresh (d : D) (c : list D) :
  (forall x, In x c -> doc_id x <> doc_id d) ->
  Mongo.InsertOne doc_id d c = Ok (c ++ [d]).
Proof.
  intros H. unfold Mongo.InsertOne.
  replace (existsb (has_id (doc_id d)) c) with false; [reflexivity|].
  symmetry. apply not_true_is_false. intros E.
  apply existsb_exists in E. destruct E as (x & Hx & Ex).
  apply has_id_true in Ex. exact (H x Hx Ex).
Qed.

End CollectionFacts.

Section CollectionFacts2.
Context {D : Type}.
Variable doc_id : D -> ObjectID.
Variable doc_eqb : D -> D -> bool.

(** Under the unique index an id names at most one document. *)
Lemma unique_ids_In_eq (c : list D) (x y : D) :
  Mongo.unique_ids doc_id c -> In x c -> In y c -> doc_id x = doc_id y -> x = y.
Proof.
  induction c as [|d c IH]; [intros _ []|].
  intros U Hx Hy E. destruct (unique_ids_tail doc_id _ _ U) as [Uc Hd].
  destruct Hx as [<-|Hx], Hy as [<-|Hy].
  - reflexivity.
  - specialize (Hd y Hy). apply not_true_iff_false in Hd.
    exfalso. apply Hd. apply has_id_true. symmetry. exact E.
  - specialize (Hd x Hx). apply not_true_iff_false in Hd.
    exfalso. apply Hd. apply has_id_true. exact E.
  - apply IH; assumption.
Qed.

Lemma FindOne_by_id (c : list D) (x : D) :
  Mongo.unique_ids doc_id c -> In x c ->
  Mongo.FindOne (Mongo.has_id doc_id (doc_id x)) c = Some x.
Proof.
  intros U Hx.
  destruct (Mongo.FindOne (Mongo.has_id doc_id (doc_id x)) c) as [y|] eqn:F.
  - destruct (FindOne_Some _ _ _ F) as [Hy Q]. apply has_id_true in Q.
    f_equal. apply (unique_ids_In_eq c); assumption.
  - rewrite FindOne_None in F. specialize (F x Hx).
    apply not_true_iff_false in F. exfalso. apply F. apply has_id_true. reflexivity.
Qed.

Lemma UpdateOne_modified (q : D -> bool) (set : D -> D) (c : list D) (a : D) :
  Mongo.FindOne q c = Some a ->
  fst (Mongo.UpdateOne doc_eqb q set c)
  = Mongo.mkUpdateResult 1 (if doc_eqb (set a) a then 0 else 1).
Proof.
  induction c as [|d c IH]; simpl; [discriminate|].
  destruct (q d).
  - intros [= ->]. reflexivity.
  - intros F. specialize (IH F).
    destruct (Mongo.UpdateOne doc_eqb q set c) as [r c']. exact IH.
Qed.

Lemma Find_In (q : D -> bool) (c : list D) (d : D) :
  In d (Mongo.Find q c) <-> In d c /\ q d = true.
Proof. apply filter_In. Qed.

End CollectionFacts2.

(** ** The auth-attempt repository *)

Module AuthFacts.
Import Auth.

Lemma apply_set_ID (u : UpdateSet) (a : AuthAttempt) : ID (apply_set u a) = ID a.
Proof. reflexivity. Qed.

Lemma GetByID_inv (id : string) (s : Store) (a : AuthAttempt) :
  fst (GetByID id s) = Ok a ->
  ObjectIDFromHex id = Some (ID a)
  /\ Mongo.FindOne (Mongo.has_id ID (ID a)) (attempts s) = Some a.
Proof.
  unfold GetByID. destruct (ObjectIDFromHex id) as [objID|]; [|discriminate].
  unfold bind, findOne. simpl.
  destruct (Mongo.FindOne (Mongo.has_id ID objID) (attempts s)) as [x|] eqn:F; [|discriminate].
  simpl. intros [= ->].
  destruct (FindOne_Some _ _ _ F) as [_ Hq]. apply has_id_true in Hq. subst objID.
  split; [reflexivity|exact F].
Qed.

Lemma GetByID_found (id : string) (s : Store) (i : ObjectID) (a : AuthAttempt) :
  ObjectIDFromHex id = Some i ->
  Mongo.FindOne (Mongo.has_id ID i) (attempts s) = Some a ->
  GetByID id s = (Ok a, mkStore (attempts s) (journal s ++ [CallFindOne])).
Proof.
  intros P F. unfold GetByID, bind, findOne, record. rewrite P. simpl. rewrite F. reflexivity.
Qed.

Lemma GetByID_missing (id : string) (s : Store) (i : ObjectID) :
  ObjectIDFromHex id = Some i ->
  (forall x, In x (attempts s) -> ID x <> i) ->
  GetByID id s = (Err ErrAuthAttemptNotFound, mkStore (attempts s) (journal s ++ [CallFindOne])).
Proof.
  intros P H. unfold GetByID, bind, findOne, record. rewrite P. simpl.
  replace (Mongo.FindOne (Mongo.has_id ID i) (attempts s)) with (@None AuthAttempt); [reflexivity|].
  symmetry. apply FindOne_None. intros d Hd.
  apply not_true_is_false. intros E. apply has_id_true in E. exact (H d Hd E).
Qed.

(** [GetByID] reads the collection only through its [attempts]. *)
Lemma GetByID_fst_attempts (id : string) (s t : Store) :
  attempts s = attempts t -> fst (GetByID id s) = fst (GetByID id t).
Proof.
  intros E. unfold GetByID. destruct (ObjectIDFromHex id); [|reflexivity].
  unfold bind, findOne. simpl. rewrite E.
  destruct (Mongo.FindOne _ (attempts t)); reflexivity.
Qed.

(** What a non-empty [Update] of a stored attempt does. *)
Lemma Update_found (a : AuthAttempt) (dto : UpdateAuthAttemptDTO) (now : Time) (s : Store) :
  Mongo.FindOne (Mongo.has_id ID (ID a)) (attempts s) = Some a ->
  len (update_fields dto) <> 0 ->
  let u := mkUpdateSet (set_success (update_fields dto)) (upd_AttemptLeft dto) (Some now) in
  Update (Hex (ID a)) dto now s =
    (Ok tt,
     mkStore (snd (Mongo.UpdateOne AuthAttempt_eqb (Mongo.has_id ID (ID a)) (apply_set u) (attempts s)))
             (journal s ++ [CallUpdateOne (ID a)])).
Proof.
  intros F L u. unfold Update. rewrite ObjectIDFromHex_Hex.
  apply Z.eqb_neq in L. rewrite L.
  unfold bind, updateOne, record. cbn [set_attempt_left update_fields].
  destruct (UpdateOne_found ID AuthAttempt_eqb (ID a) (apply_set u) (attempts s) a
              (apply_set_ID u) F) as [Hm _].
  fold u.
  destruct (Mongo.UpdateOne AuthAttempt_eqb (Mongo.has_id ID (ID a)) (apply_set u) (attempts s))
    as [r c'] eqn:E.
  simpl in Hm. rewrite Hm. reflexivity.
Qed.

Lemma Delete_found (a : AuthAttempt) (s : Store) :
  Mongo.FindOne (Mongo.has_id ID (ID a)) (attempts s) = Some a ->
  Delete (Hex (ID a)) s =
    (Ok tt,
     mkStore (snd (Mongo.DeleteOne (Mongo.has_id ID (ID a)) (attempts s)))
             (journal s ++ [CallDeleteOne (ID a)])).
Proof.
  intros F. unfold Delete. rewrite ObjectIDFromHex_Hex.
  unfold bind, deleteOne, record.
  pose proof (DeleteOne_count (Mongo.has_id ID (ID a)) (attempts s) a F) as Hn.
  destruct (Mongo.DeleteOne (Mongo.has_id ID (ID a)) (attempts s)) as [n c'].
  simpl in Hn. subst n. reflexivity.
Qed.

(** *** The verification flow, branch by branch *)

Lemma performCodeCheck_run (a : AuthAttempt) (code : string) (now : Time) (s : Store) :
  Mongo.FindOne (Mongo.has_id ID (ID a)) (attempts s) = Some a ->
  performCodeCheck a code now s =
    if AttemptLeft a <=? 0 then (Err ErrInvalidCode, s)
    else if String.eqb (Code a) code then
      (Ok tt, mkStore (updated (ID a) (mark_success now) (attempts s))
                      (journal s ++ [CallUpdateOne (ID a)]))
    else if int_sub (AttemptLeft a) 1 =? 0 then
      (Err ErrInvalidCode, mkStore (deleted (ID a) (attempts s))
                                   (journal s ++ [CallDeleteOne (ID a)]))
    else
      (Err ErrInvalidCode,
       mkStore (updated (ID a) (decrement_to (int_sub (AttemptLeft a) 1) now) (attempts s))
               (journal s ++ [CallUpdateOne (ID a)])).
Proof.
  intros F. unfold performCodeCheck.
  destruct (AttemptLeft a <=? 0); [reflexivity|].
  destruct (String.eqb (Code a) code).
  - rewrite (Update_found a _ now s F); [reflexivity|]. vm_compute. discriminate.
  - unfold bind. destruct (int_sub (AttemptLeft a) 1 =? 0).
    + rewrite (Delete_found a s F). reflexivity.
    + rewrite (Update_found a _ now s F); [reflexivity|]. vm_compute. discriminate.
Qed.

Lemma CheckTelegramCode_run
    (svc : AuthServiceImpl) (dto : CreateCheckTelegramCodeRequestDTO) (now : Time)
    (s : Store) (a : AuthAttempt) :
  fst (GetByID (check_ID dto) s) = Ok a ->
  CheckTelegramCode svc dto now s =
    if negb (String.eqb (IdentifierUsed a) (check_TelegramUsername dto)) then
      (Err ErrWrongTelegramUsername, fetched s)
    else
      match performCodeCheck a (check_Code dto) now (fetched s) with
      | (Ok _, s') =>
          (match GetUserByTelegramUsername svc (check_TelegramUsername dto) with
           | Ok user => generateTokenPair svc user
           | Err e => Err e
           end, s')
      | (Err e, s') => (Err e, s')
      end.
Proof.
  intros G. destruct (GetByID_inv _ _ _ G) as [P F].
  unfold CheckTelegramCode, bind. rewrite (GetByID_found _ _ _ _ P F). fold (fetched s).
  destruct (negb (String.eqb (IdentifierUsed a) (check_TelegramUsername dto))); [reflexivity|].
  destruct (performCodeCheck a (check_Code dto) now (fetched s)) as [[[]|e] s']; [|reflexivity].
  unfold lift.
  destruct (GetUserByTelegramUsername svc (check_TelegramUsername dto)) as [user|e]; [|reflexivity].
  destruct (generateTokenPair svc user); reflexivity.
Qed.

End AuthFacts.

Module AuthClaims.
Import Auth AuthFacts.

Lemma int_wrap_small (z : Z) : int_range z -> int_wrap z = z.
Proof.
  unfold int_range, int_wrap. intros H.
  rewrite Z.mod_small; lia.
Qed.

Lemma fetched_attempts (s : Store) : attempts (fetched s) = attempts s.
Proof. reflexivity. Qed.

Lemma leb_ltb_neg (z : Z) : (z <=? 0) = negb (0 <? z).
Proof. destruct (Z.leb_spec z 0), (Z.ltb_spec 0 z); simpl; try reflexivity; lia. Qed.

(** C2 (amended): once the attempt is fetched, [CheckTelegramCode] issues
    exactly one write (the success update, the decrement update or the
    delete) when the identifier matches and attempts remain, and no write
    at all in the identifier-mismatch and attempts-exhausted branches. *)
Theorem CheckTelegramCode_write_count
    (svc : AuthServiceImpl) (dto : CreateCheckTelegramCodeRequestDTO) (now : Time)
    (s : Store) (a : AuthAttempt) :
  fst (GetByID (check_ID dto) s) = Ok a ->
  writes_of (CheckTelegramCode svc dto now) s =
    if String.eqb (IdentifierUsed a) (check_TelegramUsername dto) && (0 <? AttemptLeft a)
    then 1%nat else 0%nat.
Proof.
  intros G. unfold writes_of, calls_of.
  set (s0 := mkStore (attempts s) []).
  assert (G0 : fst (GetByID (check_ID dto) s0) = Ok a)
    by (rewrite <- G; apply GetByID_fst_attempts; reflexivity).
  destruct (GetByID_inv _ _ _ G0) as [_ F].
  rewrite (CheckTelegramCode_run svc dto now s0 a G0).
  destruct (String.eqb (IdentifierUsed a) (check_TelegramUsername dto)); simpl negb;
    cbv iota; [|reflexivity].
  rewrite (performCodeCheck_run a (check_Code dto) now (fetched s0) F).
  rewrite leb_ltb_neg. simpl andb.
  destruct (0 <? AttemptLeft a); simpl negb; cbv iota; [|reflexivity].
  destruct (String.eqb (Code a) (check_Code dto)); [reflexivity|].
  destruct (int_sub (AttemptLeft a) 1 =? 0); reflexivity.
Qed.

(** C3 (amended): for an attempt whose [success] is already true,
    [CheckTelegramCode] against its id never sets [success] back to false:
    afterwards the record is either gone or still successful.  When the
    identifier differs or no attempts remain, the call issues no write and
    leaves the collection as it was.  When the identifier matches and
    attempts remain, it issues exactly one write on the record, since the
    flow never looks at [success]: the right code sends the success update
    again ([success] stays true, [attemptLeft] is kept, [updated_at] becomes
    the clock reading), a wrong code at [attemptLeft = 1] deletes the
    record, and a wrong code with more attempts left persists
    [attemptLeft - 1] with [success] still true. *)
Theorem success_survives_CheckTelegramCode
    (svc : AuthServiceImpl) (dto : CreateCheckTelegramCodeRequestDTO) (now : Time)
    (s : Store) (a : AuthAttempt) :
  unique_ids s ->
  fst (GetByID (check_ID dto) s) = Ok a ->
  Success a = true ->
  let s' := snd (CheckTelegramCode svc dto now s) in
  (fst (GetByID (check_ID dto) s') = Err ErrAuthAttemptNotFound
   \/ exists a', fst (GetByID (check_ID dto) s') = Ok a' /\ Success a' = true)
  /\ (String.eqb (IdentifierUsed a) (check_TelegramUsername dto) = false
      \/ AttemptLeft a <= 0 ->
      attempts s' = attempts s
      /\ writes_of (CheckTelegramCode svc dto now) s = 0%nat)
  /\ (String.eqb (IdentifierUsed a) (check_TelegramUsername dto) = true ->
      0 < AttemptLeft a ->
      writes_of (CheckTelegramCode svc dto now) s = 1%nat
      /\ (Code a = check_Code dto ->
          exists a', fst (GetByID (check_ID dto) s') = Ok a'
                     /\ Success a' = true
                     /\ AttemptLeft a' = AttemptLeft a
                     /\ UpdatedAt a' = now)
      /\ (Code a <> check_Code dto -> AttemptLeft a = 1 ->
          fst (GetByID (check_ID dto) s') = Err ErrAuthAttemptNotFound)
      /\ (Code a <> check_Code dto -> 1 < AttemptLeft a -> int_range (AttemptLeft a) ->
          exists a', fst (GetByID (check_ID dto) s') = Ok a'
                     /\ Success a' = true
                     /\ AttemptLeft a' = AttemptLeft a - 1)).
Proof.
  intros U G Ha s'. destruct (GetByID_inv _ _ _ G) as [P F].
  assert (W : writes_of (CheckTelegramCode svc dto now) s =
              if String.eqb (IdentifierUsed a) (check_TelegramUsername dto)
                 && (0 <? AttemptLeft a)
              then 1%nat else 0%nat).
  { unfold writes_of, calls_of.
    set (s0 := mkStore (attempts s) []).
    assert (G0 : fst (GetByID (check_ID dto) s0) = Ok a)
      by (rewrite <- G; apply GetByID_fst_attempts; reflexivity).
    destruct (GetByID_inv _ _ _ G0) as [_ F0].
    rewrite (CheckTelegramCode_run svc dto now s0 a G0).
    destruct (String.eqb (IdentifierUsed a) (check_TelegramUsername dto)); simpl negb;
      cbv iota; [|reflexivity].
    rewrite (performCodeCheck_run a (check_Code dto) now (fetched s0) F0).
    rewrite leb_ltb_neg. simpl andb.
    destruct (0 <? AttemptLeft a); simpl negb; cbv iota; [|reflexivity].
    destruct (String.eqb (Code a) (check_Code dto)); [reflexivity|].
    destruct (int_sub (AttemptLeft a) 1 =? 0); reflexivity. }
  assert (Keep : attempts s' = attempts s ->
                 exists a', fst (GetByID (check_ID dto) s') = Ok a' /\ Success a' = true).
  { intros E. exists a. split; [|exact Ha].
    rewrite <- G. apply GetByID_fst_attempts. exact E. }
  assert (Upd : forall u j,
                 s' = mkStore (updated (ID a) u (attempts s)) j ->
                 fst (GetByID (check_ID dto) s') = Ok (apply_set u a)).
  { intros u j ->.
    rewrite (GetByID_found (check_ID dto) _ (ID a) (apply_set u a) P); [reflexivity|].
    apply (UpdateOne_found ID AuthAttempt_eqb (ID a) (apply_set u) (attempts s) a
             (apply_set_ID u) F). }
  assert (Del : forall j,
                 s' = mkStore (deleted (ID a) (attempts s)) j ->
                 fst (GetByID (check_ID dto) s') = Err ErrAuthAttemptNotFound).
  { intros j ->.
    rewrite (GetByID_missing (check_ID dto) _ (ID a) P); [reflexivity|].
    apply (DeleteOne_found ID (ID a) (attempts s) a U F). }
  rewrite W. clear W. subst s'.
  rewrite (CheckTelegramCode_run svc dto now s a G) in *.
  destruct (String.eqb (IdentifierUsed a) (check_TelegramUsername dto)) eqn:Ei; simpl negb in *;
    cbv iota in *.
  2:{ split; [right; apply Keep; reflexivity|].
      split; [intros _; split; reflexivity|discriminate]. }
  rewrite (performCodeCheck_run a (check_Code dto) now (fetched s) F) in *.
  simpl andb.
  destruct (Z.leb_spec (AttemptLeft a) 0) as [Hle|Hgt].
  { split; [right; apply Keep; reflexivity|].
    split; [intros _; split; [reflexivity|]|intros _ Hl; lia].
    destruct (Z.ltb_spec 0 (AttemptLeft a)); [lia|reflexivity]. }
  destruct (Z.ltb_spec 0 (AttemptLeft a)) as [_|]; [|lia].
  destruct (String.eqb_spec (Code a) (check_Code dto)) as [Ec|Ec].
  - assert (R : fst (GetByID (check_ID dto)
                       (snd (match GetUserByTelegramUsername svc (check_TelegramUsername dto) with
                             | Ok user => generateTokenPair svc user
                             | Err e => Err e
                             end,
                             mkStore (updated (ID a) (mark_success now) (attempts (fetched s)))
                                     (journal (fetched s) ++ [CallUpdateOne (ID a)]))))
                = Ok (apply_set (mark_success now) a)).
    { cbn [snd]. eapply Upd. reflexivity. }
    split; [right; exists (apply_set (mark_success now) a); split; [exact R|reflexivity]|].
    split; [intros [?|?]; [discriminate|lia]|].
    intros _ _. split; [reflexivity|].
    split; [|split; intros N; contradiction].
    intros _. exists (apply_set (mark_success now) a).
    split; [exact R|]. repeat split.
  - destruct (Z.eqb_spec (int_sub (AttemptLeft a) 1) 0) as [E0|N0]; cbn [snd].
    + assert (R : fst (GetByID (check_ID dto)
                         (mkStore (deleted (ID a) (attempts (fetched s)))
                                  (journal (fetched s) ++ [CallDeleteOne (ID a)])))
                  = Err ErrAuthAttemptNotFound).
      { eapply Del. reflexivity. }
      split; [left; exact R|].
      split; [intros [?|?]; [discriminate|lia]|].
      intros _ _. split; [reflexivity|].
      split; [intros N; contradiction|].
      split; [intros _ _; exact R|].
      intros _ H1 Hr. exfalso.
      assert (Hs : int_sub (AttemptLeft a) 1 = AttemptLeft a - 1).
      { apply int_wrap_small. unfold int_range in *. lia. }
      lia.
    + set (u := decrement_to (int_sub (AttemptLeft a) 1) now).
      assert (R : fst (GetByID (check_ID dto)
                         (mkStore (updated (ID a) u (attempts (fetched s)))
                                  (journal (fetched s) ++ [CallUpdateOne (ID a)])))
                  = Ok (apply_set u a)).
      { eapply Upd. reflexivity. }
      split; [right; exists (apply_set u a); split; [exact R|exact Ha]|].
      split; [intros [?|?]; [discriminate|lia]|].
      intros _ _. split; [reflexivity|].
      split; [intros N; contradiction|].
      split.
      * intros _ H1. exfalso. apply N0. rewrite H1. reflexivity.
      * intros _ H1 Hr. exists (apply_set u a). split; [exact R|]. split; [exact Ha|].
        cbn. apply int_wrap_small. unfold int_range in *. lia.
Qed.

(** C4: with a matching identifier and a wrong code, the last attempt
    ([attemptLeft = 1]) deletes the record and fails with [ErrInvalidCode],
    after which any verification against the same id fails with
    [ErrAuthAttemptNotFound]; with more attempts left the decremented
    counter is persisted and the call fails with [ErrInvalidCode] too. *)
Theorem wrong_code_deletes_or_decrements
    (svc : AuthServiceImpl) (dto : CreateCheckTelegramCodeRequestDTO) (now : Time)
    (s : Store) (a : AuthAttempt) :
  unique_ids s ->
  fst (GetByID (check_ID dto) s) = Ok a ->
  IdentifierUsed a = check_TelegramUsername dto ->
  Code a <> check_Code dto ->
  let r := CheckTelegramCode svc dto now s in
  (AttemptLeft a = 1 ->
     fst r = Err ErrInvalidCode
     /\ (forall x, In x (attempts (snd r)) -> ID x <> ID a)
     /\ forall svc' dto' now',
          check_ID dto' = check_ID dto ->
          fst (CheckTelegramCode svc' dto' now' (snd r)) = Err ErrAuthAttemptNotFound)
  /\ (1 < AttemptLeft a -> int_range (AttemptLeft a) ->
     fst r = Err ErrInvalidCode
     /\ exists a', fst (GetByID (check_ID dto) (snd r)) = Ok a'
                  /\ AttemptLeft a' = AttemptLeft a - 1
                  /\ Success a' = Success a).
Proof.
  intros U G Hi Hc r. destruct (GetByID_inv _ _ _ G) as [P F].
  subst r. rewrite (CheckTelegramCode_run svc dto now s a G).
  rewrite Hi, String.eqb_refl. simpl negb. cbv iota.
  rewrite (performCodeCheck_run a (check_Code dto) now (fetched s) F).
  apply String.eqb_neq in Hc. rewrite Hc. split.
  - intros H1. rewrite H1. simpl.
    assert (Gone : forall x, In x (deleted (ID a) (attempts s)) -> ID x <> ID a)
      by apply (DeleteOne_found ID (ID a) (attempts s) a U F).
    split; [reflexivity|]. split; [exact Gone|].
    intros svc' dto' now' E. unfold CheckTelegramCode, bind.
    rewrite E, (GetByID_missing (check_ID dto) _ (ID a) P); [reflexivity|exact Gone].
  - intros H1 Hr.
    assert (Hs : int_sub (AttemptLeft a) 1 = AttemptLeft a - 1).
    { apply int_wrap_small. unfold int_range in *. lia. }
    rewrite Hs.
    destruct (Z.leb_spec (AttemptLeft a) 0); [lia|].
    destruct (Z.eqb_spec (AttemptLeft a - 1) 0); [lia|].
    simpl. split; [reflexivity|].
    exists (apply_set (decrement_to (AttemptLeft a - 1) now) a).
    split; [|split; reflexivity].
    destruct (UpdateOne_found ID AuthAttempt_eqb (ID a)
                (apply_set (decrement_to (AttemptLeft a - 1) now)) (attempts s) a
                (apply_set_ID _) F) as [_ F'].
    erewrite GetByID_found; [reflexivity|exact P|exact F'].
Qed.

(** C6: with a matching identifier and attempts left, the correct code
    persists [success = true] and leaves [attemptLeft] as it was. *)
Theorem correct_code_keeps_attemptLeft
    (svc : AuthServiceImpl) (dto : CreateCheckTelegramCodeRequestDTO) (now : Time)
    (s : Store) (a : AuthAttempt) :
  fst (GetByID (check_ID dto) s) = Ok a ->
  IdentifierUsed a = check_TelegramUsername dto ->
  0 < AttemptLeft a ->
  Code a = check_Code dto ->
  exists a',
    fst (GetByID (check_ID dto) (snd (CheckTelegramCode svc dto now s))) = Ok a'
    /\ Success a' = true
    /\ AttemptLeft a' = AttemptLeft a
    /\ a' = apply_set (mark_success now) a.
Proof.
  intros G Hi Hl Hc. destruct (GetByID_inv _ _ _ G) as [P F].
  rewrite (CheckTelegramCode_run svc dto now s a G).
  rewrite Hi, String.eqb_refl. simpl negb. cbv iota.
  rewrite (performCodeCheck_run a (check_Code dto) now (fetched s) F).
  destruct (Z.leb_spec (AttemptLeft a) 0); [lia|].
  rewrite Hc, String.eqb_refl. simpl snd.
  exists (apply_set (mark_success now) a).
  split; [|repeat split].
  destruct (UpdateOne_found ID AuthAttempt_eqb (ID a)
              (apply_set (mark_success now)) (attempts s) a (apply_set_ID _) F) as [_ F'].
  erewrite GetByID_found; [reflexivity|exact P|exact F'].
Qed.
End AuthClaims.

Module AuthClaims2.
Import Auth AuthFacts.

Lemma valid_attempt_spec (now : Time) (username : string) (a : AuthAttempt) :
  valid_attempt now username a = true <->
  IdentifierUsed a = username /\ Type_ a = TypeTelegram
  /\ 0 < AttemptLeft a /\ now - AttemptTTL <= CreatedAt a.
Proof.
  unfold valid_attempt, Time_Add.
  rewrite !andb_true_iff, String.eqb_eq, Z.ltb_lt, Z.leb_le.
  assert (T : AuthType_eqb (Type_ a) TypeTelegram = true <-> Type_ a = TypeTelegram)
    by (destruct (Type_ a); simpl; split; congruence).
  rewrite T. intuition lia.
Qed.

(** [GetByTelegramUsername] is one sorted lookup. *)
Lemma GetByTelegramUsername_run (username : string) (now : Time) (s : Store) :
  GetByTelegramUsername username now s =
    (match Mongo.FindOneSortDesc CreatedAt (valid_attempt now username) (attempts s) with
     | Some a => Ok a
     | None => Err ErrAuthAttemptNotFound
     end, fetched s).
Proof.
  unfold GetByTelegramUsername, bind, findOneSortDesc, record, fetched.
  destruct (Mongo.FindOneSortDesc CreatedAt (valid_attempt now username) (attempts s));
    reflexivity.
Qed.

Lemma RequestTelegramCode_run
    (dto : CreateTelegramCodeRequestDTO) (now : Time)
    (newID : ObjectID) (digits : string) (now1 now2 : Time) (s : Store) :
  RequestTelegramCode dto now newID digits now1 now2 s =
    match Mongo.FindOneSortDesc CreatedAt (valid_attempt now (create_TelegramUsername dto))
            (attempts s) with
    | Some _ => (Err ErrAuthAttemptAlreadyExists, fetched s)
    | None =>
        (attempt <- Create (ToAuthAttemptFromCreateTelegramCodeRequestDTO dto newID digits now1 now2) ;;
         ret (ToReadTelegramCodeRequestDTO attempt)) (fetched s)
    end.
Proof.
  unfold RequestTelegramCode. unfold bind at 1. unfold try.
  rewrite GetByTelegramUsername_run.
  destruct (Mongo.FindOneSortDesc CreatedAt (valid_attempt now (create_TelegramUsername dto))
              (attempts s)); reflexivity.
Qed.

(** C5: issuance fails with [ErrAuthAttemptAlreadyExists] exactly when the
    collection holds a valid attempt for the username -- a Telegram
    attempt with attempts left, created within [AttemptTTL] of the lookup;
    with no such attempt, and a fresh id, it succeeds and stores a new
    attempt with [AttemptLeft = MaxAttempts] and [Success = false]. *)
Theorem RequestTelegramCode_issues_unless_valid
    (dto : CreateTelegramCodeRequestDTO) (now : Time)
    (newID : ObjectID) (digits : string) (now1 now2 : Time) (s : Store)
    (Fresh : forall a, In a (attempts s) -> ID a <> newID) :
  let username := create_TelegramUsername dto in
  let valid a :=
    IdentifierUsed a = username /\ Type_ a = TypeTelegram
    /\ 0 < AttemptLeft a /\ now - AttemptTTL <= CreatedAt a in
  let r := RequestTelegramCode dto now newID digits now1 now2 s in
  (fst r = Err ErrAuthAttemptAlreadyExists <-> exists a, In a (attempts s) /\ valid a)
  /\ ((exists a, In a (attempts s) /\ valid a)
      \/ exists a',
           fst r = Ok (ToReadTelegramCodeRequestDTO a')
           /\ attempts (snd r) = attempts s ++ [a']
           /\ ID a' = newID
           /\ IdentifierUsed a' = username
           /\ AttemptLeft a' = MaxAttempts
           /\ Success a' = false).
Proof.
  intros username valid r. subst r. subst username.
  rewrite RequestTelegramCode_run.
  destruct (Mongo.FindOneSortDesc CreatedAt (valid_attempt now (create_TelegramUsername dto))
              (attempts s)) as [m|] eqn:F.
  - destruct (FindOneSortDesc_Some _ _ _ _ F) as (I & V & _).
    apply valid_attempt_spec in V.
    assert (E : exists a, In a (attempts s) /\ valid a) by (exists m; split; assumption).
    split; [split; [intros _; exact E|reflexivity]|left; exact E].
  - assert (N : ~ exists a, In a (attempts s) /\ valid a).
    { intros (a & I & V). apply valid_attempt_spec in V.
      rewrite FindOneSortDesc_None in F. rewrite (F a I) in V. discriminate. }
    unfold Create, bind, insertOne, ret. cbn [attempts journal fetched].
    rewrite (InsertOne_fresh ID); [|exact Fresh]. cbn [fst snd attempts].
    split; [split; [discriminate|intros E; destruct (N E)]|].
    right. eexists. repeat split.
Qed.

(** C7: the issuance view holds the id, the identifier and
    [createdAt + ttl] and nothing else; attempts that differ only in their
    code have the same view, and the response of [RequestTelegramCode] is
    the same whatever digits were drawn. *)
Theorem issuance_view_hides_code (u1 u2 : AuthAttempt) (H : same_but_code u1 u2) :
  ToReadTelegramCodeRequestDTO u1 =
    mkReadTelegramCodeRequestDTO (IdentifierUsed u1) (Hex (ID u1)) (CreatedAt u1 + TTL u1)
  /\ ToReadTelegramCodeRequestDTO u1 = ToReadTelegramCodeRequestDTO u2
  /\ forall dto now newID digits1 digits2 now1 now2 s,
       fst (RequestTelegramCode dto now newID digits1 now1 now2 s)
       = fst (RequestTelegramCode dto now newID digits2 now1 now2 s).
Proof.
  split; [reflexivity|]. split.
  - destruct H as (Hi & Hu & _ & _ & _ & Ht & Hc & _).
    unfold ToReadTelegramCodeRequestDTO. rewrite Hi, Hu, Ht, Hc. reflexivity.
  - intros. unfold RequestTelegramCode, bind, try.
    destruct (GetByTelegramUsername (create_TelegramUsername dto) now s) as [[a|e] s'];
      [reflexivity|].
    unfold Create, bind, insertOne, Mongo.InsertOne, ret. cbn [ID ToAuthAttemptFromCreateTelegramCodeRequestDTO].
    destruct (existsb (Mongo.has_id ID newID) (attempts s')); reflexivity.
Qed.

Lemma Forall2_same {A : Type} (R : A -> A -> Prop) (l : list A) :
  (forall x, R x x) -> Forall2 R l l.
Proof. intros H. induction l; constructor; auto. Qed.

Lemma Forall2_compose {A : Type} (R S T : A -> A -> Prop) (l1 l2 l3 : list A) :
  (forall x y z, R x y -> S y z -> T x z) ->
  Forall2 R l1 l2 -> Forall2 S l2 l3 -> Forall2 T l1 l3.
Proof.
  intros H F. revert l3. induction F; intros l3 G; inversion G; subst; constructor; eauto.
Qed.

Lemma Forall2_weaken {A : Type} (R S : A -> A -> Prop) (l1 l2 : list A) :
  (forall x y, R x y -> S x y) -> Forall2 R l1 l2 -> Forall2 S l1 l2.
Proof. intros H F. induction F; constructor; auto. Qed.

(** [Update] leaves every document in place and rewrites at most one of
    them with its [$set]. *)
Lemma Update_pointwise (id : string) (dto : UpdateAuthAttemptDTO) (now : Time) (s : Store) :
  let u := mkUpdateSet (set_success (update_fields dto)) (upd_AttemptLeft dto) (Some now) in
  Forall2 (fun a a' => a' = a \/ a' = apply_set u a)
          (attempts s) (attempts (snd (Update id dto now s))).
Proof.
  intros u. unfold Update.
  destruct (ObjectIDFromHex id) as [objID|];
    [|apply Forall2_same; intros; left; reflexivity].
  destruct (len (update_fields dto) =? 0);
    [apply Forall2_same; intros; left; reflexivity|].
  unfold bind, updateOne. cbn [set_attempt_left update_fields]. fold u.
  pose proof (UpdateOne_pointwise AuthAttempt_eqb (Mongo.has_id ID objID) (apply_set u) (attempts s)) as P.
  destruct (Mongo.UpdateOne AuthAttempt_eqb (Mongo.has_id ID objID) (apply_set u) (attempts s))
    as [r c']. cbn [snd] in P.
  destruct (Mongo.MatchedCount r =? 0); exact P.
Qed.

(** C10: [Update] writes [success] only when the DTO's flag is true, and
    then writes true; so along any sequence of [Update] calls every
    stored attempt keeps its id and a [success] that was true stays true. *)
Theorem Update_success_monotone :
  (forall id dto now s,
     Forall2 (fun a a' =>
                ID a' = ID a
                /\ (Success a' = Success a \/ (upd_Success dto = true /\ Success a' = true)))
             (attempts s) (attempts (snd (Update id dto now s))))
  /\ (forall ops s,
        Forall2 (fun a a' => ID a' = ID a /\ (Success a = true -> Success a' = true))
                (attempts s) (attempts (run_updates ops s))).
Proof.
  assert (One : forall id dto now s,
     Forall2 (fun a a' =>
                ID a' = ID a
                /\ (Success a' = Success a \/ (upd_Success dto = true /\ Success a' = true)))
             (attempts s) (attempts (snd (Update id dto now s)))).
  { intros. eapply Forall2_weaken; [|apply Update_pointwise].
    intros a a' [->| ->]; [split; [reflexivity|left; reflexivity]|].
    split; [reflexivity|]. cbn [apply_set Success set_success update_fields].
    destruct (upd_Success dto); simpl; [right; split; reflexivity|left; reflexivity]. }
  split; [exact One|].
  induction ops as [|[[id dto] now] ops IH]; intros s; cbn [run_updates].
  - apply Forall2_same. intros; split; [reflexivity|auto].
  - eapply Forall2_compose; [|apply (One id dto now s)|apply IH].
    cbv beta. intros x y z [Hi Hs] [Hi' Hs']. split; [congruence|].
    intros Hx. apply Hs'. destruct Hs as [Hs|[_ Hs]]; congruence.
Qed.

End AuthClaims2.

(** ** The soft-delete repositories *)

Lemma with_key_fst {D : Type} (q p : D -> bool) (d : D) :
  with_key q p d = true -> q d = true.
Proof. unfold with_key. intros H. apply andb_true_iff in H. tauto. Qed.

Lemma with_key_true {D : Type} (q p : D -> bool) (d : D) :
  with_key q p d = true <-> q d = true /\ p d = true.
Proof. unfold with_key. apply andb_true_iff. Qed.

Lemma otime_eqb_neq (t u : Time) : t <> u -> otime_eqb (Some t) (Some u) = false.
Proof. intros H. simpl. apply Z.eqb_neq. exact H. Qed.

Module CoursesFacts.
Import Courses.

Lemma Courses_deleted_at_absent_true (c : Course) : deleted_at_absent c = true <-> DeletedAt c = None.
Proof. unfold deleted_at_absent. destruct (DeletedAt c); split; congruence. Qed.

Lemma Courses_set_deleted_at_ID (now : Time) (c : Course) : ID (set_deleted_at now c) = ID c.
Proof. reflexivity. Qed.

(** Whatever the criteria, [Find] answers with live documents of the collection. *)
Lemma Courses_Find_live (fmt : Time -> string) (rx : string -> string -> bool)
    (f : FilterCoursesDTO) (coll : list Course) (rs : list ReadCourseDTO) :
  Find fmt rx f coll = Ok rs ->
  forall r, In r rs -> exists d, In d coll /\ DeletedAt d = None /\ r = ToReadDTO fmt d.
Proof.
  unfold Find. cbv zeta. intros H r Hr.
  assert (K : forall q, (forall d, q d = true -> deleted_at_absent d = true) ->
                rs = map (ToReadDTO fmt) (Mongo.Find q coll) ->
                exists d, In d coll /\ DeletedAt d = None /\ r = ToReadDTO fmt d).
  { intros q Hq ->. apply in_map_iff in Hr. destruct Hr as (d & <- & Hd).
    apply Find_In in Hd. destruct Hd as [Hd Q]. exists d.
    split; [exact Hd|]. split; [|reflexivity].
    apply Courses_deleted_at_absent_true. apply Hq. exact Q. }
  destruct (filter_Title f) as [t|]; [destruct (negb (String.eqb t ""))|];
    destruct (0 <? Z.of_nat (List.length (filter_Tags f)));
    destruct (filter_IsPublished f);
    (destruct (filter_AuthorID f) as [a|]; [destruct (ObjectIDFromHex a)|]);
    try discriminate; injection H as <-;
    (eapply K; [|reflexivity]); intros d Q;
    repeat (apply with_key_fst in Q); exact Q.
Qed.

Lemma Courses_GetByID_soft_deleted (fmt : Time -> string) (coll : list Course) (c : Course) (id : string) :
  Mongo.unique_ids ID coll -> In c coll -> DeletedAt c <> None ->
  ObjectIDFromHex id = Some (ID c) ->
  GetByID fmt id coll = Err ErrCourseNotFound.
Proof.
  intros U I Hd P. unfold GetByID. rewrite P. cbv zeta.
  replace (Mongo.FindOne (with_key (Mongo.has_id ID (ID c)) deleted_at_absent) coll)
    with (@None Course); [reflexivity|].
  symmetry. apply FindOne_None. intros d Hin.
  apply not_true_iff_false. intros Q. apply with_key_true in Q. destruct Q as [Q1 Q2].
  apply has_id_true in Q1. apply Courses_deleted_at_absent_true in Q2.
  assert (d = c) by (apply (unique_ids_In_eq ID coll); assumption).
  subst d. contradiction.
Qed.

Lemma Courses_Find_soft_deleted (fmt : Time -> string) (rx : string -> string -> bool)
    (coll : list Course) (c : Course) (f : FilterCoursesDTO) (rs : list ReadCourseDTO) :
  Mongo.unique_ids ID coll -> In c coll -> DeletedAt c <> None ->
  Find fmt rx f coll = Ok rs ->
  forall r, In r rs -> read_ID r <> Hex (ID c).
Proof.
  intros U I Hd F r Hr E.
  destruct (Courses_Find_live fmt rx f coll rs F r Hr) as (d & Hin & Live & ->).
  simpl in E. apply Hex_inj in E.
  assert (d = c) by (apply (unique_ids_In_eq ID coll); assumption).
  subst d. contradiction.
Qed.

Lemma Courses_DeleteByID_found (c : Course) (now : Time) (coll : list Course) :
  Mongo.FindOne (Mongo.has_id ID (ID c)) coll = Some c ->
  DeleteByID (Hex (ID c)) now coll =
    (if Course_eqb (set_deleted_at now c) c then Err ErrCourseNotFound else Ok tt,
     snd (Mongo.UpdateByID ID Course_eqb (ID c) (set_deleted_at now) coll)).
Proof.
  intros F. unfold DeleteByID. rewrite ObjectIDFromHex_Hex. unfold Mongo.UpdateByID.
  pose proof (UpdateOne_modified Course_eqb (Mongo.has_id ID (ID c)) (set_deleted_at now) coll c F) as M.
  destruct (Mongo.UpdateOne Course_eqb (Mongo.has_id ID (ID c)) (set_deleted_at now) coll) as [r c'].
  simpl in M. subst r. simpl.
  destruct (Course_eqb (set_deleted_at now c) c); reflexivity.
Qed.

Lemma Course_eqb_redelete (c : Course) (t now : Time) :
  DeletedAt c = Some t -> t <> now -> Course_eqb (set_deleted_at now c) c = false.
Proof.
  intros E N. unfold Course_eqb. apply andb_false_iff. right.
  cbn [DeletedAt set_deleted_at]. rewrite E. apply otime_eqb_neq. congruence.
Qed.

End CoursesFacts.

Module ArticlesFacts.
Import Articles.

Lemma Articles_deleted_at_absent_true (a : Article) : deleted_at_absent a = true <-> DeletedAt a = None.
Proof. unfold deleted_at_absent. destruct (DeletedAt a); split; congruence. Qed.

Lemma Articles_set_deleted_at_ID (now : Time) (a : Article) : ID (set_deleted_at now a) = ID a.
Proof. reflexivity. Qed.

Lemma Articles_Find_live (fmt : Time -> string)
    (f : FilterArticlesDTO) (coll : list Article) (rs : list ReadArticleDTO) :
  Find fmt f coll = Ok rs ->
  forall r, In r rs -> exists d, In d coll /\ DeletedAt d = None /\ r = ToReadDTO fmt d.
Proof.
  unfold Find. cbv zeta. intros H r Hr.
  assert (K : forall q, (forall d, q d = true -> deleted_at_absent d = true) ->
                rs = map (ToReadDTO fmt) (Mongo.Find q coll) ->
                exists d, In d coll /\ DeletedAt d = None /\ r = ToReadDTO fmt d).
  { intros q Hq ->. apply in_map_iff in Hr. destruct Hr as (d & <- & Hd).
    apply Find_In in Hd. destruct Hd as [Hd Q]. exists d.
    split; [exact Hd|]. split; [|reflexivity].
    apply Articles_deleted_at_absent_true. apply Hq. exact Q. }
  (destruct (filter_CourseID f) as [cid|]; [destruct (ObjectIDFromHex cid)|]);
    destruct (filter_IsDraft f);
    destruct (0 <? Z.of_nat (List.length (filter_Tags f)));
    try discriminate; injection H as <-;
    (eapply K; [|reflexivity]); intros d Q;
    repeat (apply with_key_fst in Q); exact Q.
Qed.

Lemma Articles_GetByID_soft_deleted (fmt : Time -> string) (coll : list Article) (a : Article) (id : string) :
  Mongo.unique_ids ID coll -> In a coll -> DeletedAt a <> None ->
  ObjectIDFromHex id = Some (ID a) ->
  GetByID fmt id coll = Err ErrArticleNotFound.
Proof.
  intros U I Hd P. unfold GetByID. rewrite P. cbv zeta.
  replace (Mongo.FindOne (with_key (Mongo.has_id ID (ID a)) deleted_at_absent) coll)
    with (@None Article); [reflexivity|].
  symmetry. apply FindOne_None. intros d Hin.
  apply not_true_iff_false. intros Q. apply with_key_true in Q. destruct Q as [Q1 Q2].
  apply has_id_true in Q1. apply Articles_deleted_at_absent_true in Q2.
  assert (d = a) by (apply (unique_ids_In_eq ID coll); assumption).
  subst d. contradiction.
Qed.

Lemma Articles_Find_soft_deleted (fmt : Time -> string)
    (coll : list Article) (a : Article) (f : FilterArticlesDTO) (rs : list ReadArticleDTO) :
  Mongo.unique_ids ID coll -> In a coll -> DeletedAt a <> None ->
  Find fmt f coll = Ok rs ->
  forall r, In r rs -> read_ID r <> Hex (ID a).
Proof.
  intros U I Hd F r Hr E.
  destruct (Articles_Find_live fmt f coll rs F r Hr) as (d & Hin & Live & ->).
  simpl in E. apply Hex_inj in E.
  assert (d = a) by (apply (unique_ids_In_eq ID coll); assumption).
  subst d. contradiction.
Qed.

Lemma Articles_DeleteByID_found (a : Article) (now : Time) (coll : list Article) :
  Mongo.FindOne (Mongo.has_id ID (ID a)) coll = Some a ->
  DeleteByID (Hex (ID a)) now coll =
    (if Article_eqb (set_deleted_at now a) a then Err ErrArticleNotFound else Ok tt,
     snd (Mongo.UpdateByID ID Article_eqb (ID a) (set_deleted_at now) coll)).
Proof.
  intros F. unfold DeleteByID. rewrite ObjectIDFromHex_Hex. unfold Mongo.UpdateByID.
  pose proof (UpdateOne_modified Article_eqb (Mongo.has_id ID (ID a)) (set_deleted_at now) coll a F) as M.
  destruct (Mongo.UpdateOne Article_eqb (Mongo.has_id ID (ID a)) (set_deleted_at now) coll) as [r c'].
  simpl in M. subst r. simpl.
  destruct (Article_eqb (set_deleted_at now a) a); reflexivity.
Qed.

Lemma Article_eqb_redelete (a : Article) (t now : Time) :
  DeletedAt a = Some t -> t <> now -> Article_eqb (set_deleted_at now a) a = false.
Proof.
  intros E N. unfold Article_eqb. apply andb_false_iff. right.
  cbn [DeletedAt set_deleted_at]. rewrite E. apply otime_eqb_neq. congruence.
Qed.

End ArticlesFacts.

Module ContentClaims.

(** C8 (amended): in the course and article repositories, a
    soft-deleted document (one whose [deleted_at] is set) is not returned by
    [GetByID], which fails with the package's not-found error for every
    spelling of its id, and is in no answer of [Find], whatever the filter
    criteria. *)
Theorem soft_deleted_excluded
    (fmt : Time -> string) (rx : string -> string -> bool)
    (courses : list Courses.Course) (c : Courses.Course)
    (articles : list Articles.Article) (a : Articles.Article) :
  Mongo.unique_ids Courses.ID courses -> In c courses -> Courses.DeletedAt c <> None ->
  Mongo.unique_ids Articles.ID articles -> In a articles -> Articles.DeletedAt a <> None ->
  (forall id, ObjectIDFromHex id = Some (Courses.ID c) ->
     Courses.GetByID fmt id courses = Err ErrCourseNotFound)
  /\ (forall f rs, Courses.Find fmt rx f courses = Ok rs ->
        forall r, In r rs -> Courses.read_ID r <> Hex (Courses.ID c))
  /\ (forall id, ObjectIDFromHex id = Some (Articles.ID a) ->
        Articles.GetByID fmt id articles = Err ErrArticleNotFound)
  /\ (forall f rs, Articles.Find fmt f articles = Ok rs ->
        forall r, In r rs -> Articles.read_ID r <> Hex (Articles.ID a)).
Proof.
  intros Uc Ic Dc Ua Ia Da. repeat split.
  - intros id P. apply (CoursesFacts.Courses_GetByID_soft_deleted fmt courses c); assumption.
  - intros f rs. apply (CoursesFacts.Courses_Find_soft_deleted fmt rx courses c); assumption.
  - intros id P. apply (ArticlesFacts.Articles_GetByID_soft_deleted fmt articles a); assumption.
  - intros f rs. apply (ArticlesFacts.Articles_Find_soft_deleted fmt articles a); assumption.
Qed.

Lemma soft_deleted_excluded_witness :
  Courses.GetByID Samples.rfc3339 "64e21f6a2f1c8e1c0a3d4f5b"
    [Samples.course Samples.id1 (Some 1500); Samples.course Samples.id2 None]
  = Err ErrCourseNotFound
  /\ Articles.GetByID Samples.rfc3339 "64e21f6a2f1c8e1c0a3d4f5b"
       [Samples.article Samples.id1 1 false (Some 1500); Samples.article Samples.id2 2 false None]
     = Err ErrArticleNotFound.
Proof.
  assert (N : NoDup [Samples.id1; Samples.id2]).
  { constructor; [|constructor; [intros []|constructor]].
    intros [E|[]]. vm_compute in E. discriminate. }
  destruct (soft_deleted_excluded Samples.rfc3339 Samples.regex_any
              [Samples.course Samples.id1 (Some 1500); Samples.course Samples.id2 None]
              (Samples.course Samples.id1 (Some 1500))
              [Samples.article Samples.id1 1 false (Some 1500); Samples.article Samples.id2 2 false None]
              (Samples.article Samples.id1 1 false (Some 1500)))
    as (H1 & _ & H3 & _).
  - exact N.
  - left. reflexivity.
  - discriminate.
  - exact N.
  - left. reflexivity.
  - discriminate.
  - split; [apply H1|apply H3]; reflexivity.
Defined.

(** Soft-deleted users are not excluded: the user repository's
    [GetByID] matches on [_id] alone and returns a user whose [deleted_at]
    is set. *)
Lemma soft_deleted_user_still_returned :
  UserRepo.DeletedAt
    (UserRepo.mkUser Samples.id1 "bob" "bob" "Bob" "B" "student" 1000 1000 (Some 1500))
  = Some 1500
  /\ UserRepo.GetByID Samples.rfc3339 "64e21f6a2f1c8e1c0a3d4f5b"
       [UserRepo.mkUser Samples.id1 "bob" "bob" "Bob" "B" "student" 1000 1000 (Some 1500)]
     = Ok (Users.mkReadUserDTO "64e21f6a2f1c8e1c0a3d4f5b" "bob" "bob" "Bob" "B" "student"
             (Samples.rfc3339 1000) (Samples.rfc3339 1000)).
Proof. split; reflexivity. Qed.

(** C9: [DeleteByID] matches by [_id] alone.  On a course or article that
    is already soft-deleted (at a time other than the current clock
    reading) it does not fail with the not-found error: it succeeds and
    overwrites [deleted_at]. *)
Theorem DeleteByID_succeeds_on_soft_deleted
    (courses : list Courses.Course) (c : Courses.Course)
    (articles : list Articles.Article) (a : Articles.Article) (t now : Time) :
  Mongo.FindOne (Mongo.has_id Courses.ID (Courses.ID c)) courses = Some c ->
  Courses.DeletedAt c = Some t ->
  Mongo.FindOne (Mongo.has_id Articles.ID (Articles.ID a)) articles = Some a ->
  Articles.DeletedAt a = Some t ->
  t <> now ->
  (fst (Courses.DeleteByID (Hex (Courses.ID c)) now courses) = Ok tt
   /\ Mongo.FindOne (Mongo.has_id Courses.ID (Courses.ID c))
        (snd (Courses.DeleteByID (Hex (Courses.ID c)) now courses))
      = Some (Courses.set_deleted_at now c))
  /\ (fst (Articles.DeleteByID (Hex (Articles.ID a)) now articles) = Ok tt
      /\ Mongo.FindOne (Mongo.has_id Articles.ID (Articles.ID a))
           (snd (Articles.DeleteByID (Hex (Articles.ID a)) now articles))
         = Some (Articles.set_deleted_at now a)).
Proof.
  intros Fc Dc Fa Da N. split.
  - rewrite (CoursesFacts.Courses_DeleteByID_found c now courses Fc).
    rewrite (CoursesFacts.Course_eqb_redelete c t now Dc N).
    split; [reflexivity|]. cbn [snd]. unfold Mongo.UpdateByID.
    apply (UpdateOne_found Courses.ID Courses.Course_eqb (Courses.ID c)
             (Courses.set_deleted_at now) courses c
             (CoursesFacts.Courses_set_deleted_at_ID now) Fc).
  - rewrite (ArticlesFacts.Articles_DeleteByID_found a now articles Fa).
    rewrite (ArticlesFacts.Article_eqb_redelete a t now Da N).
    split; [reflexivity|]. cbn [snd]. unfold Mongo.UpdateByID.
    apply (UpdateOne_found Articles.ID Articles.Article_eqb (Articles.ID a)
             (Articles.set_deleted_at now) articles a
             (ArticlesFacts.Articles_set_deleted_at_ID now) Fa).
Qed.

Lemma DeleteByID_succeeds_on_soft_deleted_witness :
  (fst (Courses.DeleteByID (Hex Samples.id1) 2000 [Samples.course Samples.id1 (Some 1500)]) = Ok tt
   /\ Mongo.FindOne (Mongo.has_id Courses.ID Samples.id1)
        (snd (Courses.DeleteByID (Hex Samples.id1) 2000 [Samples.course Samples.id1 (Some 1500)]))
      = Some (Courses.set_deleted_at 2000 (Samples.course Samples.id1 (Some 1500))))
  /\ (fst (Articles.DeleteByID (Hex Samples.id1) 2000 [Samples.article Samples.id1 1 false (Some 1500)]) = Ok tt
      /\ Mongo.FindOne (Mongo.has_id Articles.ID Samples.id1)
           (snd (Articles.DeleteByID (Hex Samples.id1) 2000 [Samples.article Samples.id1 1 false (Some 1500)]))
         = Some (Articles.set_deleted_at 2000 (Samples.article Samples.id1 1 false (Some 1500)))).
Proof.
  apply (DeleteByID_succeeds_on_soft_deleted
           [Samples.course Samples.id1 (Some 1500)] (Samples.course Samples.id1 (Some 1500))
           [Samples.article Samples.id1 1 false (Some 1500)]
           (Samples.article Samples.id1 1 false (Some 1500)) 1500 2000).
  - reflexivity.
  - reflexivity.
  - reflexivity.
  - reflexivity.
  - discriminate.
Defined.

(** C1: for a live article, [CloneWithIncrementedVersion] inserts one new
    document under the fresh id, with version
    [max (original version) (latest live sibling version) + 1], the course,
    title and content of the original, both timestamps set to the clock
    reading and no [deleted_at]; the existing documents are left as they
    were.  The draft flag is copied from the original, not reset: the clone
    of a published article is published. *)
Theorem Clone_copies_draft_flag
    (fmt : Time -> string) (id : string) (newID : ObjectID) (now : Time)
    (coll : list Articles.Article) (original : Articles.Article) :
  ObjectIDFromHex id = Some (Articles.ID original) ->
  Mongo.FindOne (with_key (Mongo.has_id Articles.ID (Articles.ID original))
                          Articles.deleted_at_absent) coll = Some original ->
  (forall x, In x coll -> Articles.ID x <> newID) ->
  exists clone,
    Articles.CloneWithIncrementedVersion fmt id newID now coll
    = (Ok (Articles.ToReadDTO fmt clone), coll ++ [clone])
    /\ Articles.ID clone = newID
    /\ Articles.CourseID clone = Articles.CourseID original
    /\ Articles.Title clone = Articles.Title original
    /\ (exists latest,
          Mongo.FindOneSortDesc Articles.Version
            (with_key (with_key (fun x => oid_eqb (Articles.CourseID x) (Articles.CourseID original))
                                (fun x => String.eqb (Articles.Title x) (Articles.Title original)))
                      Articles.deleted_at_absent) coll = Some latest
          /\ Articles.Version clone
             = int_add (Z.max (Articles.Version original) (Articles.Version latest)) 1)
    /\ Articles.CreatedAt clone = now
    /\ Articles.UpdatedAt clone = now
    /\ Articles.DeletedAt clone = None
    /\ Articles.IsDraft clone = Articles.IsDraft original.
Proof.
  intros P F Fresh. unfold Articles.CloneWithIncrementedVersion.
  rewrite P, F. cbv zeta.
  set (q := with_key (with_key (fun x => oid_eqb (Articles.CourseID x) (Articles.CourseID original))
                               (fun x => String.eqb (Articles.Title x) (Articles.Title original)))
                     Articles.deleted_at_absent).
  destruct (FindOne_Some _ _ _ F) as [Hin Hq]. apply with_key_true in Hq. destruct Hq as [_ Hlive].
  destruct (Mongo.FindOneSortDesc Articles.Version q coll) as [latest|] eqn:L.
  - rewrite (InsertOne_fresh Articles.ID); [|exact Fresh].
    eexists. split; [reflexivity|]. cbn.
    repeat split. exists latest. split; reflexivity.
  - exfalso. rewrite FindOneSortDesc_None in L. specialize (L original Hin).
    apply not_true_iff_false in L. apply L. subst q.
    apply with_key_true. split; [|exact Hlive].
    apply with_key_true. split; [apply oid_eqb_refl|apply String.eqb_refl].
Qed.

Lemma Clone_copies_draft_flag_witness :
  exists clone,
    Articles.CloneWithIncrementedVersion Samples.rfc3339 "64e21f6a2f1c8e1c0a3d4f5c"
      Samples.id3 2000 Samples.versions_1_2
    = (Ok (Articles.ToReadDTO Samples.rfc3339 clone), Samples.versions_1_2 ++ [clone])
    /\ Articles.Version clone = 3
    /\ Articles.IsDraft clone = false.
Proof.
  destruct (Clone_copies_draft_flag Samples.rfc3339 "64e21f6a2f1c8e1c0a3d4f5c" Samples.id3 2000
              Samples.versions_1_2 (Samples.article Samples.id2 2 false None))
    as (clone & E & _ & _ & _ & (latest & L & V) & _ & _ & _ & Dr).
  - reflexivity.
  - reflexivity.
  - intros x [<-|[<-|[]]]; intros E; vm_compute in E; discriminate.
  - exists clone. split; [exact E|]. split; [|exact Dr].
    rewrite V. vm_compute in L. injection L as <-. reflexivity.
Defined.

End ContentClaims.

(** ** The auth flow on sample data *)

Module AuthExamples.
Import Auth Samples.

Lemma unique_ids_store_of (a : AuthAttempt) : unique_ids (store_of a).
Proof.
  unfold unique_ids, Mongo.unique_ids. simpl.
  constructor; [intros []|constructor].
Defined.

(** With a wrong username, or with no attempts left, the attempt is
    fetched and the call fails without any write. *)
Lemma CheckTelegramCode_failure_without_write :
  (fst (GetByID (check_ID (check "alice" "123456")) (store_of (bob 3 false))) = Ok (bob 3 false)
   /\ fst (CheckTelegramCode svc (check "alice" "123456") 2000 (store_of (bob 3 false)))
      = Err ErrWrongTelegramUsername
   /\ writes_of (CheckTelegramCode svc (check "alice" "123456") 2000) (store_of (bob 3 false))
      = 0%nat)
  /\ (fst (GetByID (check_ID (check "bob" "123456")) (store_of (bob 0 false))) = Ok (bob 0 false)
      /\ fst (CheckTelegramCode svc (check "bob" "123456") 2000 (store_of (bob 0 false)))
         = Err ErrInvalidCode
      /\ writes_of (CheckTelegramCode svc (check "bob" "123456") 2000) (store_of (bob 0 false))
         = 0%nat).
Proof. vm_compute. repeat split. Qed.

Lemma CheckTelegramCode_write_count_witness :
  fst (GetByID (check_ID (check "bob" "000000")) (store_of (bob 3 false))) = Ok (bob 3 false)
  /\ writes_of (CheckTelegramCode svc (check "bob" "000000") 2000) (store_of (bob 3 false))
     = (if String.eqb (IdentifierUsed (bob 3 false)) (check_TelegramUsername (check "bob" "000000"))
           && (0 <? AttemptLeft (bob 3 false))
        then 1%nat else 0%nat).
Proof.
  split; [reflexivity|].
  apply (AuthClaims.CheckTelegramCode_write_count svc (check "bob" "000000") 2000
           (store_of (bob 3 false)) (bob 3 false)).
  reflexivity.
Defined.

(** An attempt that already succeeded is still written to: a wrong code
    decrements its counter, and at the last attempt deletes it. *)
Lemma successful_attempt_still_mutated :
  Success (bob 3 true) = true
  /\ writes_of (CheckTelegramCode svc (check "bob" "000000") 2000) (store_of (bob 3 true)) = 1%nat
  /\ map AttemptLeft (attempts (snd (CheckTelegramCode svc (check "bob" "000000") 2000
                                       (store_of (bob 3 true))))) = [2]
  /\ attempts (snd (CheckTelegramCode svc (check "bob" "000000") 2000 (store_of (bob 1 true))))
     = [].
Proof. vm_compute. repeat split. Qed.

Lemma success_survives_CheckTelegramCode_witness :
  writes_of (CheckTelegramCode svc (check "bob" "000000") 2000) (store_of (bob 3 true)) = 1%nat
  /\ exists a',
       fst (GetByID (check_ID (check "bob" "000000"))
              (snd (CheckTelegramCode svc (check "bob" "000000") 2000 (store_of (bob 3 true)))))
       = Ok a'
       /\ Success a' = true
       /\ AttemptLeft a' = AttemptLeft (bob 3 true) - 1.
Proof.
  pose proof (AuthClaims.success_survives_CheckTelegramCode svc (check "bob" "000000") 2000
                (store_of (bob 3 true)) (bob 3 true)
                (unique_ids_store_of (bob 3 true)) eq_refl eq_refl) as H.
  cbv zeta in H. destruct H as (_ & _ & H).
  destruct (H eq_refl eq_refl) as (W & _ & _ & D).
  split; [exact W|]. apply D.
  - discriminate.
  - reflexivity.
  - vm_compute. split; [discriminate|reflexivity].
Defined.

Lemma wrong_code_deletes_or_decrements_witness :
  fst (CheckTelegramCode svc (check "bob" "000000") 2000 (store_of (bob 1 false)))
  = Err ErrInvalidCode
  /\ fst (CheckTelegramCode svc (check "bob" "123456") 3000
            (snd (CheckTelegramCode svc (check "bob" "000000") 2000 (store_of (bob 1 false)))))
     = Err ErrAuthAttemptNotFound.
Proof.
  destruct (AuthClaims.wrong_code_deletes_or_decrements svc (check "bob" "000000") 2000
              (store_of (bob 1 false)) (bob 1 false)) as [H _].
  - apply unique_ids_store_of.
  - reflexivity.
  - reflexivity.
  - discriminate.
  - destruct (H eq_refl) as (E & _ & N). split; [exact E|].
    apply N. reflexivity.
Defined.

Lemma correct_code_keeps_attemptLeft_witness :
  exists a',
    fst (GetByID (check_ID (check "bob" "123456"))
           (snd (CheckTelegramCode svc (check "bob" "123456") 2000 (store_of (bob 2 false)))))
    = Ok a'
    /\ Success a' = true
    /\ AttemptLeft a' = AttemptLeft (bob 2 false)
    /\ a' = apply_set (mark_success 2000) (bob 2 false).
Proof.
  apply (AuthClaims.correct_code_keeps_attemptLeft svc (check "bob" "123456") 2000
           (store_of (bob 2 false)) (bob 2 false)).
  - reflexivity.
  - reflexivity.
  - reflexivity.
  - reflexivity.
Defined.

Lemma RequestTelegramCode_issues_unless_valid_witness :
  fst (RequestTelegramCode (mkCreateTelegramCodeRequestDTO "bob") 2000 id2 "654321" 2000 2000
         (store_of (bob 3 false)))
  = Err ErrAuthAttemptAlreadyExists
  <-> exists a,
        In a (attempts (store_of (bob 3 false)))
        /\ IdentifierUsed a = "bob" /\ Type_ a = TypeTelegram
        /\ 0 < AttemptLeft a /\ 2000 - AttemptTTL <= CreatedAt a.
Proof.
  apply (AuthClaims2.RequestTelegramCode_issues_unless_valid
           (mkCreateTelegramCodeRequestDTO "bob") 2000 id2 "654321" 2000 2000
           (store_of (bob 3 false))).
  intros a [<-|[]] E. vm_compute in E. discriminate.
Defined.

Lemma issuance_view_hides_code_witness :
  ToReadTelegramCodeRequestDTO (bob 3 false)
  = ToReadTelegramCodeRequestDTO
      (mkAuthAttempt id1 "bob" TypeTelegram "654321" false 3 AttemptTTL 1000 1000).
Proof.
  apply (AuthClaims2.issuance_view_hides_code (bob 3 false)
           (mkAuthAttempt id1 "bob" TypeTelegram "654321" false 3 AttemptTTL 1000 1000)).
  repeat split.
Defined.

End AuthExamples.

(** ** More on collections *)

Section CollectionFacts3.
Context {D : Type}.
Variable doc_id : D -> ObjectID.
Variable doc_eqb : D -> D -> bool.

Lemma FindOne_app (q : D -> bool) (c1 c2 : list D) :
  Mongo.FindOne q (c1 ++ c2)
  = match Mongo.FindOne q c1 with
    | Some d => Some d
    | None => Mongo.FindOne q c2
    end.
Proof.
  unfold Mongo.FindOne. induction c1 as [|x c1 IH]; simpl; [reflexivity|].
  destruct (q x); [reflexivity|exact IH].
Qed.

Lemma InsertOne_inv (d : D) (c c' : list D) :
  Mongo.InsertOne doc_id d c = Ok c' ->
  c' = c ++ [d] /\ forall x, In x c -> doc_id x <> doc_id d.
Proof.
  unfold Mongo.InsertOne.
  destruct (existsb (Mongo.has_id doc_id (doc_id d)) c) eqn:E; [discriminate|].
  intros [= <-]. split; [reflexivity|]. intros x Hx Ex.
  assert (T : existsb (Mongo.has_id doc_id (doc_id d)) c = true).
  { apply existsb_exists. exists x. split; [exact Hx|]. apply has_id_true. exact Ex. }
  congruence.
Qed.

Lemma InsertOne_duplicate (d : D) (c : list D) (x : D) :
  In x c -> doc_id x = doc_id d -> Mongo.InsertOne doc_id d c = Err ErrDuplicateKey.
Proof.
  intros Hx Ex. unfold Mongo.InsertOne.
  replace (existsb (Mongo.has_id doc_id (doc_id d)) c) with true; [reflexivity|].
  symmetry. apply existsb_exists. exists x. split; [exact Hx|]. apply has_id_true. exact Ex.
Qed.

(** [UpdateOne] rewrites only a document that matches the filter. *)
Lemma UpdateOne_pointwise_matching (q : D -> bool) (set : D -> D) (c : list D) :
  Forall2 (fun d d' => d' = d \/ (q d = true /\ d' = set d))
          c (snd (Mongo.UpdateOne doc_eqb q set c)).
Proof.
  induction c as [|d c IH]; simpl; [constructor|].
  destruct (q d) eqn:E; simpl.
  - constructor; [right; split; [exact E|reflexivity]|].
    clear IH. induction c; constructor; auto.
  - destruct (Mongo.UpdateOne doc_eqb q set c) as [r c']. simpl in *.
    constructor; [left; reflexivity|exact IH].
Qed.

Lemma UpdateOne_ids (q : D -> bool) (set : D -> D) (c : list D) :
  (forall d, doc_id (set d) = doc_id d) ->
  map doc_id (snd (Mongo.UpdateOne doc_eqb q set c)) = map doc_id c.
Proof.
  intros Hid. induction c as [|d c IH]; simpl; [reflexivity|].
  destruct (q d); simpl; [rewrite Hid; reflexivity|].
  destruct (Mongo.UpdateOne doc_eqb q set c) as [r c']. simpl in *. rewrite IH. reflexivity.
Qed.

Lemma UpdateOne_matched (q : D -> bool) (set : D -> D) (c : list D) :
  Mongo.MatchedCount (fst (Mongo.UpdateOne doc_eqb q set c))
  = match Mongo.FindOne q c with Some _ => 1 | None => 0 end.
Proof.
  unfold Mongo.FindOne. induction c as [|d c IH]; simpl; [reflexivity|].
  destruct (q d); [reflexivity|].
  destruct (Mongo.UpdateOne doc_eqb q set c) as [r c']. exact IH.
Qed.

(** Writing to a document appended under a fresh id leaves the others alone. *)
Lemma UpdateOne_app_fresh (i : ObjectID) (set : D -> D) (c : list D) (d : D) :
  (forall x, In x c -> doc_id x <> i) -> doc_id d = i ->
  Mongo.UpdateOne doc_eqb (Mongo.has_id doc_id i) set (c ++ [d])
  = (Mongo.mkUpdateResult 1 (if doc_eqb (set d) d then 0 else 1), c ++ [set d]).
Proof.
  intros H E. induction c as [|x c IH]; simpl.
  - replace (Mongo.has_id doc_id i d) with true; [reflexivity|].
    symmetry. apply has_id_true. exact E.
  - replace (Mongo.has_id doc_id i x) with false.
    + rewrite IH; [reflexivity|]. intros y Hy. apply H. right. exact Hy.
    + symmetry. apply not_true_iff_false. intros Q. apply has_id_true in Q.
      exact (H x (or_introl eq_refl) Q).
Qed.

Lemma DeleteOne_unmatched (q : D -> bool) (c : list D) :
  (forall d, In d c -> q d = false) -> Mongo.DeleteOne q c = (0, c).
Proof.
  induction c as [|d c IH]; intros H; simpl; [reflexivity|].
  rewrite (H d (or_introl eq_refl)), IH; [reflexivity|].
  intros x Hx. apply H. right. exact Hx.
Qed.

(** Under the unique index, deleting by id keeps exactly the documents of
    another id, in place. *)
Lemma DeleteOne_by_id (i : ObjectID) (c : list D) :
  Mongo.unique_ids doc_id c ->
  snd (Mongo.DeleteOne (Mongo.has_id doc_id i) c)
  = filter (fun d => negb (Mongo.has_id doc_id i d)) c.
Proof.
  induction c as [|d c IH]; intros U; simpl; [reflexivity|].
  destruct (unique_ids_tail doc_id _ _ U) as [Uc Hd].
  destruct (Mongo.has_id doc_id i d) eqn:E; simpl.
  - apply has_id_true in E. subst i. symmetry.
    clear IH U Uc. induction c as [|x c IH]; simpl; [reflexivity|].
    rewrite (Hd x (or_introl eq_refl)). simpl. f_equal. apply IH.
    intros y Hy. apply Hd. right. exact Hy.
  - specialize (IH Uc).
    destruct (Mongo.DeleteOne (Mongo.has_id doc_id i) c) as [n c']. simpl in *.
    rewrite IH. reflexivity.
Qed.

Lemma unique_ids_app_fresh (c : list D) (d : D) :
  Mongo.unique_ids doc_id c -> (forall x, In x c -> doc_id x <> doc_id d) ->
  Mongo.unique_ids doc_id (c ++ [d]).
Proof.
  unfold Mongo.unique_ids. intros U F. rewrite map_app. simpl.
  apply NoDup_app; [exact U|constructor; [intros []|constructor]|].
  intros i Hi [<-|[]]. apply in_map_iff in Hi. destruct Hi as (x & Ex & Hx).
  exact (F x Hx Ex).
Qed.

End CollectionFacts3.

(** ** The auth-attempt repository: further properties *)

Module AuthRepositoryProps.
Import Auth AuthFacts.

Lemma unique_ids_filter {D : Type} (doc_id : D -> ObjectID) (f : D -> bool) (c : list D) :
  Mongo.unique_ids doc_id c -> Mongo.unique_ids doc_id (filter f c).
Proof.
  unfold Mongo.unique_ids. induction c as [|d c IH]; simpl; [trivial|].
  intros U. inversion U as [|? ? N1 N2]; subst.
  destruct (f d); simpl; [|apply IH; exact N2].
  constructor; [|apply IH; exact N2].
  intros HIn. apply N1. apply in_map_iff in HIn. destruct HIn as (x & Ex & Hx).
  apply filter_In in Hx. apply in_map_iff. exists x. tauto.
Qed.

(** [Create] followed by [GetByID]: [Create] hands back the attempt it
    was given; when the id was free, the collection grows by one document,
    which [GetByID] of that id returns and which carries the id,
    identifier, type, code, success flag, counter and TTL of the attempt
    (the two timestamps are left out of the comparison: the store keeps
    them at its own precision).  What could be fetched before can still be
    fetched. *)
Theorem Auth_Create_then_GetByID (a : AuthAttempt) (s : Store) :
  (forall x, In x (attempts s) -> ID x <> ID a) ->
  fst (Create a s) = Ok a
  /\ (exists a',
        attempts (snd (Create a s)) = attempts s ++ [a']
        /\ fst (GetByID (Hex (ID a)) (snd (Create a s))) = Ok a'
        /\ ID a' = ID a
        /\ IdentifierUsed a' = IdentifierUsed a
        /\ Type_ a' = Type_ a
        /\ Code a' = Code a
        /\ Success a' = Success a
        /\ AttemptLeft a' = AttemptLeft a
        /\ TTL a' = TTL a)
  /\ forall id x, fst (GetByID id s) = Ok x -> fst (GetByID id (snd (Create a s))) = Ok x.
Proof.
  intros Fresh.
  assert (E : Create a s = (Ok a, mkStore (attempts s ++ [a]) (journal s ++ [CallInsertOne (ID a)]))).
  { unfold Create, bind, insertOne, ret, record.
    rewrite (InsertOne_fresh ID); [reflexivity|exact Fresh]. }
  rewrite E. cbn [fst snd attempts]. split; [reflexivity|]. split.
  - exists a. split; [reflexivity|]. split; [|repeat split].
    erewrite GetByID_found; [reflexivity|apply ObjectIDFromHex_Hex|].
    cbn [attempts]. rewrite FindOne_app.
    replace (Mongo.FindOne (Mongo.has_id ID (ID a)) (attempts s)) with (@None AuthAttempt).
    + simpl. unfold Mongo.has_id. rewrite oid_eqb_refl. reflexivity.
    + symmetry. apply FindOne_None. intros d Hd. apply not_true_iff_false. intros Q.
      apply has_id_true in Q. exact (Fresh d Hd Q).
  - intros id x G. destruct (GetByID_inv _ _ _ G) as [P F].
    erewrite GetByID_found; [reflexivity|exact P|].
    cbn [attempts]. rewrite FindOne_app, F. reflexivity.
Qed.

Lemma Auth_Create_then_GetByID_witness :
  fst (Create (Samples.bob 3 false) (mkStore [] [])) = Ok (Samples.bob 3 false)
  /\ exists a',
       fst (GetByID (Hex Samples.id1) (snd (Create (Samples.bob 3 false) (mkStore [] []))))
       = Ok a'
       /\ Code a' = Code (Samples.bob 3 false)
       /\ AttemptLeft a' = AttemptLeft (Samples.bob 3 false).
Proof.
  destruct (Auth_Create_then_GetByID (Samples.bob 3 false) (mkStore [] []))
    as (H1 & (a' & _ & G & _ & _ & _ & C & _ & L & _) & _).
  - intros x [].
  - split; [exact H1|]. exists a'. split; [exact G|]. split; [exact C|exact L].
Defined.

(** An id that names no stored attempt: [GetByID] and [Delete] fail, with
    [ErrInvalidAuthAttemptID] when the id is malformed (no driver call is
    made then) and with [ErrAuthAttemptNotFound] otherwise.  [Update] fails
    the same way, except that for a well-formed id and a DTO that sets
    nothing it returns nil without looking the id up.  The collection is
    left as it was. *)
Theorem Auth_unknown_id
    (id : string) (dto : UpdateAuthAttemptDTO) (now : Time) (s : Store) :
  (forall x, In x (attempts s) -> ObjectIDFromHex id <> Some (ID x)) ->
  let e := match ObjectIDFromHex id with
           | None => ErrInvalidAuthAttemptID
           | Some _ => ErrAuthAttemptNotFound
           end in
  (fst (GetByID id s) = Err e /\ attempts (snd (GetByID id s)) = attempts s)
  /\ (fst (Delete id s) = Err e /\ attempts (snd (Delete id s)) = attempts s)
  /\ (fst (Update id dto now s)
      = match ObjectIDFromHex id, upd_Success dto, upd_AttemptLeft dto with
        | Some _, false, None => Ok tt
        | _, _, _ => Err e
        end
      /\ attempts (snd (Update id dto now s)) = attempts s)
  /\ (ObjectIDFromHex id = None ->
      GetByID id s = (Err e, s) /\ Delete id s = (Err e, s) /\ Update id dto now s = (Err e, s)).
Proof.
  intros Miss e. subst e. unfold GetByID, Delete, Update.
  destruct (ObjectIDFromHex id) as [i|] eqn:P.
  2:{ destruct dto as [[|] [n|]]; repeat split. }
  assert (N : forall d, In d (attempts s) -> Mongo.has_id ID i d = false).
  { intros d Hd. apply not_true_iff_false. intros Q. apply has_id_true in Q.
    apply (Miss d Hd). congruence. }
  split; [|split; [|split; [|discriminate]]].
  - unfold bind, findOne. cbn [fst snd attempts].
    rewrite (proj2 (FindOne_None _ _) N). split; reflexivity.
  - unfold bind, deleteOne. rewrite (DeleteOne_unmatched _ _ N). split; reflexivity.
  - cbv zeta.
    destruct dto as [[|] [n|]]; cbn [update_fields len set_success set_attempt_left
      set_updated_at upd_Success upd_AttemptLeft present Z.add Z.eqb Pos.add Pos.succ];
      try (split; reflexivity);
      unfold bind, updateOne;
      rewrite (UpdateOne_unmatched AuthAttempt_eqb _ _ _ N); split; reflexivity.
Qed.

Lemma Auth_unknown_id_witness :
  fst (GetByID "invalid-id" (Samples.store_of (Samples.bob 3 false)))
  = Err ErrInvalidAuthAttemptID
  /\ fst (Delete (Hex Samples.id2) (Samples.store_of (Samples.bob 3 false)))
     = Err ErrAuthAttemptNotFound
  /\ fst (Update (Hex Samples.id2) (mkUpdateAuthAttemptDTO false None) 2000
            (Samples.store_of (Samples.bob 3 false))) = Ok tt.
Proof.
  assert (M1 : forall x, In x (attempts (Samples.store_of (Samples.bob 3 false))) ->
                 ObjectIDFromHex "invalid-id" <> Some (ID x)).
  { intros x _. discriminate. }
  assert (M2 : forall x, In x (attempts (Samples.store_of (Samples.bob 3 false))) ->
                 ObjectIDFromHex (Hex Samples.id2) <> Some (ID x)).
  { intros x [<-|[]] E. vm_compute in E. discriminate. }
  destruct (Auth_unknown_id "invalid-id" (mkUpdateAuthAttemptDTO false None) 2000
              (Samples.store_of (Samples.bob 3 false)) M1) as ((H1 & _) & _).
  destruct (Auth_unknown_id (Hex Samples.id2) (mkUpdateAuthAttemptDTO false None) 2000
              (Samples.store_of (Samples.bob 3 false)) M2) as (_ & (H2 & _) & (H3 & _) & _).
  split; [exact H1|]. split; [exact H2|exact H3].
Defined.

(** [Delete] of a stored attempt removes that document and no other:
    the attempt can no longer be fetched, every other one still can. *)
Theorem Auth_Delete_removes_only_target (a : AuthAttempt) (s : Store) :
  unique_ids s -> In a (attempts s) ->
  fst (Delete (Hex (ID a)) s) = Ok tt
  /\ attempts (snd (Delete (Hex (ID a)) s))
     = filter (fun x => negb (oid_eqb (ID x) (ID a))) (attempts s)
  /\ fst (GetByID (Hex (ID a)) (snd (Delete (Hex (ID a)) s))) = Err ErrAuthAttemptNotFound
  /\ forall x, In x (attempts s) -> ID x <> ID a ->
       fst (GetByID (Hex (ID x)) (snd (Delete (Hex (ID a)) s))) = Ok x.
Proof.
  intros U Ha.
  pose proof (FindOne_by_id ID (attempts s) a U Ha) as F.
  rewrite (Delete_found a s F). cbn [fst snd attempts].
  assert (E : snd (Mongo.DeleteOne (Mongo.has_id ID (ID a)) (attempts s))
              = filter (fun x => negb (oid_eqb (ID x) (ID a))) (attempts s))
    by apply (DeleteOne_by_id ID (ID a) (attempts s) U).
  rewrite E. repeat split.
  - erewrite GetByID_missing; [reflexivity|apply ObjectIDFromHex_Hex|].
    cbn [attempts]. intros x Hx Ex. apply filter_In in Hx. destruct Hx as [_ Q].
    rewrite Ex, oid_eqb_refl in Q. discriminate.
  - intros x Hx Nx.
    erewrite GetByID_found; [reflexivity|apply ObjectIDFromHex_Hex|].
    cbn [attempts]. apply FindOne_by_id.
    + apply unique_ids_filter. exact U.
    + apply filter_In. split; [exact Hx|].
      apply negb_true_iff. apply oid_eqb_neq. exact Nx.
Qed.

Lemma Auth_Delete_removes_only_target_witness :
  fst (Delete (Hex Samples.id1) (Samples.store_of (Samples.bob 3 false))) = Ok tt
  /\ attempts (snd (Delete (Hex Samples.id1) (Samples.store_of (Samples.bob 3 false))))
     = filter (fun x => negb (oid_eqb (ID x) Samples.id1))
              (attempts (Samples.store_of (Samples.bob 3 false))).
Proof.
  destruct (Auth_Delete_removes_only_target (Samples.bob 3 false)
              (Samples.store_of (Samples.bob 3 false))) as (H1 & H2 & _).
  - unfold unique_ids, Mongo.unique_ids. simpl. constructor; [intros []|constructor].
  - left. reflexivity.
  - split; [exact H1|exact H2].
Defined.

(** [Update] writes to no document but the one with the given id, and on
    that one it leaves the id, identifier, type, code, TTL and creation
    time as they were. *)
Theorem Auth_Update_frame (id : string) (dto : UpdateAuthAttemptDTO) (now : Time) (s : Store) :
  Forall2 (fun a a' =>
             ID a' = ID a /\ IdentifierUsed a' = IdentifierUsed a /\ Type_ a' = Type_ a
             /\ Code a' = Code a /\ TTL a' = TTL a /\ CreatedAt a' = CreatedAt a
             /\ (ObjectIDFromHex id <> Some (ID a) -> a' = a))
          (attempts s) (attempts (snd (Update id dto now s))).
Proof.
  assert (Same : forall l : list AuthAttempt,
            Forall2 (fun a a' =>
               ID a' = ID a /\ IdentifierUsed a' = IdentifierUsed a /\ Type_ a' = Type_ a
               /\ Code a' = Code a /\ TTL a' = TTL a /\ CreatedAt a' = CreatedAt a
               /\ (ObjectIDFromHex id <> Some (ID a) -> a' = a)) l l).
  { induction l; constructor; [repeat split|assumption]. }
  unfold Update. destruct (ObjectIDFromHex id) as [objID|]; [|apply Same].
  cbv zeta. destruct (len (update_fields dto) =? 0); [apply Same|].
  unfold bind, updateOne.
  pose proof (UpdateOne_pointwise_matching AuthAttempt_eqb (Mongo.has_id ID objID)
                (apply_set (mkUpdateSet (set_success (update_fields dto))
                                        (set_attempt_left (update_fields dto)) (Some now)))
                (attempts s)) as P.
  destruct (Mongo.UpdateOne AuthAttempt_eqb (Mongo.has_id ID objID) _ (attempts s)) as [r c'].
  cbn [snd] in P.
  assert (G : Forall2 (fun a a' =>
               ID a' = ID a /\ IdentifierUsed a' = IdentifierUsed a /\ Type_ a' = Type_ a
               /\ Code a' = Code a /\ TTL a' = TTL a /\ CreatedAt a' = CreatedAt a
               /\ (Some objID <> Some (ID a) -> a' = a)) (attempts s) c').
  { eapply AuthClaims2.Forall2_weaken; [|exact P]. cbv beta.
    intros a a' [->|[Q ->]]; [repeat split|].
    repeat split. intros N. exfalso. apply N. f_equal. symmetry.
    apply has_id_true in Q. exact Q. }
  destruct (Mongo.MatchedCount r =? 0); exact G.
Qed.

(** [GetByTelegramUsername] answers with a stored attempt that passes its
    filter (the username, Telegram type, attempts left, created within
    [AttemptTTL] of the clock reading) and is the most recently created
    one that does; it fails with [ErrAuthAttemptNotFound] exactly when no
    stored attempt passes.  It never writes. *)
Theorem GetByTelegramUsername_most_recent (username : string) (now : Time) (s : Store) :
  match fst (GetByTelegramUsername username now s) with
  | Ok a =>
      In a (attempts s)
      /\ (IdentifierUsed a = username /\ Type_ a = TypeTelegram
          /\ 0 < AttemptLeft a /\ now - AttemptTTL <= CreatedAt a)
      /\ forall b, In b (attempts s) -> valid_attempt now username b = true ->
           CreatedAt b <= CreatedAt a
  | Err e =>
      e = ErrAuthAttemptNotFound
      /\ forall b, In b (attempts s) -> valid_attempt now username b = false
  end
  /\ attempts (snd (GetByTelegramUsername username now s)) = attempts s.
Proof.
  rewrite AuthClaims2.GetByTelegramUsername_run. cbn [fst snd]. split; [|reflexivity].
  destruct (Mongo.FindOneSortDesc CreatedAt (valid_attempt now username) (attempts s))
    as [a|] eqn:F.
  - destruct (FindOneSortDesc_Some _ _ _ _ F) as (I & V & B).
    split; [exact I|]. split; [|exact B].
    apply AuthClaims2.valid_attempt_spec. exact V.
  - split; [reflexivity|]. exact (proj1 (FindOneSortDesc_None _ _ _) F).
Qed.

End AuthRepositoryProps.

(** ** The auth service: further properties *)

Module AuthServiceProps.
Import Auth AuthFacts.

Lemma GetByID_attempts (id : string) (s : Store) :
  attempts (snd (GetByID id s)) = attempts s.
Proof.
  unfold GetByID. destruct (ObjectIDFromHex id); [|reflexivity].
  unfold bind, findOne. simpl.
  destruct (Mongo.FindOne _ (attempts s)); reflexivity.
Qed.

Lemma CheckTelegramCode_unfetched
    (svc : AuthServiceImpl) (dto : CreateCheckTelegramCodeRequestDTO) (now : Time)
    (s : Store) (e : error) :
  fst (GetByID (check_ID dto) s) = Err e ->
  CheckTelegramCode svc dto now s = (Err e, snd (GetByID (check_ID dto) s)).
Proof.
  intros G. unfold CheckTelegramCode, bind.
  destruct (GetByID (check_ID dto) s) as [[a|e'] s']; simpl in G; [discriminate|].
  injection G as ->. reflexivity.
Qed.

(** What a successful issuance leaves behind. *)
Lemma RequestTelegramCode_ok
    (dto : CreateTelegramCodeRequestDTO) (now : Time)
    (newID : ObjectID) (digits : string) (now1 now2 : Time) (s : Store)
    (rd : ReadTelegramCodeRequestDTO) :
  fst (RequestTelegramCode dto now newID digits now1 now2 s) = Ok rd ->
  let a0 := ToAuthAttemptFromCreateTelegramCodeRequestDTO dto newID digits now1 now2 in
  rd = ToReadTelegramCodeRequestDTO a0
  /\ attempts (snd (RequestTelegramCode dto now newID digits now1 now2 s)) = attempts s ++ [a0]
  /\ (forall x, In x (attempts s) -> ID x <> newID)
  /\ forall b, In b (attempts s) -> valid_attempt now (create_TelegramUsername dto) b = false.
Proof.
  intros H a0. rewrite AuthClaims2.RequestTelegramCode_run in *.
  destruct (Mongo.FindOneSortDesc CreatedAt (valid_attempt now (create_TelegramUsername dto))
              (attempts s)) as [m|] eqn:F; [discriminate|].
  unfold Create, bind, insertOne, ret in *. cbn [attempts journal fetched] in *.
  fold a0 in H |- *.
  destruct (Mongo.InsertOne ID a0 (attempts s)) as [c'|e] eqn:I; [|discriminate].
  destruct (InsertOne_inv ID _ _ _ I) as [-> Fresh].
  cbn [fst snd attempts] in *. injection H as <-.
  split; [reflexivity|]. split; [reflexivity|]. split; [exact Fresh|].
  exact (proj1 (FindOneSortDesc_None _ _ _) F).
Qed.

Lemma GetByID_appended (a0 : AuthAttempt) (c : list AuthAttempt) (j : list DbCall) :
  (forall x, In x c -> ID x <> ID a0) ->
  fst (GetByID (Hex (ID a0)) (mkStore (c ++ [a0]) j)) = Ok a0.
Proof.
  intros Fresh.
  erewrite GetByID_found; [reflexivity|apply ObjectIDFromHex_Hex|].
  cbn [attempts]. rewrite FindOne_app.
  replace (Mongo.FindOne (Mongo.has_id ID (ID a0)) c) with (@None AuthAttempt).
  - simpl. unfold Mongo.has_id. rewrite oid_eqb_refl. reflexivity.
  - symmetry. apply FindOne_None. intros d Hd. apply not_true_iff_false. intros Q.
    apply has_id_true in Q. exact (Fresh d Hd Q).
Qed.

Lemma store_eta (s : Store) : s = mkStore (attempts s) (journal s).
Proof. destruct s; reflexivity. Qed.

(** Issuing twice: once a code has been issued for a username, a second
    request for it made while the first attempt is within [AttemptTTL]
    fails with [ErrAuthAttemptAlreadyExists] and stores nothing. *)
Theorem RequestTelegramCode_twice
    (dto : CreateTelegramCodeRequestDTO) (now : Time)
    (newID : ObjectID) (digits : string) (now1 now2 : Time) (s : Store)
    (rd : ReadTelegramCodeRequestDTO)
    (now' : Time) (newID' : ObjectID) (digits' : string) (now1' now2' : Time) :
  fst (RequestTelegramCode dto now newID digits now1 now2 s) = Ok rd ->
  now' - AttemptTTL <= now1 ->
  fst (RequestTelegramCode dto now' newID' digits' now1' now2'
         (snd (RequestTelegramCode dto now newID digits now1 now2 s)))
  = Err ErrAuthAttemptAlreadyExists
  /\ attempts (snd (RequestTelegramCode dto now' newID' digits' now1' now2'
                      (snd (RequestTelegramCode dto now newID digits now1 now2 s))))
     = attempts (snd (RequestTelegramCode dto now newID digits now1 now2 s)).
Proof.
  intros H T. destruct (RequestTelegramCode_ok _ _ _ _ _ _ _ _ H) as (_ & A & _ & _).
  set (s1 := snd (RequestTelegramCode dto now newID digits now1 now2 s)) in *.
  rewrite AuthClaims2.RequestTelegramCode_run.
  destruct (Mongo.FindOneSortDesc CreatedAt (valid_attempt now' (create_TelegramUsername dto))
              (attempts s1)) as [m|] eqn:F; [split; reflexivity|].
  exfalso. pose proof (proj1 (FindOneSortDesc_None _ _ _) F) as N.
  specialize (N (ToAuthAttemptFromCreateTelegramCodeRequestDTO dto newID digits now1 now2)).
  rewrite A in N.
  assert (I : In (ToAuthAttemptFromCreateTelegramCodeRequestDTO dto newID digits now1 now2)
                (attempts s ++ [ToAuthAttemptFromCreateTelegramCodeRequestDTO dto newID digits now1 now2]))
    by (apply in_or_app; right; left; reflexivity).
  specialize (N I).
  apply not_true_iff_false in N. apply N.
  apply AuthClaims2.valid_attempt_spec. cbn. repeat split; try reflexivity. exact T.
Qed.

Lemma RequestTelegramCode_twice_witness :
  fst (RequestTelegramCode (mkCreateTelegramCodeRequestDTO "bob") 3000 Samples.id2 "222222" 3000 3000
         (snd (RequestTelegramCode (mkCreateTelegramCodeRequestDTO "bob") 2000 Samples.id1
                 "111111" 2000 2000 (mkStore [] []))))
  = Err ErrAuthAttemptAlreadyExists.
Proof.
  destruct (RequestTelegramCode_twice (mkCreateTelegramCodeRequestDTO "bob") 2000 Samples.id1
              "111111" 2000 2000 (mkStore [] [])
              (mkReadTelegramCodeRequestDTO "bob" (Hex Samples.id1) (2000 + AttemptTTL))
              3000 Samples.id2 "222222" 3000 3000) as [H _].
  - reflexivity.
  - vm_compute. discriminate.
  - exact H.
Defined.

(** The whole flow: after a code has been issued, verifying the issued
    id with the username and the drawn digits persists [success = true] and
    returns the token pair, provided the user is known and both tokens can
    be signed.  The clock reading of the verification is arbitrary: the
    verification path does not look at the TTL. *)
Theorem issue_then_check
    (svc : AuthServiceImpl) (dto : CreateTelegramCodeRequestDTO) (now : Time)
    (newID : ObjectID) (digits : string) (now1 now2 : Time) (s : Store)
    (rd : ReadTelegramCodeRequestDTO) (now' : Time)
    (user : Users.ReadUserDTO) (tp : TokenPairDTO) :
  fst (RequestTelegramCode dto now newID digits now1 now2 s) = Ok rd ->
  GetUserByTelegramUsername svc (create_TelegramUsername dto) = Ok user ->
  generateTokenPair svc user = Ok tp ->
  let check := mkCreateCheckTelegramCodeRequestDTO (read_ID rd) (read_TelegramUsername rd) digits in
  let s1 := snd (RequestTelegramCode dto now newID digits now1 now2 s) in
  fst (CheckTelegramCode svc check now' s1) = Ok tp
  /\ exists a', fst (GetByID (read_ID rd) (snd (CheckTelegramCode svc check now' s1))) = Ok a'
                /\ Success a' = true /\ AttemptLeft a' = MaxAttempts.
Proof.
  intros H U T check s1.
  destruct (RequestTelegramCode_ok _ _ _ _ _ _ _ _ H) as (-> & A & Fresh & _).
  set (a0 := ToAuthAttemptFromCreateTelegramCodeRequestDTO dto newID digits now1 now2) in *.
  assert (G : fst (GetByID (check_ID check) s1) = Ok a0).
  { subst check. cbn [check_ID read_ID ToReadTelegramCodeRequestDTO].
    rewrite (store_eta s1). fold s1 in A. rewrite A. apply GetByID_appended. exact Fresh. }
  destruct (GetByID_inv _ _ _ G) as [P F].
  rewrite (CheckTelegramCode_run svc check now' s1 a0 G).
  subst check. cbn [check_TelegramUsername check_Code check_ID read_ID read_TelegramUsername
                    ToReadTelegramCodeRequestDTO] in *.
  change (IdentifierUsed a0) with (create_TelegramUsername dto).
  rewrite String.eqb_refl. simpl negb. cbv iota.
  rewrite (performCodeCheck_run a0 digits now' (fetched s1) F).
  change (AttemptLeft a0 <=? 0) with false. change (Code a0) with digits.
  rewrite String.eqb_refl. cbv iota. rewrite U, T. cbn [fst snd].
  split; [reflexivity|].
  exists (apply_set (mark_success now') a0). split; [|split; reflexivity].
  destruct (UpdateOne_found ID AuthAttempt_eqb (ID a0) (apply_set (mark_success now'))
              (attempts s1) a0 (apply_set_ID _) F) as [_ F'].
  erewrite GetByID_found; [reflexivity|exact P|exact F'].
Qed.

Lemma issue_then_check_witness :
  fst (CheckTelegramCode Samples.svc
         (mkCreateCheckTelegramCodeRequestDTO (Hex Samples.id1) "bob" "111111") 999999999999999
         (snd (RequestTelegramCode (mkCreateTelegramCodeRequestDTO "bob") 2000 Samples.id1
                 "111111" 2000 2000 (mkStore [] []))))
  = Ok (mkTokenPairDTO "access:64e21f6a2f1c8e1c0a3d4f01" "refresh:64e21f6a2f1c8e1c0a3d4f01").
Proof.
  destruct (issue_then_check Samples.svc (mkCreateTelegramCodeRequestDTO "bob") 2000 Samples.id1
              "111111" 2000 2000 (mkStore [] [])
              (mkReadTelegramCodeRequestDTO "bob" (Hex Samples.id1) (2000 + AttemptTTL))
              999999999999999 Samples.user_bob
              (mkTokenPairDTO "access:64e21f6a2f1c8e1c0a3d4f01" "refresh:64e21f6a2f1c8e1c0a3d4f01"))
    as [H _].
  - reflexivity.
  - reflexivity.
  - reflexivity.
  - exact H.
Defined.

(** Tokens are returned only for the right code: when [CheckTelegramCode]
    succeeds, the id names a stored attempt with the submitted username
    and code and with attempts left, the user lookup succeeded, and the pair
    is the one [generateTokenPair] made for that user. *)
Theorem tokens_only_for_correct_code
    (svc : AuthServiceImpl) (dto : CreateCheckTelegramCodeRequestDTO) (now : Time)
    (s : Store) (tp : TokenPairDTO) :
  fst (CheckTelegramCode svc dto now s) = Ok tp ->
  exists a user,
    fst (GetByID (check_ID dto) s) = Ok a
    /\ IdentifierUsed a = check_TelegramUsername dto
    /\ Code a = check_Code dto
    /\ 0 < AttemptLeft a
    /\ GetUserByTelegramUsername svc (check_TelegramUsername dto) = Ok user
    /\ generateTokenPair svc user = Ok tp.
Proof.
  intros H. destruct (fst (GetByID (check_ID dto) s)) as [a|e] eqn:G.
  2:{ rewrite (CheckTelegramCode_unfetched svc dto now s e G) in H. discriminate. }
  destruct (GetByID_inv _ _ _ G) as [P F].
  rewrite (CheckTelegramCode_run svc dto now s a G) in H.
  destruct (String.eqb (IdentifierUsed a) (check_TelegramUsername dto)) eqn:Ei;
    simpl negb in H; cbv iota in H; [|discriminate].
  rewrite (performCodeCheck_run a (check_Code dto) now (fetched s) F) in H.
  destruct (Z.leb_spec (AttemptLeft a) 0) as [|Hl]; [discriminate|].
  destruct (String.eqb (Code a) (check_Code dto)) eqn:Ec.
  2:{ destruct (int_sub (AttemptLeft a) 1 =? 0); discriminate. }
  destruct (GetUserByTelegramUsername svc (check_TelegramUsername dto)) as [user|e] eqn:U;
    [|discriminate].
  cbn [fst] in H. exists a, user.
  apply String.eqb_eq in Ei. apply String.eqb_eq in Ec. repeat split; assumption.
Qed.

Lemma tokens_only_for_correct_code_witness :
  exists a user,
    fst (GetByID (check_ID (Samples.check "bob" "123456")) (Samples.store_of (Samples.bob 3 false)))
    = Ok a
    /\ IdentifierUsed a = check_TelegramUsername (Samples.check "bob" "123456")
    /\ Code a = check_Code (Samples.check "bob" "123456")
    /\ 0 < AttemptLeft a
    /\ GetUserByTelegramUsername Samples.svc (check_TelegramUsername (Samples.check "bob" "123456"))
       = Ok user
    /\ generateTokenPair Samples.svc user
       = Ok (mkTokenPairDTO "access:64e21f6a2f1c8e1c0a3d4f01" "refresh:64e21f6a2f1c8e1c0a3d4f01").
Proof.
  apply (tokens_only_for_correct_code Samples.svc (Samples.check "bob" "123456") 2000
           (Samples.store_of (Samples.bob 3 false))).
  reflexivity.
Defined.

(** With the right code but an unknown user, [CheckTelegramCode] returns
    the lookup's error, and the attempt has by then been marked
    successful. *)
Theorem correct_code_unknown_user
    (svc : AuthServiceImpl) (dto : CreateCheckTelegramCodeRequestDTO) (now : Time)
    (s : Store) (a : AuthAttempt) (e : error) :
  fst (GetByID (check_ID dto) s) = Ok a ->
  IdentifierUsed a = check_TelegramUsername dto ->
  0 < AttemptLeft a ->
  Code a = check_Code dto ->
  GetUserByTelegramUsername svc (check_TelegramUsername dto) = Err e ->
  fst (CheckTelegramCode svc dto now s) = Err e
  /\ fst (GetByID (check_ID dto) (snd (CheckTelegramCode svc dto now s)))
     = Ok (apply_set (mark_success now) a).
Proof.
  intros G Hi Hl Hc U. destruct (GetByID_inv _ _ _ G) as [P F].
  rewrite (CheckTelegramCode_run svc dto now s a G).
  rewrite Hi, String.eqb_refl. simpl negb. cbv iota.
  rewrite (performCodeCheck_run a (check_Code dto) now (fetched s) F).
  destruct (Z.leb_spec (AttemptLeft a) 0); [lia|].
  rewrite Hc, String.eqb_refl, U. cbn [fst snd]. split; [reflexivity|].
  destruct (UpdateOne_found ID AuthAttempt_eqb (ID a)
              (apply_set (mark_success now)) (attempts s) a (apply_set_ID _) F) as [_ F'].
  erewrite GetByID_found; [reflexivity|exact P|exact F'].
Qed.

Lemma correct_code_unknown_user_witness :
  fst (CheckTelegramCode Samples.svc
         (mkCreateCheckTelegramCodeRequestDTO "64e21f6a2f1c8e1c0a3d4f5b" "eve" "123456") 2000
         (mkStore [mkAuthAttempt Samples.id1 "eve" TypeTelegram "123456" false 3 AttemptTTL 1000 1000] []))
  = Err ErrUserNotFound.
Proof.
  destruct (correct_code_unknown_user Samples.svc
              (mkCreateCheckTelegramCodeRequestDTO "64e21f6a2f1c8e1c0a3d4f5b" "eve" "123456") 2000
              (mkStore [mkAuthAttempt Samples.id1 "eve" TypeTelegram "123456" false 3 AttemptTTL 1000 1000] [])
              (mkAuthAttempt Samples.id1 "eve" TypeTelegram "123456" false 3 AttemptTTL 1000 1000)
              ErrUserNotFound) as [H _].
  - reflexivity.
  - reflexivity.
  - reflexivity.
  - reflexivity.
  - reflexivity.
  - exact H.
Defined.

End AuthServiceProps.

Module AuthInvariants.
Import Auth AuthFacts.

Lemma int_sub_1_small (z : Z) : 0 < z -> int_range z -> int_sub z 1 = z - 1.
Proof.
  intros Hz Hr. apply AuthClaims.int_wrap_small. unfold int_range in *. lia.
Qed.

Lemma int_sub_1_le (z : Z) : 0 < z -> int_sub z 1 <= z.
Proof.
  intros Hz. unfold int_sub, int_wrap.
  assert (H : (z - 1 + 2 ^ 63) mod 2 ^ 64 <= z - 1 + 2 ^ 63) by (apply Z.mod_le; lia).
  lia.
Qed.

Lemma unique_ids_updated (i : ObjectID) (u : UpdateSet) (c : list AuthAttempt) :
  Mongo.unique_ids ID c -> Mongo.unique_ids ID (updated i u c).
Proof.
  unfold Mongo.unique_ids, updated. intros U.
  rewrite (UpdateOne_ids ID AuthAttempt_eqb); [exact U|apply apply_set_ID].
Qed.

Lemma unique_ids_deleted (i : ObjectID) (c : list AuthAttempt) :
  Mongo.unique_ids ID c -> Mongo.unique_ids ID (deleted i c).
Proof.
  intros U. unfold deleted. rewrite (DeleteOne_by_id ID i c U).
  apply AuthRepositoryProps.unique_ids_filter. exact U.
Qed.

(** One wrong guess against a stored attempt with attempts left. *)
Lemma wrong_guess_step
    (svc : AuthServiceImpl) (id username code : string) (now : Time) (s : Store)
    (a : AuthAttempt) :
  unique_ids s ->
  fst (GetByID id s) = Ok a ->
  IdentifierUsed a = username ->
  code <> Code a ->
  0 < AttemptLeft a -> int_range (AttemptLeft a) ->
  let r := CheckTelegramCode svc (mkCreateCheckTelegramCodeRequestDTO id username code) now s in
  fst r = Err ErrInvalidCode
  /\ unique_ids (snd r)
  /\ (AttemptLeft a = 1 -> fst (GetByID id (snd r)) = Err ErrAuthAttemptNotFound)
  /\ (1 < AttemptLeft a ->
      exists a', fst (GetByID id (snd r)) = Ok a'
                 /\ AttemptLeft a' = AttemptLeft a - 1
                 /\ Code a' = Code a /\ IdentifierUsed a' = IdentifierUsed a).
Proof.
  intros U G Hi Hc Hl Hr r. destruct (GetByID_inv _ _ _ G) as [P F]. subst r. subst username.
  rewrite (CheckTelegramCode_run svc (mkCreateCheckTelegramCodeRequestDTO id (IdentifierUsed a) code) now s a G).
  cbn [check_ID check_TelegramUsername check_Code].
  rewrite String.eqb_refl. simpl negb. cbv iota.
  rewrite (performCodeCheck_run a code now (fetched s) F).
  destruct (Z.leb_spec (AttemptLeft a) 0); [lia|].
  assert (Ec : String.eqb (Code a) code = false) by (apply String.eqb_neq; congruence).
  rewrite Ec, (int_sub_1_small _ Hl Hr).
  destruct (Z.eqb_spec (AttemptLeft a - 1) 0) as [E0|N0]; cbn [fst snd].
  - split; [reflexivity|]. split; [apply unique_ids_deleted; exact U|].
    split; [|intros; lia]. intros _.
    erewrite GetByID_missing; [reflexivity|exact P|].
    apply (DeleteOne_found ID (ID a) (attempts s) a U F).
  - split; [reflexivity|]. split; [apply unique_ids_updated; exact U|].
    split; [intros; lia|]. intros _.
    exists (apply_set (decrement_to (AttemptLeft a - 1) now) a).
    split; [|repeat split].
    destruct (UpdateOne_found ID AuthAttempt_eqb (ID a)
                (apply_set (decrement_to (AttemptLeft a - 1) now)) (attempts s) a
                (apply_set_ID _) F) as [_ F'].
    erewrite GetByID_found; [reflexivity|exact P|exact F'].
Qed.

(** The guess bound: against an attempt with [n] attempts left, [n] wrong
    codes in a row are each answered with [ErrInvalidCode], and the last of
    them deletes the attempt, after which the id is unknown.  A freshly
    issued attempt therefore allows [MaxAttempts] guesses. *)
Theorem wrong_guesses_exhaust
    (svc : AuthServiceImpl) (id username : string) (tries : list (string * Time))
    (s : Store) (a : AuthAttempt) :
  unique_ids s ->
  fst (GetByID id s) = Ok a ->
  IdentifierUsed a = username ->
  Forall (fun t => fst t <> Code a) tries ->
  tries <> [] ->
  Z.of_nat (List.length tries) = AttemptLeft a ->
  int_range (AttemptLeft a) ->
  Forall (fun r => r = Err ErrInvalidCode) (fst (run_checks svc id username tries s))
  /\ fst (GetByID id (snd (run_checks svc id username tries s))) = Err ErrAuthAttemptNotFound.
Proof.
  revert s a. induction tries as [|[code now] rest IH]; intros s a U G Hi W NE L R;
    [congruence|].
  inversion W as [|? ? Hc W']; subst. cbn [fst] in Hc.
  assert (Hl : 0 < AttemptLeft a) by (rewrite <- L; simpl; lia).
  destruct (wrong_guess_step svc id (IdentifierUsed a) code now s a U G eq_refl Hc Hl R)
    as (E & U' & Last & More).
  cbn [run_checks].
  destruct (CheckTelegramCode svc
              (mkCreateCheckTelegramCodeRequestDTO id (IdentifierUsed a) code) now s)
    as [r s'] eqn:C.
  cbn [fst snd] in E, U', Last, More. subst r.
  destruct rest as [|t rest'].
  - cbn [run_checks fst snd]. split; [constructor; [reflexivity|constructor]|].
    apply Last. rewrite <- L. reflexivity.
  - assert (M : 1 < AttemptLeft a).
    { rewrite <- L. cbn [List.length]. lia. }
    destruct (More M) as (a' & G' & L' & C' & I').
    assert (W'' : Forall (fun t0 => fst t0 <> Code a') (t :: rest'))
      by (rewrite C'; exact W').
    assert (L'' : Z.of_nat (List.length (t :: rest')) = AttemptLeft a').
    { rewrite L', <- L. cbn [List.length]. lia. }
    assert (R' : int_range (AttemptLeft a')).
    { unfold int_range in *. lia. }
    assert (NE' : t :: rest' <> []) by discriminate.
    destruct (IH s' a' U' G' I' W'' NE' L'' R') as [IH1 IH2].
    destruct (run_checks svc id (IdentifierUsed a) (t :: rest') s') as [rs s''] eqn:RC.
    cbn [fst snd] in *. split; [constructor; [reflexivity|exact IH1]|exact IH2].
Qed.

Lemma wrong_guesses_exhaust_witness :
  fst (run_checks Samples.svc "64e21f6a2f1c8e1c0a3d4f5b" "bob"
         [("000000", 2000); ("000001", 2001); ("000002", 2002)]
         (Samples.store_of (Samples.bob 3 false)))
  = [Err ErrInvalidCode; Err ErrInvalidCode; Err ErrInvalidCode]
  /\ fst (GetByID "64e21f6a2f1c8e1c0a3d4f5b"
            (snd (run_checks Samples.svc "64e21f6a2f1c8e1c0a3d4f5b" "bob"
                    [("000000", 2000); ("000001", 2001); ("000002", 2002)]
                    (Samples.store_of (Samples.bob 3 false)))))
     = Err ErrAuthAttemptNotFound.
Proof.
  destruct (wrong_guesses_exhaust Samples.svc "64e21f6a2f1c8e1c0a3d4f5b" "bob"
              [("000000", 2000); ("000001", 2001); ("000002", 2002)]
              (Samples.store_of (Samples.bob 3 false)) (Samples.bob 3 false)) as [_ H].
  - unfold unique_ids, Mongo.unique_ids. simpl. constructor; [intros []|constructor].
  - reflexivity.
  - reflexivity.
  - repeat constructor; discriminate.
  - discriminate.
  - reflexivity.
  - vm_compute. split; [discriminate|reflexivity].
  - split; [reflexivity|exact H].
Defined.

Lemma Forall2_In_r {A : Type} (R : A -> A -> Prop) (l l' : list A) (y : A) :
  Forall2 R l l' -> In y l' -> exists x, In x l /\ R x y.
Proof.
  intros F. induction F as [|x y' l l' Hxy F IH]; intros Hy; [destruct Hy|].
  destruct Hy as [<-|Hy].
  - exists x. split; [left; reflexivity|exact Hxy].
  - destruct (IH Hy) as (x' & Hx' & Hr). exists x'. split; [right; exact Hx'|exact Hr].
Qed.

Lemma UpdateOne_pointwise_found (q : AuthAttempt -> bool) (set : AuthAttempt -> AuthAttempt)
    (c : list AuthAttempt) (a : AuthAttempt) :
  Mongo.FindOne q c = Some a ->
  Forall2 (fun d d' => d' = d \/ (d = a /\ d' = set a))
          c (snd (Mongo.UpdateOne AuthAttempt_eqb q set c)).
Proof.
  induction c as [|d c IH]; simpl; [discriminate|].
  destruct (q d) eqn:E; simpl.
  - intros [= ->]. constructor; [right; split; reflexivity|].
    clear IH. induction c; constructor; auto.
  - intros F. specialize (IH F).
    destruct (Mongo.UpdateOne AuthAttempt_eqb q set c) as [r c']. simpl in *.
    constructor; [left; reflexivity|exact IH].
Qed.

Lemma DeleteOne_In (q : AuthAttempt -> bool) (c : list AuthAttempt) (x : AuthAttempt) :
  In x (snd (Mongo.DeleteOne q c)) -> In x c.
Proof.
  induction c as [|d c IH]; simpl; [trivial|].
  destruct (q d); simpl; [intros H; right; exact H|].
  destruct (Mongo.DeleteOne q c) as [n c']. simpl in *.
  intros [<-|H]; [left; reflexivity|right; apply IH; exact H].
Qed.

(** What [CheckTelegramCode] can do to the stored attempts: each attempt
    stored afterwards was stored before under the same id, with the same
    identifier and code; its counter has not grown, and its [success] has
    not gone from true to false.  Nothing is ever inserted. *)
Theorem CheckTelegramCode_only_consumes
    (svc : AuthServiceImpl) (dto : CreateCheckTelegramCodeRequestDTO) (now : Time)
    (s : Store) (a' : AuthAttempt) :
  In a' (attempts (snd (CheckTelegramCode svc dto now s))) ->
  exists a,
    In a (attempts s)
    /\ ID a' = ID a /\ IdentifierUsed a' = IdentifierUsed a /\ Code a' = Code a
    /\ AttemptLeft a' <= AttemptLeft a
    /\ (Success a = true -> Success a' = true).
Proof.
  assert (Same : forall l, In a' l ->
            exists a, In a l /\ ID a' = ID a /\ IdentifierUsed a' = IdentifierUsed a
                      /\ Code a' = Code a /\ AttemptLeft a' <= AttemptLeft a
                      /\ (Success a = true -> Success a' = true)).
  { intros l Hl. exists a'. repeat split; [exact Hl|lia|trivial]. }
  destruct (fst (GetByID (check_ID dto) s)) as [a|e] eqn:G.
  2:{ rewrite (AuthServiceProps.CheckTelegramCode_unfetched svc dto now s e G). cbn [snd].
      rewrite AuthServiceProps.GetByID_attempts. apply Same. }
  destruct (GetByID_inv _ _ _ G) as [P F].
  rewrite (CheckTelegramCode_run svc dto now s a G).
  destruct (negb (String.eqb (IdentifierUsed a) (check_TelegramUsername dto)));
    [apply Same|].
  rewrite (performCodeCheck_run a (check_Code dto) now (fetched s) F).
  assert (Upd : forall u,
            (set_success u = None \/ set_success u = Some true) ->
            or_keep (set_attempt_left u) (AttemptLeft a) <= AttemptLeft a ->
            In a' (updated (ID a) u (attempts s)) ->
            exists a0, In a0 (attempts s) /\ ID a' = ID a0
                       /\ IdentifierUsed a' = IdentifierUsed a0 /\ Code a' = Code a0
                       /\ AttemptLeft a' <= AttemptLeft a0
                       /\ (Success a0 = true -> Success a' = true)).
  { intros u Hs Hn Hin.
    destruct (Forall2_In_r _ _ _ a'
                (UpdateOne_pointwise_found (Mongo.has_id ID (ID a)) (apply_set u) (attempts s) a F)
                Hin) as (d & Hd & [->|[-> ->]]).
    - apply Same. exact Hd.
    - exists a. split; [exact Hd|]. repeat split; [exact Hn|].
      cbn [Success apply_set]. destruct Hs as [-> | ->]; simpl; auto. }
  destruct (Z.leb_spec (AttemptLeft a) 0) as [|Hl]; [apply Same|].
  destruct (String.eqb (Code a) (check_Code dto)).
  - destruct (GetUserByTelegramUsername svc (check_TelegramUsername dto)) as [user|e];
      cbn [snd attempts]; intros Hin;
      (apply (Upd (mark_success now)); [right; reflexivity|simpl; lia|exact Hin]).
  - destruct (int_sub (AttemptLeft a) 1 =? 0); cbn [snd attempts]; intros Hin.
    + apply Same. apply (DeleteOne_In _ _ _ Hin).
    + apply (Upd (decrement_to (int_sub (AttemptLeft a) 1) now));
        [left; reflexivity|simpl; apply int_sub_1_le; exact Hl|exact Hin].
Qed.

Lemma CheckTelegramCode_only_consumes_witness :
  exists a,
    In a (attempts (Samples.store_of (Samples.bob 3 true)))
    /\ ID (apply_set (decrement_to 2 2000) (Samples.bob 3 true)) = ID a
    /\ IdentifierUsed (apply_set (decrement_to 2 2000) (Samples.bob 3 true)) = IdentifierUsed a
    /\ Code (apply_set (decrement_to 2 2000) (Samples.bob 3 true)) = Code a
    /\ AttemptLeft (apply_set (decrement_to 2 2000) (Samples.bob 3 true)) <= AttemptLeft a
    /\ (Success a = true ->
        Success (apply_set (decrement_to 2 2000) (Samples.bob 3 true)) = true).
Proof.
  apply (CheckTelegramCode_only_consumes Samples.svc (Samples.check "bob" "000000") 2000
           (Samples.store_of (Samples.bob 3 true))).
  left. reflexivity.
Defined.

End AuthInvariants.

(** ** Package utils *)

Module UtilsProps.
Import Utils.

Lemma digit_of_byte_digit (v : byte) : In (digit_of_byte v) (list_ascii_of_string digits).
Proof.
  destruct v; vm_compute; repeat (try (left; reflexivity); right).
Qed.

Lemma length_string_of_list_ascii (l : list ascii) :
  String.length (string_of_list_ascii l) = List.length l.
Proof. induction l as [|c l IH]; simpl; [reflexivity|rewrite IH; reflexivity]. Qed.

(** [RandomDigits]: when the random source fills the buffer, the result
    has exactly [length] characters and each of them is a decimal digit.
    (For [length <= 0], and when the source fails, the result is the empty
    string.) *)
Theorem RandomDigits_shape (length : Z) (b : list byte) :
  0 < length ->
  List.length b = Z.to_nat length ->
  String.length (RandomDigits length (Some b)) = Z.to_nat length
  /\ (forall c, In c (list_ascii_of_string (RandomDigits length (Some b))) ->
        In c (list_ascii_of_string digits))
  /\ (forall r, RandomDigits (- length) r = EmptyString)
  /\ RandomDigits length None = EmptyString.
Proof.
  intros Hl Hb. unfold RandomDigits.
  destruct (Z.leb_spec length 0) as [|_]; [lia|].
  destruct (Z.leb_spec (- length) 0) as [_|]; [|lia].
  split; [rewrite length_string_of_list_ascii, length_map; exact Hb|].
  split; [|split; reflexivity].
  intros c Hc. rewrite list_ascii_of_string_of_list_ascii in Hc.
  apply in_map_iff in Hc. destruct Hc as (v & <- & _). apply digit_of_byte_digit.
Qed.

Lemma RandomDigits_shape_witness :
  String.length (RandomDigits Auth.CodeLength (Some [x00; x0a; xff; x39; x07; x80]))
  = Z.to_nat Auth.CodeLength
  /\ RandomDigits Auth.CodeLength (Some [x00; x0a; xff; x39; x07; x80]) = "005778".
Proof.
  destruct (RandomDigits_shape Auth.CodeLength [x00; x0a; xff; x39; x07; x80]) as (H & _).
  - reflexivity.
  - reflexivity.
  - split; [exact H|reflexivity].
Defined.

(** The digits are not drawn uniformly: of the 256 byte values,
    [digit_of_byte] sends 26 to each of the digits 0 to 5 and 25 to each of
    the digits 6 to 9. *)
Theorem digit_of_byte_bias :
  (forall v, In v byte_values)
  /\ NoDup byte_values
  /\ forall d, In d (list_ascii_of_string digits) ->
       List.length (filter (fun v => Ascii.eqb (digit_of_byte v) d) byte_values)
       = if (N_of_ascii d <? 54)%N then 26%nat else 25%nat.
Proof.
  split; [|split].
  - intros v. destruct v; vm_compute; repeat (try (left; reflexivity); right).
  - apply (NoDup_map_inv Byte.to_N).
    replace (map Byte.to_N byte_values) with (map N.of_nat (seq 0 256)) by (vm_compute; reflexivity).
    apply Finite.Injective_map_NoDup; [|apply seq_NoDup].
    intros x y E. apply Nat2N.inj. exact E.
  - intros d Hd. simpl in Hd.
    repeat (destruct Hd as [<-|Hd]; [vm_compute; reflexivity|]). destruct Hd.
Qed.

Lemma substring_all (s : string) : substring 0 (String.length s) s = s.
Proof. induction s as [|c s IH]; simpl; [reflexivity|rewrite IH; reflexivity]. Qed.

Lemma prefix_split (p s : string) :
  String.prefix p s = true ->
  s = (p ++ substring (String.length p) (String.length s - String.length p) s)%string.
Proof.
  revert s. induction p as [|a p IH]; intros s.
  - intros _. simpl. rewrite Nat.sub_0_r. symmetry. apply substring_all.
  - destruct s as [|b s]; simpl; [discriminate|].
    destruct (ascii_dec a b) as [->|]; [|discriminate].
    intros H. f_equal. apply IH. exact H.
Qed.

Lemma prefix_append (p t : string) : String.prefix p (p ++ t)%string = true.
Proof.
  induction p as [|a p IH]; simpl; [destruct t; reflexivity|].
  destruct (ascii_dec a a); [exact IH|congruence].
Qed.

(** [GetRawAccessToken] accepts exactly the header values that start with
    the string "Bearer " and returns what follows it (possibly nothing);
    every other value, an absent header included, gives [ErrTokenInvalid]. *)
Theorem GetRawAccessToken_spec (authHeader : string) :
  match GetRawAccessToken authHeader with
  | Ok t => authHeader = ("Bearer " ++ t)%string
  | Err e => e = ErrTokenInvalid /\ forall t, authHeader <> ("Bearer " ++ t)%string
  end
  /\ forall t, GetRawAccessToken ("Bearer " ++ t) = Ok t.
Proof.
  assert (Main : match GetRawAccessToken authHeader with
                 | Ok t => authHeader = ("Bearer " ++ t)%string
                 | Err e => e = ErrTokenInvalid
                            /\ forall t, authHeader <> ("Bearer " ++ t)%string
                 end).
  { unfold GetRawAccessToken, TrimPrefix, HasPrefix.
    destruct (String.prefix "Bearer " authHeader) eqn:P.
    - destruct (Z.of_nat (String.length authHeader) =? 0) eqn:Z0; cbn [orb negb].
      + apply Z.eqb_eq in Z0. destruct authHeader; [discriminate P|simpl in Z0; lia].
      + apply prefix_split. exact P.
    - rewrite orb_true_r. split; [reflexivity|]. intros t E.
      rewrite E, prefix_append in P. discriminate. }
  split; [exact Main|].
  intros t. clear Main.
  assert (M : match GetRawAccessToken ("Bearer " ++ t) with
              | Ok t' => ("Bearer " ++ t)%string = ("Bearer " ++ t')%string
              | Err e => e = ErrTokenInvalid
                         /\ forall t', ("Bearer " ++ t)%string <> ("Bearer " ++ t')%string
              end).
  { unfold GetRawAccessToken, TrimPrefix, HasPrefix. rewrite prefix_append.
    cbn [negb orb]. change (Z.of_nat (String.length ("Bearer " ++ t)) =? 0) with false.
    cbn [orb]. apply prefix_split. apply prefix_append. }
  destruct (GetRawAccessToken ("Bearer " ++ t)) as [t'|e].
  - f_equal. simpl in M. injection M as ->. reflexivity.
  - destruct M as [_ M]. exfalso. exact (M t eq_refl).
Qed.

End UtilsProps.

(** ** The course repository: further properties *)

Lemma Forall2_In_l {A : Type} (R : A -> A -> Prop) (l l' : list A) (x : A) :
  Forall2 R l l' -> In x l -> exists y, In y l' /\ R x y.
Proof.
  intros F. induction F as [|x' y l l' Hxy F IH]; intros Hx; [destruct Hx|].
  destruct Hx as [<-|Hx].
  - exists y. split; [left; reflexivity|exact Hxy].
  - destruct (IH Hx) as (y' & Hy' & Hr). exists y'. split; [right; exact Hy'|exact Hr].
Qed.

Module CoursesProps.
Import Courses CoursesFacts.

Lemma Courses_apply_set_ID (u : CourseSet) (c : Course) : ID (apply_set u c) = ID c.
Proof. reflexivity. Qed.

Lemma Courses_FindOne_live_appended (i : ObjectID) (coll : list Course) (c : Course) :
  (forall x, In x coll -> ID x <> i) -> ID c = i -> DeletedAt c = None ->
  Mongo.FindOne (with_key (Mongo.has_id ID i) deleted_at_absent) (coll ++ [c]) = Some c.
Proof.
  intros Fresh Ei Live. rewrite FindOne_app.
  replace (Mongo.FindOne (with_key (Mongo.has_id ID i) deleted_at_absent) coll)
    with (@None Course).
  - simpl. unfold with_key, Mongo.has_id, deleted_at_absent.
    rewrite Ei, oid_eqb_refl, Live. reflexivity.
  - symmetry. apply FindOne_None. intros d Hd. apply not_true_iff_false. intros Q.
    apply with_key_fst in Q. apply has_id_true in Q. exact (Fresh d Hd Q).
Qed.

(** [Create] followed by [GetByID]: with a well-formed author id the
    course is stored unpublished under the fresh id, with both timestamps
    at the clock reading, and [GetByID] of the returned id gives the same
    DTO; with a malformed author id nothing is stored. *)
Theorem Courses_Create_then_GetByID
    (fmt : Time -> string) (dto : CreateCourseDTO) (newID : ObjectID) (now : Time)
    (coll : list Course) :
  (forall x, In x coll -> ID x <> newID) ->
  match ObjectIDFromHex (create_AuthorID dto) with
  | None => exists e, Create fmt dto newID now coll = (Err e, coll)
  | Some authorID =>
      let course :=
        mkCourse newID (create_Title dto) (create_Description dto) authorID
                 (create_Tags dto) false now now None in
      Create fmt dto newID now coll = (Ok (ToReadDTO fmt course), coll ++ [course])
      /\ GetByID fmt (read_ID (ToReadDTO fmt course)) (coll ++ [course])
         = Ok (ToReadDTO fmt course)
  end.
Proof.
  intros Fresh. unfold Create, ToCourseFromCreateDTO.
  destruct (ObjectIDFromHex (create_AuthorID dto)) as [authorID|];
    [|eexists; reflexivity].
  cbv zeta. rewrite (InsertOne_fresh ID); [|exact Fresh]. split; [reflexivity|].
  unfold GetByID. cbn [read_ID ToReadDTO ID]. rewrite ObjectIDFromHex_Hex. cbv zeta.
  rewrite Courses_FindOne_live_appended; [reflexivity|exact Fresh|reflexivity|reflexivity].
Qed.

Lemma Courses_Create_then_GetByID_witness :
  GetByID Samples.rfc3339 (Hex Samples.id2)
    (snd (Create Samples.rfc3339
            (mkCreateCourseDTO "Go" "Intro" "64e21f6a2f1c8e1c0a3d4f01" ["go"]) Samples.id2 2000
            [Samples.course Samples.id1 None]))
  = Ok (mkReadCourseDTO (Hex Samples.id2) "Go" "Intro" "64e21f6a2f1c8e1c0a3d4f01" ["go"] false
          (Samples.rfc3339 2000) (Samples.rfc3339 2000)).
Proof.
  pose proof (Courses_Create_then_GetByID Samples.rfc3339
                (mkCreateCourseDTO "Go" "Intro" "64e21f6a2f1c8e1c0a3d4f01" ["go"]) Samples.id2 2000
                [Samples.course Samples.id1 None]) as H.
  cbv zeta in H. cbn [create_AuthorID] in H.
  change (ObjectIDFromHex "64e21f6a2f1c8e1c0a3d4f01") with (Some Samples.author1) in H.
  destruct H as [H1 H2].
  - intros x [<-|[]] E. vm_compute in E. discriminate.
  - rewrite H1. cbn [snd]. exact H2.
Defined.

(** [UpdateByID] of a stored course: the call succeeds; with an empty
    DTO the collection is left as it was, otherwise the stored document
    takes the fields the DTO sets and the clock reading as [updated_at],
    keeping its id, author, creation time and [deleted_at].  The match is by
    [_id] alone, so a soft-deleted course is updated like any other.  No
    other document changes. *)
Theorem Courses_UpdateByID_spec
    (dto : UpdateCourseDTO) (now : Time) (coll : list Course) (c : Course) :
  Mongo.FindOne (Mongo.has_id ID (ID c)) coll = Some c ->
  fst (UpdateByID (Hex (ID c)) dto now coll) = Ok tt
  /\ match upd_Title dto, upd_Description dto, upd_Tags dto, upd_IsPublished dto with
     | None, None, None, None => snd (UpdateByID (Hex (ID c)) dto now coll) = coll
     | _, _, _, _ =>
         Mongo.FindOne (Mongo.has_id ID (ID c)) (snd (UpdateByID (Hex (ID c)) dto now coll))
         = Some (mkCourse (ID c)
                   (Auth.or_keep (upd_Title dto) (Title c))
                   (Auth.or_keep (upd_Description dto) (Description c))
                   (AuthorID c)
                   (Auth.or_keep (upd_Tags dto) (Tags c))
                   (Auth.or_keep (upd_IsPublished dto) (IsPublished c))
                   (CreatedAt c) now (DeletedAt c))
     end
  /\ Forall2 (fun d d' => d' = d \/ ID d = ID c)
             coll (snd (UpdateByID (Hex (ID c)) dto now coll)).
Proof.
  intros F.
  assert (Same : Forall2 (fun d d' : Course => d' = d \/ ID d = ID c) coll coll).
  { clear F. induction coll; constructor; auto. }
  unfold UpdateByID. rewrite ObjectIDFromHex_Hex.
  destruct (ToBsonUpdateFromUpdateDTO dto now) as [u|] eqn:B.
  - unfold Mongo.UpdateByID.
    pose proof (UpdateOne_found ID Course_eqb (ID c) (apply_set u) coll c
                  (Courses_apply_set_ID u) F) as [M F'].
    pose proof (UpdateOne_pointwise_matching Course_eqb (Mongo.has_id ID (ID c))
                  (apply_set u) coll) as PW.
    destruct (Mongo.UpdateOne Course_eqb (Mongo.has_id ID (ID c)) (apply_set u) coll)
      as [r coll'].
    cbn [fst snd] in *. rewrite M. cbn [Z.eqb fst snd].
    split; [reflexivity|]. split.
    + rewrite F'. unfold ToBsonUpdateFromUpdateDTO in B.
      destruct dto as [[t|] [de|] [tg|] [p|]]; cbn in B; try discriminate;
        injection B as <-; reflexivity.
    + eapply AuthClaims2.Forall2_weaken; [|exact PW]. cbv beta.
      intros d d' [->|[Q _]]; [left; reflexivity|right]. apply has_id_true in Q. exact Q.
  - cbn [fst snd]. split; [reflexivity|]. split; [|exact Same].
    unfold ToBsonUpdateFromUpdateDTO in B.
    destruct dto as [[t|] [de|] [tg|] [p|]]; cbn in B; try discriminate; reflexivity.
Qed.

Lemma Courses_UpdateByID_spec_witness :
  fst (UpdateByID (Hex Samples.id1) (mkUpdateCourseDTO (Some "Go 2") None None None) 2000
         [Samples.course Samples.id1 (Some 1500)]) = Ok tt
  /\ snd (UpdateByID (Hex Samples.id1) (mkUpdateCourseDTO (Some "Go 2") None None None) 2000
            [Samples.course Samples.id1 (Some 1500)])
     = [mkCourse Samples.id1 "Go 2" "Intro to Go" Samples.author1 ["go"] true 1000 2000
          (Some 1500)].
Proof.
  destruct (Courses_UpdateByID_spec (mkUpdateCourseDTO (Some "Go 2") None None None) 2000
              [Samples.course Samples.id1 (Some 1500)] (Samples.course Samples.id1 (Some 1500)))
    as (H & _).
  - reflexivity.
  - split; [exact H|reflexivity].
Defined.

(** [DeleteByID] of a live course succeeds, after which [GetByID] fails
    with [ErrCourseNotFound] and no [Find] lists the course; every other
    course is still stored as it was. *)
Theorem Courses_DeleteByID_then_hidden
    (fmt : Time -> string) (rx : string -> string -> bool)
    (now : Time) (coll : list Course) (c : Course) :
  Mongo.unique_ids ID coll -> In c coll -> DeletedAt c = None ->
  fst (DeleteByID (Hex (ID c)) now coll) = Ok tt
  /\ GetByID fmt (Hex (ID c)) (snd (DeleteByID (Hex (ID c)) now coll)) = Err ErrCourseNotFound
  /\ (forall f rs, Find fmt rx f (snd (DeleteByID (Hex (ID c)) now coll)) = Ok rs ->
        forall r, In r rs -> read_ID r <> Hex (ID c))
  /\ (forall x, In x coll -> ID x <> ID c ->
        In x (snd (DeleteByID (Hex (ID c)) now coll))).
Proof.
  intros U Hc Live.
  pose proof (FindOne_by_id ID coll c U Hc) as F.
  rewrite (Courses_DeleteByID_found c now coll F).
  assert (E : Course_eqb (set_deleted_at now c) c = false).
  { unfold Course_eqb. apply andb_false_iff. right.
    cbn [DeletedAt set_deleted_at]. rewrite Live. reflexivity. }
  rewrite E. cbn [fst snd]. unfold Mongo.UpdateByID.
  set (coll' := snd (Mongo.UpdateOne Course_eqb (Mongo.has_id ID (ID c)) (set_deleted_at now) coll)).
  assert (U' : Mongo.unique_ids ID coll').
  { unfold Mongo.unique_ids, coll'.
    rewrite (UpdateOne_ids ID Course_eqb); [exact U|apply Courses_set_deleted_at_ID]. }
  assert (In' : In (set_deleted_at now c) coll').
  { destruct (UpdateOne_found ID Course_eqb (ID c) (set_deleted_at now) coll c
                (Courses_set_deleted_at_ID now) F) as [_ F'].
    apply (FindOne_Some _ _ _ F'). }
  split; [reflexivity|]. split; [|split].
  - apply (Courses_GetByID_soft_deleted fmt coll' (set_deleted_at now c));
      [exact U'|exact In'|discriminate|apply ObjectIDFromHex_Hex].
  - intros f rs Hf r Hr.
    apply (Courses_Find_soft_deleted fmt rx coll' (set_deleted_at now c) f rs);
      [exact U'|exact In'|discriminate|exact Hf|exact Hr].
  - intros x Hx Nx.
    destruct (Forall2_In_l _ _ _ x
                (UpdateOne_pointwise_matching Course_eqb (Mongo.has_id ID (ID c))
                   (set_deleted_at now) coll) Hx) as (y & Hy & [->|[Q _]]).
    + exact Hy.
    + apply has_id_true in Q. contradiction.
Qed.

Lemma Courses_DeleteByID_then_hidden_witness :
  fst (DeleteByID (Hex Samples.id1) 2000 [Samples.course Samples.id1 None]) = Ok tt
  /\ GetByID Samples.rfc3339 (Hex Samples.id1)
       (snd (DeleteByID (Hex Samples.id1) 2000 [Samples.course Samples.id1 None]))
     = Err ErrCourseNotFound.
Proof.
  destruct (Courses_DeleteByID_then_hidden Samples.rfc3339 Samples.regex_any 2000
              [Samples.course Samples.id1 None] (Samples.course Samples.id1 None))
    as (H1 & H2 & _).
  - unfold Mongo.unique_ids. simpl. constructor; [intros []|constructor].
  - left. reflexivity.
  - reflexivity.
  - split; [exact H1|exact H2].
Defined.

End CoursesProps.

Module CoursesFindProps.
Import Courses CoursesFacts.



End CoursesFindProps.

(** ** The article repository and service: further properties *)

Module ArticlesProps.
Import Articles ArticlesFacts.

Lemma Articles_apply_set_ID (u : ArticleSet) (a : Article) : ID (apply_set u a) = ID a.
Proof. reflexivity. Qed.

Lemma Articles_FindOne_live_appended (i : ObjectID) (coll : list Article) (a : Article) :
  (forall x, In x coll -> ID x <> i) -> ID a = i -> DeletedAt a = None ->
  Mongo.FindOne (with_key (Mongo.has_id ID i) deleted_at_absent) (coll ++ [a]) = Some a.
Proof.
  intros Fresh Ei Live. rewrite FindOne_app.
  replace (Mongo.FindOne (with_key (Mongo.has_id ID i) deleted_at_absent) coll)
    with (@None Article).
  - simpl. unfold with_key, Mongo.has_id, deleted_at_absent.
    rewrite Ei, oid_eqb_refl, Live. reflexivity.
  - symmetry. apply FindOne_None. intros d Hd. apply not_true_iff_false. intros Q.
    apply with_key_fst in Q. apply has_id_true in Q. exact (Fresh d Hd Q).
Qed.

Lemma Articles_filter_map_spec (fmt : Time -> string) (q : Article -> bool)
    (P : Article -> Prop) (coll : list Article) (r : ReadArticleDTO) :
  (forall d, q d = true <-> P d) ->
  (In r (map (ToReadDTO fmt) (Mongo.Find q coll))
   <-> exists d, In d coll /\ P d /\ r = ToReadDTO fmt d).
Proof.
  intros H. rewrite in_map_iff. split.
  - intros (d & <- & Hd). apply Find_In in Hd. destruct Hd as [Hd Q].
    exists d. split; [exact Hd|]. split; [apply H; exact Q|reflexivity].
  - intros (d & Hd & Pd & ->). exists d. split; [reflexivity|].
    apply Find_In. split; [exact Hd|apply H; exact Pd].
Qed.

(** [Find] answers with exactly the live articles that meet the course,
    draft and tag criteria of the filter (a tag criterion counts only when
    the list is non-empty); a malformed course id fails the query.  The
    [Title] and [Version] fields of the filter are never looked at:
    changing them changes nothing in the answer. *)
Theorem Articles_Find_spec
    (fmt : Time -> string) (f : FilterArticlesDTO) (coll : list Article) :
  match Find fmt f coll with
  | Err e =>
      e = ErrNew "invalid course id format"
      /\ exists c, filter_CourseID f = Some c /\ ObjectIDFromHex c = None
  | Ok rs =>
      forall r, In r rs <->
        exists d, In d coll
          /\ (DeletedAt d = None
              /\ (forall c, filter_CourseID f = Some c -> ObjectIDFromHex c = Some (CourseID d))
              /\ (forall b, filter_IsDraft f = Some b -> IsDraft d = b)
              /\ (filter_Tags f <> [] -> tags_in (filter_Tags f) (Tags d) = true))
          /\ r = ToReadDTO fmt d
  end
  /\ forall title version,
       Find fmt (mkFilterArticlesDTO (filter_CourseID f) title (filter_Tags f)
                   (filter_IsDraft f) version) coll
       = Find fmt f coll.
Proof.
  split; [|destruct f; reflexivity].
  unfold Find. cbv zeta.
  destruct f as [fc ft tags fd fv].
  cbn [filter_CourseID filter_Tags filter_IsDraft].
  assert (Tg : tags = [] /\ (0 <? Z.of_nat (List.length tags)) = false
               \/ tags <> [] /\ (0 <? Z.of_nat (List.length tags)) = true).
  { destruct tags; [left|right]; split; try reflexivity; discriminate. }
  destruct fc as [c|]; [destruct (ObjectIDFromHex c) as [cid|] eqn:PC|].
  2:{ split; [reflexivity|]. exists c. split; [reflexivity|exact PC]. }
  - destruct fd as [b|]; destruct Tg as [[Tn ->]|[Tn ->]];
      intros r; apply Articles_filter_map_spec; intros d;
      rewrite ?with_key_true, ?Articles_deleted_at_absent_true, ?Bool.eqb_true_iff, ?oid_eqb_eq;
      (split;
       [ intros H; repeat match goal with X : _ /\ _ |- _ => destruct X end;
         repeat split; intros; try congruence; try discriminate;
         try (match goal with E : Some _ = Some _ |- _ => injection E as <- end);
         try assumption; try contradiction; try congruence
       | intros (H1 & H2 & H3 & H4); repeat split; auto;
         try (specialize (H2 c eq_refl); congruence) ]).
  - destruct fd as [b|]; destruct Tg as [[Tn ->]|[Tn ->]];
      intros r; apply Articles_filter_map_spec; intros d;
      rewrite ?with_key_true, ?Articles_deleted_at_absent_true, ?Bool.eqb_true_iff;
      (split;
       [ intros H; repeat match goal with X : _ /\ _ |- _ => destruct X end;
         repeat split; intros; try congruence; try discriminate;
         try (match goal with E : Some _ = Some _ |- _ => injection E as <- end);
         try assumption; try contradiction; try congruence
       | intros (H1 & H2 & H3 & H4); repeat split; auto ]).
Qed.

(** [Create] followed by [GetByID]: with a well-formed course id the
    article is stored under the fresh id as version 1 and as a draft, and
    [GetByID] of the returned id gives the same DTO; with a malformed course
    id nothing is stored. *)
Theorem Articles_Create_then_GetByID
    (fmt : Time -> string) (dto : CreateArticleDTO) (newID : ObjectID) (now : Time)
    (coll : list Article) :
  (forall x, In x coll -> ID x <> newID) ->
  match ObjectIDFromHex (create_CourseID dto) with
  | None => exists e, Create fmt dto newID now coll = (Err e, coll)
  | Some courseID =>
      let article :=
        mkArticle newID courseID (create_Title dto) (create_ContentMD dto)
                  (create_ContentTxt dto) (create_Order dto) 1 (create_Tags dto) true
                  now now None in
      Create fmt dto newID now coll = (Ok (ToReadDTO fmt article), coll ++ [article])
      /\ GetByID fmt (read_ID (ToReadDTO fmt article)) (coll ++ [article])
         = Ok (ToReadDTO fmt article)
  end.
Proof.
  intros Fresh. unfold Create, ToArticleFromCreateDTO.
  destruct (ObjectIDFromHex (create_CourseID dto)) as [courseID|];
    [|eexists; reflexivity].
  cbv zeta. rewrite (InsertOne_fresh ID); [|exact Fresh]. split; [reflexivity|].
  unfold GetByID. cbn [read_ID ToReadDTO ID]. rewrite ObjectIDFromHex_Hex. cbv zeta.
  rewrite Articles_FindOne_live_appended; [reflexivity|exact Fresh|reflexivity|reflexivity].
Qed.

Lemma Articles_Create_then_GetByID_witness :
  fst (Create Samples.rfc3339
         (mkCreateArticleDTO "64e21f6a2f1c8e1c0a3d4f00" "Intro" "# Intro" "Intro" 1 [])
         Samples.id3 2000 Samples.versions_1_2)
  = Ok (mkReadArticleDTO (Hex Samples.id3) "64e21f6a2f1c8e1c0a3d4f00" "Intro" "# Intro" "Intro"
          1 1 [] true (Samples.rfc3339 2000) (Samples.rfc3339 2000)).
Proof.
  pose proof (Articles_Create_then_GetByID Samples.rfc3339
                (mkCreateArticleDTO "64e21f6a2f1c8e1c0a3d4f00" "Intro" "# Intro" "Intro" 1 [])
                Samples.id3 2000 Samples.versions_1_2) as H.
  cbv zeta in H. cbn [create_CourseID] in H.
  change (ObjectIDFromHex "64e21f6a2f1c8e1c0a3d4f00") with (Some Samples.course1) in H.
  destruct H as [H1 _].
  - intros x [<-|[<-|[]]] E; vm_compute in E; discriminate.
  - rewrite H1. reflexivity.
Defined.

(** The filter of the sibling lookup in [CloneWithIncrementedVersion]. *)
Lemma sibling_filter_true (o d : Article) :
  with_key (with_key (fun x => oid_eqb (CourseID x) (CourseID o))
                     (fun x => String.eqb (Title x) (Title o)))
           deleted_at_absent d = true
  <-> CourseID d = CourseID o /\ Title d = Title o /\ DeletedAt d = None.
Proof.
  rewrite !with_key_true, oid_eqb_eq, String.eqb_eq, Articles_deleted_at_absent_true. tauto.
Qed.

(** What a clone of a live article is. *)
Lemma Clone_run
    (fmt : Time -> string) (id : string) (newID : ObjectID) (now : Time)
    (coll : list Article) (original : Article) :
  ObjectIDFromHex id = Some (ID original) ->
  Mongo.FindOne (with_key (Mongo.has_id ID (ID original)) deleted_at_absent) coll
  = Some original ->
  (forall x, In x coll -> ID x <> newID) ->
  exists latest,
    In latest coll
    /\ (CourseID latest = CourseID original /\ Title latest = Title original
        /\ DeletedAt latest = None)
    /\ (forall d, In d coll ->
          CourseID d = CourseID original -> Title d = Title original -> DeletedAt d = None ->
          Version d <= Version latest)
    /\ CloneWithIncrementedVersion fmt id newID now coll
       = let clone :=
           mkArticle newID (CourseID original) (Title original) (ContentMD original)
                     (ContentTxt original) (Order original)
                     (int_add (Z.max (Version original) (Version latest)) 1)
                     (Tags original) (IsDraft original) now now None in
         (Ok (ToReadDTO fmt clone), coll ++ [clone]).
Proof.
  intros P F Fresh. unfold CloneWithIncrementedVersion. rewrite P, F. cbv zeta.
  destruct (FindOne_Some _ _ _ F) as [Hin Hq]. apply with_key_true in Hq.
  destruct Hq as [_ Hlive]. apply Articles_deleted_at_absent_true in Hlive.
  destruct (Mongo.FindOneSortDesc Version
              (with_key (with_key (fun x => oid_eqb (CourseID x) (CourseID original))
                                  (fun x => String.eqb (Title x) (Title original)))
                        deleted_at_absent) coll) as [latest|] eqn:L.
  - destruct (FindOneSortDesc_Some _ _ _ _ L) as (I & Q & B).
    exists latest. split; [exact I|]. split; [apply sibling_filter_true; exact Q|].
    split.
    + intros d Hd H1 H2 H3. apply B; [exact Hd|]. apply sibling_filter_true. tauto.
    + rewrite (InsertOne_fresh ID); [reflexivity|exact Fresh].
  - exfalso. pose proof (proj1 (FindOneSortDesc_None _ _ _) L original Hin) as N.
    apply not_true_iff_false in N. apply N. apply sibling_filter_true. tauto.
Qed.

(** The clone's version is new in its chain: it is greater than the
    version of every live article with the same course and title (the
    original included), as long as those versions are below the largest
    [int]. *)
Theorem Clone_version_above_siblings
    (fmt : Time -> string) (id : string) (newID : ObjectID) (now : Time)
    (coll : list Article) (original : Article) :
  ObjectIDFromHex id = Some (ID original) ->
  Mongo.FindOne (with_key (Mongo.has_id ID (ID original)) deleted_at_absent) coll
  = Some original ->
  (forall x, In x coll -> ID x <> newID) ->
  (forall x, In x coll -> - 2 ^ 63 <= Version x < 2 ^ 63 - 1) ->
  exists clone,
    CloneWithIncrementedVersion fmt id newID now coll
    = (Ok (ToReadDTO fmt clone), coll ++ [clone])
    /\ Version original < Version clone
    /\ forall d, In d coll ->
         CourseID d = CourseID original -> Title d = Title original -> DeletedAt d = None ->
         Version d < Version clone.
Proof.
  intros P F Fresh R.
  destruct (Clone_run fmt id newID now coll original P F Fresh) as (latest & I & _ & B & E).
  cbv zeta in E. eexists. split; [exact E|]. cbn [Version].
  destruct (FindOne_Some _ _ _ F) as [Hin _].
  pose proof (R original Hin) as Ro. pose proof (R latest I) as Rl.
  assert (V : int_add (Z.max (Version original) (Version latest)) 1
              = Z.max (Version original) (Version latest) + 1).
  { apply AuthClaims.int_wrap_small. unfold int_range. lia. }
  rewrite V. split; [lia|].
  intros d Hd H1 H2 H3. specialize (B d Hd H1 H2 H3). lia.
Qed.

Lemma Clone_version_above_siblings_witness :
  exists clone,
    CloneWithIncrementedVersion Samples.rfc3339 "64e21f6a2f1c8e1c0a3d4f5b" Samples.id3 2000
      Samples.versions_1_2
    = (Ok (ToReadDTO Samples.rfc3339 clone), Samples.versions_1_2 ++ [clone])
    /\ Version (Samples.article Samples.id1 1 false None) < Version clone
    /\ forall d, In d Samples.versions_1_2 ->
         CourseID d = CourseID (Samples.article Samples.id1 1 false None) ->
         Title d = Title (Samples.article Samples.id1 1 false None) ->
         DeletedAt d = None ->
         Version d < Version clone.
Proof.
  apply (Clone_version_above_siblings Samples.rfc3339 "64e21f6a2f1c8e1c0a3d4f5b" Samples.id3 2000
           Samples.versions_1_2 (Samples.article Samples.id1 1 false None)).
  - reflexivity.
  - reflexivity.
  - intros x [<-|[<-|[]]] E; vm_compute in E; discriminate.
  - intros x [<-|[<-|[]]]; vm_compute; split; first [discriminate|reflexivity].
Defined.

(** [CloneWithIncrementedVersion] of an id under which no live article
    is stored (unknown, or soft-deleted) fails with [ErrArticleNotFound] and
    inserts nothing. *)
Theorem Clone_of_missing_or_deleted
    (fmt : Time -> string) (id : string) (i : ObjectID) (newID : ObjectID) (now : Time)
    (coll : list Article) :
  ObjectIDFromHex id = Some i ->
  (forall x, In x coll -> ID x = i -> DeletedAt x <> None) ->
  CloneWithIncrementedVersion fmt id newID now coll = (Err ErrArticleNotFound, coll).
Proof.
  intros P H. unfold CloneWithIncrementedVersion. rewrite P.
  replace (Mongo.FindOne (with_key (Mongo.has_id ID i) deleted_at_absent) coll)
    with (@None Article); [reflexivity|].
  symmetry. apply FindOne_None. intros d Hd. apply not_true_iff_false. intros Q.
  apply with_key_true in Q. destruct Q as [Q1 Q2].
  apply has_id_true in Q1. apply Articles_deleted_at_absent_true in Q2.
  exact (H d Hd Q1 Q2).
Qed.

Lemma Clone_of_missing_or_deleted_witness :
  CloneWithIncrementedVersion Samples.rfc3339 (Hex Samples.id1) Samples.id3 2000
    [Samples.article Samples.id1 1 false (Some 1500)]
  = (Err ErrArticleNotFound, [Samples.article Samples.id1 1 false (Some 1500)]).
Proof.
  apply (Clone_of_missing_or_deleted Samples.rfc3339 (Hex Samples.id1) Samples.id1 Samples.id3
           2000 [Samples.article Samples.id1 1 false (Some 1500)]).
  - reflexivity.
  - intros x [<-|[]] _. discriminate.
Defined.

End ArticlesProps.

Module ArticleVersionsProps.
Import Articles ArticlesFacts.

Section SortedFind.
Context {D : Type}.
Variable key : D -> Z.

Lemma insert_asc_In (d x : D) (l : list D) :
  In x (Mongo.insert_asc key d l) <-> x = d \/ In x l.
Proof.
  induction l as [|y l IH]; simpl; [intuition congruence|].
  destruct (key d <=? key y); simpl; [intuition congruence|].
  rewrite IH. intuition congruence.
Qed.

Lemma insert_asc_sorted (d : D) (l : list D) :
  StronglySorted (fun x y => key x <= key y) l ->
  StronglySorted (fun x y => key x <= key y) (Mongo.insert_asc key d l).
Proof.
  induction 1 as [|y l S IH F]; simpl.
  - constructor; [constructor|constructor].
  - destruct (Z.leb_spec (key d) (key y)) as [L|L].
    + constructor; [constructor; assumption|].
      constructor; [exact L|].
      rewrite Forall_forall in *. intros z Hz. specialize (F z Hz). lia.
    + constructor; [exact IH|].
      rewrite Forall_forall in *. intros z Hz. apply insert_asc_In in Hz.
      destruct Hz as [->|Hz]; [lia|apply F; exact Hz].
Qed.

Lemma FindSortAsc_In (q : D -> bool) (c : list D) (x : D) :
  In x (Mongo.FindSortAsc key q c) <-> In x c /\ q x = true.
Proof.
  unfold Mongo.FindSortAsc. rewrite <- filter_In.
  induction (filter q c) as [|y l IH]; simpl; [tauto|].
  rewrite insert_asc_In, IH. intuition congruence.
Qed.

Lemma FindSortAsc_sorted (q : D -> bool) (c : list D) :
  StronglySorted (fun x y => key x <= key y) (Mongo.FindSortAsc key q c).
Proof.
  unfold Mongo.FindSortAsc.
  induction (filter q c) as [|y l IH]; simpl; [constructor|].
  apply insert_asc_sorted. exact IH.
Qed.

End SortedFind.

Lemma StronglySorted_map {A B : Type} (f : A -> B) (R : B -> B -> Prop) (l : list A) :
  StronglySorted (fun x y => R (f x) (f y)) l -> StronglySorted R (map f l).
Proof.
  induction 1 as [|x l S IH F]; simpl; constructor; [exact IH|].
  rewrite Forall_forall in *. intros y Hy. apply in_map_iff in Hy.
  destruct Hy as (z & <- & Hz). apply F. exact Hz.
Qed.

(** [FindAllVersions] answers with exactly the live articles of the given
    course and title, drafts included, ordered by ascending version; a
    malformed course id fails the query. *)
Theorem FindAllVersions_sorted
    (fmt : Time -> string) (courseID title : string) (coll : list Article) :
  match ObjectIDFromHex courseID with
  | None => FindAllVersions fmt courseID title coll = Err (ErrNew "invalid course id format")
  | Some cid =>
      exists rs,
        FindAllVersions fmt courseID title coll = Ok rs
        /\ StronglySorted (fun x y => read_Version x <= read_Version y) rs
        /\ forall r, In r rs <->
             exists d, In d coll
                       /\ CourseID d = cid /\ Title d = title /\ DeletedAt d = None
                       /\ r = ToReadDTO fmt d
  end.
Proof.
  unfold FindAllVersions. destruct (ObjectIDFromHex courseID) as [cid|]; [|reflexivity].
  cbv zeta. eexists. split; [reflexivity|]. split.
  - apply StronglySorted_map. cbn [read_Version ToReadDTO]. apply FindSortAsc_sorted.
  - intros r. rewrite in_map_iff. split.
    + intros (d & <- & Hd). apply FindSortAsc_In in Hd. destruct Hd as [Hd Q].
      rewrite !with_key_true, oid_eqb_eq, String.eqb_eq, Articles_deleted_at_absent_true in Q.
      exists d. tauto.
    + intros (d & Hd & H1 & H2 & H3 & ->). exists d. split; [reflexivity|].
      apply FindSortAsc_In. split; [exact Hd|].
      rewrite !with_key_true, oid_eqb_eq, String.eqb_eq, Articles_deleted_at_absent_true. tauto.
Qed.

(** [UpdateWithVersioning] on a live article: the clone is inserted under
    the fresh id, the DTO's fields are applied to the clone and not to the
    original, and the clone is returned as stored.  The collection grows by
    that one document and every earlier document, the original included, is
    left as it was.  An empty DTO still produces the clone; a version in the
    DTO replaces the incremented one. *)
Theorem UpdateWithVersioning_spec
    (fmt : Time -> string) (id : string) (dto : UpdateArticleDTO)
    (newID : ObjectID) (now1 now2 : Time) (coll : list Article) (original : Article) :
  ObjectIDFromHex id = Some (ID original) ->
  Mongo.FindOne (with_key (Mongo.has_id ID (ID original)) deleted_at_absent) coll
  = Some original ->
  (forall x, In x coll -> ID x <> newID) ->
  exists clone,
    CloneWithIncrementedVersion fmt id newID now1 coll
    = (Ok (ToReadDTO fmt clone), coll ++ [clone])
    /\ let result :=
         mkArticle newID (CourseID original)
           (Auth.or_keep (upd_Title dto) (Title original))
           (Auth.or_keep (upd_ContentMD dto) (ContentMD original))
           (Auth.or_keep (upd_ContentTxt dto) (ContentTxt original))
           (Auth.or_keep (upd_Order dto) (Order original))
           (Auth.or_keep (upd_Version dto) (Version clone))
           (Auth.or_keep (upd_Tags dto) (Tags original))
           (Auth.or_keep (upd_IsDraft dto) (IsDraft original))
           now1
           (match ToBsonUpdateFromUpdateDTO dto now2 with Some _ => now2 | None => now1 end)
           None in
       UpdateWithVersioning fmt id dto newID now1 now2 coll
       = (Ok (ToReadDTO fmt result), coll ++ [result]).
Proof.
  intros P F Fresh.
  destruct (ArticlesProps.Clone_run fmt id newID now1 coll original P F Fresh)
    as (latest & _ & _ & _ & E).
  cbv zeta in E.
  match type of E with _ = (_, _ ++ [?c]) => set (clone := c) in * end.
  exists clone. split; [exact E|]. cbv zeta.
  unfold UpdateWithVersioning. rewrite E. cbn [read_ID ToReadDTO ID clone].
  unfold UpdateByID. rewrite ObjectIDFromHex_Hex.
  destruct (ToBsonUpdateFromUpdateDTO dto now2) as [u|] eqn:B.
  - unfold Mongo.UpdateByID.
    rewrite (UpdateOne_app_fresh ID Article_eqb newID (apply_set u) coll clone Fresh eq_refl).
    cbn [Mongo.MatchedCount Z.eqb]. unfold GetByID. rewrite ObjectIDFromHex_Hex. cbv zeta.
    rewrite ArticlesProps.Articles_FindOne_live_appended;
      [|exact Fresh|reflexivity|reflexivity].
    unfold ToBsonUpdateFromUpdateDTO in B. cbv zeta in B.
    destruct (set_len _ =? 0) in B; [discriminate|]. injection B as <-. reflexivity.
  - unfold GetByID. rewrite ObjectIDFromHex_Hex. cbv zeta.
    rewrite ArticlesProps.Articles_FindOne_live_appended;
      [|exact Fresh|reflexivity|reflexivity].
    unfold ToBsonUpdateFromUpdateDTO in B.
    destruct dto as [[t|] [m|] [x|] [o|] [v|] [g|] [d|]]; cbn in B; try discriminate.
    reflexivity.
Qed.

Lemma UpdateWithVersioning_spec_witness :
  fst (UpdateWithVersioning Samples.rfc3339 "64e21f6a2f1c8e1c0a3d4f5c"
         (mkUpdateArticleDTO None (Some "# v3") None None None None (Some true))
         Samples.id3 2000 2001 Samples.versions_1_2)
  = Ok (mkReadArticleDTO (Hex Samples.id3) (Hex Samples.course1) "Intro to Markdown" "# v3"
          "Markdown" 1 3 ["markdown"] true (Samples.rfc3339 2000) (Samples.rfc3339 2001))
  /\ firstn 2 (snd (UpdateWithVersioning Samples.rfc3339 "64e21f6a2f1c8e1c0a3d4f5c"
                 (mkUpdateArticleDTO None (Some "# v3") None None None None (Some true))
                 Samples.id3 2000 2001 Samples.versions_1_2))
     = Samples.versions_1_2.
Proof.
  destruct (UpdateWithVersioning_spec Samples.rfc3339 "64e21f6a2f1c8e1c0a3d4f5c"
              (mkUpdateArticleDTO None (Some "# v3") None None None None (Some true))
              Samples.id3 2000 2001 Samples.versions_1_2 (Samples.article Samples.id2 2 false None))
    as (clone & C & E).
  - reflexivity.
  - reflexivity.
  - intros x [<-|[<-|[]]] Q; vm_compute in Q; discriminate.
  - cbv zeta in E. rewrite E. cbn [fst snd].
    assert (V : Version clone = 3).
    { apply (f_equal snd) in C. cbn [snd] in C. vm_compute in C.
      injection C as C. rewrite <- C. reflexivity. }
    rewrite V. split; reflexivity.
Defined.

End ArticleVersionsProps.

(** ** The user repository *)

Module UserRepoProps.
Import UserRepo.

Lemma UpdateOne_map {D K : Type} (doc_eqb : D -> D -> bool) (f : D -> K)
    (q : D -> bool) (set : D -> D) (c : list D) :
  (forall d, f (set d) = f d) ->
  map f (snd (Mongo.UpdateOne doc_eqb q set c)) = map f c.
Proof.
  intros Hf. induction c as [|d c IH]; simpl; [reflexivity|].
  destruct (q d); simpl; [rewrite Hf; reflexivity|].
  destruct (Mongo.UpdateOne doc_eqb q set c) as [r c']. simpl in *. rewrite IH. reflexivity.
Qed.

Lemma CountDocuments_pos {D : Type} (q : D -> bool) (c : list D) :
  (0 <? Mongo.CountDocuments q c) = existsb q c.
Proof.
  unfold Mongo.CountDocuments. induction c as [|d c IH]; simpl; [reflexivity|].
  destruct (q d); simpl; [|exact IH].
  apply Z.ltb_lt. lia.
Qed.

Lemma FindOne_by_telegram_username (coll : list User) (u : User) :
  NoDup (map TelegramUsername coll) -> In u coll ->
  Mongo.FindOne (has_telegram_username (TelegramUsername u)) coll = Some u.
Proof.
  induction coll as [|d coll IH]; [intros _ []|].
  simpl. intros N Hu. inversion N as [|? ? N1 N2]; subst.
  unfold has_telegram_username at 1.
  destruct (String.eqb_spec (TelegramUsername d) (TelegramUsername u)) as [E|E].
  - destruct Hu as [->|Hu]; [reflexivity|].
    exfalso. apply N1. rewrite E. apply in_map. exact Hu.
  - destruct Hu as [->|Hu]; [congruence|]. apply IH; assumption.
Qed.

Lemma Users_set_deleted_at_ID (now : Time) (u : User) : ID (set_deleted_at now u) = ID u.
Proof. reflexivity. Qed.

(** [Create] keeps Telegram usernames unique.  It fails with
    [ErrUserExists], storing nothing, when some stored user, soft-deleted or
    not, has the DTO's Telegram username; otherwise the user is stored under
    the fresh id, [GetByTelegramUsername] finds it, and usernames that were
    pairwise distinct stay so. *)
Theorem Users_Create_telegram_unique
    (fmt : Time -> string) (dto : CreateUserDTO) (newID : ObjectID) (now1 now2 : Time)
    (coll : list User) :
  (forall x, In x coll -> ID x <> newID) ->
  ((exists x, In x coll /\ TelegramUsername x = create_TelegramUsername dto) ->
   Create fmt dto newID now1 now2 coll = (Err ErrUserExists, coll))
  /\ ((forall x, In x coll -> TelegramUsername x <> create_TelegramUsername dto) ->
      let user := ToUserFromCreateDTO dto newID now1 now2 in
      Create fmt dto newID now1 now2 coll = (Ok (ToReadUserDTO fmt user), coll ++ [user])
      /\ GetByTelegramUsername fmt (create_TelegramUsername dto) (coll ++ [user])
         = Ok (ToReadUserDTO fmt user)
      /\ (NoDup (map TelegramUsername coll) ->
          NoDup (map TelegramUsername (coll ++ [user])))).
Proof.
  intros Fresh. unfold Create. cbv zeta. rewrite CountDocuments_pos. split.
  - intros (x & Hx & Ex).
    replace (existsb (has_telegram_username (create_TelegramUsername dto)) coll) with true;
      [reflexivity|].
    symmetry. apply existsb_exists. exists x. split; [exact Hx|].
    unfold has_telegram_username. apply String.eqb_eq. exact Ex.
  - intros None_.
    assert (N : forall d, In d coll ->
                  has_telegram_username (create_TelegramUsername dto) d = false).
    { intros d Hd. unfold has_telegram_username. apply String.eqb_neq. apply None_. exact Hd. }
    replace (existsb (has_telegram_username (create_TelegramUsername dto)) coll) with false.
    2:{ symmetry. apply not_true_iff_false. intros E. apply existsb_exists in E.
        destruct E as (x & Hx & Q). rewrite (N x Hx) in Q. discriminate. }
    rewrite (InsertOne_fresh ID); [|exact Fresh]. split; [reflexivity|]. split.
    + unfold GetByTelegramUsername. rewrite FindOne_app.
      rewrite (proj2 (FindOne_None _ _) N). simpl.
      unfold has_telegram_username. cbn [TelegramUsername ToUserFromCreateDTO].
      rewrite String.eqb_refl. reflexivity.
    + intros ND. rewrite map_app. simpl.
      apply NoDup_app; [exact ND|constructor; [intros []|constructor]|].
      intros n Hn [<-|[]]. apply in_map_iff in Hn. destruct Hn as (x & Ex & Hx).
      exact (None_ x Hx Ex).
Qed.

Lemma Users_Create_telegram_unique_witness :
  Create Samples.rfc3339 (mkCreateUserDTO "bob" "bobby" "Bob" "B" "student") Samples.id2 2000 2000
    [mkUser Samples.id1 "bob" "bob" "Bob" "B" "student" 1000 1000 (Some 1500)]
  = (Err ErrUserExists, [mkUser Samples.id1 "bob" "bob" "Bob" "B" "student" 1000 1000 (Some 1500)]).
Proof.
  destruct (Users_Create_telegram_unique Samples.rfc3339
              (mkCreateUserDTO "bob" "bobby" "Bob" "B" "student") Samples.id2 2000 2000
              [mkUser Samples.id1 "bob" "bob" "Bob" "B" "student" 1000 1000 (Some 1500)])
    as [H _].
  - intros x [<-|[]] E. vm_compute in E. discriminate.
  - apply H. eexists. split; [left; reflexivity|reflexivity].
Defined.

(** Soft-deleting a user hides nothing: after [DeleteByID] has set
    [deleted_at], [GetByID] and [GetByTelegramUsername] still return the
    user, and [Create] still refuses the Telegram username. *)
Theorem Users_soft_deleted_still_found
    (fmt : Time -> string) (now : Time) (coll : list User) (u : User) :
  Mongo.unique_ids ID coll ->
  NoDup (map TelegramUsername coll) ->
  In u coll ->
  DeletedAt u <> Some now ->
  fst (DeleteByID (Hex (ID u)) now coll) = Ok tt
  /\ Mongo.FindOne (Mongo.has_id ID (ID u)) (snd (DeleteByID (Hex (ID u)) now coll))
     = Some (set_deleted_at now u)
  /\ GetByID fmt (Hex (ID u)) (snd (DeleteByID (Hex (ID u)) now coll))
     = Ok (ToReadUserDTO fmt u)
  /\ GetByTelegramUsername fmt (TelegramUsername u) (snd (DeleteByID (Hex (ID u)) now coll))
     = Ok (ToReadUserDTO fmt u)
  /\ forall dto newID now1 now2,
       create_TelegramUsername dto = TelegramUsername u ->
       fst (Create fmt dto newID now1 now2 (snd (DeleteByID (Hex (ID u)) now coll)))
       = Err ErrUserExists.
Proof.
  intros U ND Hu Hd.
  pose proof (FindOne_by_id ID coll u U Hu) as F.
  unfold DeleteByID. rewrite ObjectIDFromHex_Hex. unfold Mongo.UpdateByID.
  pose proof (UpdateOne_modified User_eqb (Mongo.has_id ID (ID u)) (set_deleted_at now) coll u F)
    as M.
  destruct (UpdateOne_found ID User_eqb (ID u) (set_deleted_at now) coll u
              (Users_set_deleted_at_ID now) F) as [_ F'].
  pose proof (UpdateOne_map User_eqb TelegramUsername (Mongo.has_id ID (ID u))
                (set_deleted_at now) coll (fun d => eq_refl)) as T.
  destruct (Mongo.UpdateOne User_eqb (Mongo.has_id ID (ID u)) (set_deleted_at now) coll)
    as [r coll'].
  cbn [fst snd] in *. subst r. cbn [Mongo.ModifiedCount].
  assert (E : User_eqb (set_deleted_at now u) u = false).
  { unfold User_eqb. apply andb_false_iff. right. cbn [DeletedAt set_deleted_at].
    destruct (DeletedAt u) as [t|]; [|reflexivity]. simpl. apply Z.eqb_neq. congruence. }
  rewrite E. cbn [Z.eqb fst snd].
  assert (Hin : In (set_deleted_at now u) coll') by apply (FindOne_Some _ _ _ F').
  assert (FT : Mongo.FindOne (has_telegram_username (TelegramUsername u)) coll'
               = Some (set_deleted_at now u)).
  { apply (FindOne_by_telegram_username coll' (set_deleted_at now u)); [|exact Hin].
    rewrite T. exact ND. }
  split; [reflexivity|]. split; [exact F'|]. split; [|split].
  - unfold GetByID. rewrite ObjectIDFromHex_Hex, F'. reflexivity.
  - unfold GetByTelegramUsername. rewrite FT. reflexivity.
  - intros dto newID now1 now2 En. unfold Create. cbv zeta. rewrite CountDocuments_pos.
    replace (existsb (has_telegram_username (create_TelegramUsername dto)) coll') with true;
      [reflexivity|].
    symmetry. apply existsb_exists. exists (set_deleted_at now u). split; [exact Hin|].
    unfold has_telegram_username. apply String.eqb_eq. rewrite En. reflexivity.
Qed.

Lemma Users_soft_deleted_still_found_witness :
  fst (DeleteByID (Hex Samples.id1) 2000
         [mkUser Samples.id1 "bob" "bob" "Bob" "B" "student" 1000 1000 None]) = Ok tt
  /\ GetByTelegramUsername Samples.rfc3339 "bob"
       (snd (DeleteByID (Hex Samples.id1) 2000
               [mkUser Samples.id1 "bob" "bob" "Bob" "B" "student" 1000 1000 None]))
     = Ok (ToReadUserDTO Samples.rfc3339
             (mkUser Samples.id1 "bob" "bob" "Bob" "B" "student" 1000 1000 None)).
Proof.
  destruct (Users_soft_deleted_still_found Samples.rfc3339 2000
              [mkUser Samples.id1 "bob" "bob" "Bob" "B" "student" 1000 1000 None]
              (mkUser Samples.id1 "bob" "bob" "Bob" "B" "student" 1000 1000 None))
    as (H1 & _ & _ & H4 & _).
  - unfold Mongo.unique_ids. simpl. constructor; [intros []|constructor].
  - simpl. constructor; [intros []|constructor].
  - left. reflexivity.
  - discriminate.
  - split; [exact H1|exact H4].
Defined.

Lemma Users_apply_set_ID (w : UserSet) (u : User) : ID (apply_set w u) = ID u.
Proof. reflexivity. Qed.

(** [UpdateByID] of a stored user succeeds; with an empty DTO the
    collection is left as it was, otherwise the stored document takes the
    username, first name and last name the DTO sets and the clock reading as
    [updated_at].  Its id, Telegram username, role, creation time and
    [deleted_at] are never changed, and no other document is. *)
Theorem Users_UpdateByID_spec
    (dto : UpdateUserDTO) (now : Time) (coll : list User) (u : User) :
  Mongo.FindOne (Mongo.has_id ID (ID u)) coll = Some u ->
  fst (UpdateByID (Hex (ID u)) dto now coll) = Ok tt
  /\ match upd_Username dto, upd_FirstName dto, upd_LastName dto with
     | None, None, None => snd (UpdateByID (Hex (ID u)) dto now coll) = coll
     | _, _, _ =>
         Mongo.FindOne (Mongo.has_id ID (ID u)) (snd (UpdateByID (Hex (ID u)) dto now coll))
         = Some (mkUser (ID u) (TelegramUsername u)
                   (Auth.or_keep (upd_Username dto) (Username u))
                   (Auth.or_keep (upd_FirstName dto) (FirstName u))
                   (Auth.or_keep (upd_LastName dto) (LastName u))
                   (Role u) (CreatedAt u) now (DeletedAt u))
     end
  /\ Forall2 (fun d d' => d' = d \/ ID d = ID u)
             coll (snd (UpdateByID (Hex (ID u)) dto now coll)).
Proof.
  intros F.
  assert (Same : Forall2 (fun d d' : User => d' = d \/ ID d = ID u) coll coll).
  { clear F. induction coll; constructor; auto. }
  unfold UpdateByID. rewrite ObjectIDFromHex_Hex.
  destruct (ToBsonUpdateFromUpdateDTO dto now) as [w|] eqn:B.
  - unfold Mongo.UpdateByID.
    pose proof (UpdateOne_found ID User_eqb (ID u) (apply_set w) coll u
                  (Users_apply_set_ID w) F) as [M F'].
    pose proof (UpdateOne_pointwise_matching User_eqb (Mongo.has_id ID (ID u))
                  (apply_set w) coll) as PW.
    destruct (Mongo.UpdateOne User_eqb (Mongo.has_id ID (ID u)) (apply_set w) coll)
      as [r coll'].
    cbn [fst snd] in *. rewrite M. cbn [Z.eqb fst snd].
    split; [reflexivity|]. split.
    + rewrite F'. unfold ToBsonUpdateFromUpdateDTO in B.
      destruct dto as [[a|] [b|] [c|]]; cbn in B; try discriminate;
        injection B as <-; reflexivity.
    + eapply AuthClaims2.Forall2_weaken; [|exact PW]. cbv beta.
      intros d d' [->|[Q _]]; [left; reflexivity|right]. apply has_id_true in Q. exact Q.
  - cbn [fst snd]. split; [reflexivity|]. split; [|exact Same].
    unfold ToBsonUpdateFromUpdateDTO in B.
    destruct dto as [[a|] [b|] [c|]]; cbn in B; try discriminate; reflexivity.
Qed.

Lemma Users_UpdateByID_spec_witness :
  fst (UpdateByID (Hex Samples.id1) (mkUpdateUserDTO None (Some "Robert") None) 2000
         [mkUser Samples.id1 "bob" "bob" "Bob" "B" "student" 1000 1000 None]) = Ok tt
  /\ snd (UpdateByID (Hex Samples.id1) (mkUpdateUserDTO None (Some "Robert") None) 2000
            [mkUser Samples.id1 "bob" "bob" "Bob" "B" "student" 1000 1000 None])
     = [mkUser Samples.id1 "bob" "bob" "Robert" "B" "student" 1000 2000 None].
Proof.
  destruct (Users_UpdateByID_spec (mkUpdateUserDTO None (Some "Robert") None) 2000
              [mkUser Samples.id1 "bob" "bob" "Bob" "B" "student" 1000 1000 None]
              (mkUser Samples.id1 "bob" "bob" "Bob" "B" "student" 1000 1000 None))
    as (H & _).
  - reflexivity.
  - split; [exact H|reflexivity].
Defined.

End UserRepoProps.
